(** * ioBroker.discord: reconciliation, write-suppression caches, outbound
      command routing and authorization of the Discord adapter.

    The development embeds the adapter class [DiscordAdapter] of
    [build/main.js] (the newer revision, with server roles, the [unloaded]
    flag and the regular-expression target resolution) and, where a claim
    speaks about both revisions, the same methods of [src/main.ts].

    Strings are Rocq strings, dictionaries ([Collection], [Map]) are [gmap]s
    keyed by strings, [Set]s are [gset]s, JavaScript values are the inductive
    type [JsVal].  Calls that leave the adapter (object and state database,
    Discord client) are recorded, in the order in which they are issued, in the
    call log of the adapter state. *)

From Stdlib Require Import ZArith String Ascii List Bool Lia.
From stdpp Require Import base strings gmap list.

Open Scope Z_scope.

#[global] Arguments String.append !_ _ / : simpl nomatch.

(** ** JavaScript strings *)

Module JsString.

(** [s.startsWith(p)] *)
Fixpoint startsWith (s p : string) {struct p} : bool :=
  match p with
  | EmptyString => true
  | String a p' =>
      match s with
      | EmptyString => false
      | String b s' => Ascii.eqb a b && startsWith s' p'
      end
  end.

(** The rest of [s] after the literal prefix [p], when [s] starts with it. *)
Fixpoint stripPrefix (p s : string) : option string :=
  match p with
  | EmptyString => Some s
  | String a p' =>
      match s with
      | EmptyString => None
      | String b s' => if Ascii.eqb a b then stripPrefix p' s' else None
      end
  end.

Fixpoint drop (n : nat) (s : string) : string :=
  match n, s with
  | O, _ => s
  | S n', String _ s' => drop n' s'
  | S _, EmptyString => EmptyString
  end.

Fixpoint take (n : nat) (s : string) : string :=
  match n, s with
  | O, _ => EmptyString
  | S n', String a s' => String a (take n' s')
  | S _, EmptyString => EmptyString
  end.

(** [s.endsWith(p)] *)
Definition endsWith (s p : string) : bool :=
  (String.length p <=? String.length s)%nat
  && String.eqb (drop (String.length s - String.length p) s) p.

(** [s.indexOf(c)] for a one-character needle: the position of its first
    occurrence, [-1] when there is none. *)
Fixpoint indexOf (s : string) (c : ascii) : Z :=
  match s with
  | EmptyString => -1
  | String a s' =>
      if Ascii.eqb a c then 0
      else let i := indexOf s' c in if i <? 0 then -1 else i + 1
  end.

(** Index normalisation of [slice]: negative indices count from the end,
    everything is clamped to [0 .. length]. *)
Definition clampIndex (len i : Z) : Z :=
  if i <? 0 then Z.max (len + i) 0 else Z.min i len.

(** [s.slice(from, to)]; [to = None] is the one-argument form. *)
Definition slice (s : string) (from : Z) (to : option Z) : string :=
  let len := Z.of_nat (String.length s) in
  let a := clampIndex len from in
  let b := match to with Some t => clampIndex len t | None => len end in
  take (Z.to_nat (b - a)) (drop (Z.to_nat a) s).

(** [\d] *)
Definition isDigit (c : ascii) : bool :=
  let n := nat_of_ascii c in (48 <=? n)%nat && (n <=? 57)%nat.

(** [\w] *)
Definition isWordChar (c : ascii) : bool :=
  let n := nat_of_ascii c in
  ((48 <=? n) && (n <=? 57) || (65 <=? n) && (n <=? 90)
   || (97 <=? n) && (n <=? 122) || (n =? 95))%nat.

(** Greedy [\d*]: the longest run of digits at the start of [s] and what
    follows it. *)
Fixpoint spanDigits (s : string) : string * string :=
  match s with
  | EmptyString => (EmptyString, EmptyString)
  | String a s' =>
      if isDigit a then let '(d, r) := spanDigits s' in (String a d, r)
      else (EmptyString, s)
  end.

(** [\d+] at the start of [s]. *)
Definition digits1 (s : string) : option (string * string) :=
  match spanDigits s with
  | (EmptyString, _) => None
  | (d, r) => Some (d, r)
  end.

Fixpoint allDigits (s : string) : bool :=
  match s with
  | EmptyString => true
  | String a s' => isDigit a && allDigits s'
  end.

Fixpoint contains (s : string) (c : ascii) : bool :=
  match s with
  | EmptyString => false
  | String a s' => Ascii.eqb a c || contains s' c
  end.

End JsString.

Import JsString.

(** ** JavaScript values *)

(** Numbers are the integers the adapter handles (counts, timestamps);
    objects are their property lists in insertion order. *)
#[warnings="-register-all"]
Inductive JsVal : Type :=
| JUndefined
| JNull
| JBool (b : bool)
| JNum (n : Z)
| JStr (s : string)
| JArr (items : list JsVal)
| JObj (fields : list (string * JsVal)).

Abbreviation Obj := (list (string * JsVal)).

Section JsVal_induction.
Variable P : JsVal -> Prop.
Hypothesis Hundef : P JUndefined.
Hypothesis Hnull : P JNull.
Hypothesis Hbool : forall b, P (JBool b).
Hypothesis Hnum : forall n, P (JNum n).
Hypothesis Hstr : forall s, P (JStr s).
Hypothesis Harr : forall items, Forall P items -> P (JArr items).
Hypothesis Hobj : forall fields, Forall (fun kv => P (snd kv)) fields -> P (JObj fields).

End JsVal_induction.

(** Truthiness, as used by [!x], [x || y] and [if (x)]. *)
Definition truthy (v : JsVal) : bool :=
  match v with
  | JUndefined | JNull => false
  | JBool b => b
  | JNum n => negb (n =? 0)
  | JStr s => negb (String.eqb s "")
  | JArr _ | JObj _ => true
  end.

(** [Array.isArray(v)] *)
Definition isArray (v : JsVal) : bool :=
  match v with JArr _ => true | _ => false end.

Fixpoint getField (fields : Obj) (k : string) : JsVal :=
  match fields with
  | [] => JUndefined
  | (k', v) :: rest => if String.eqb k' k then v else getField rest k
  end.

(** [o.k] on an object value; a missing property reads as [undefined]. *)
Definition prop (o : JsVal) (k : string) : JsVal :=
  match o with
  | JObj fields => getField fields k
  | _ => JUndefined
  end.

(** [o.k = v] on an object: an existing property keeps its place, a new one
    is added at the end. *)
Fixpoint setField (fields : Obj) (k : string) (v : JsVal) : Obj :=
  match fields with
  | [] => [(k, v)]
  | (k', v') :: rest =>
      if String.eqb k' k then (k', v) :: rest else (k', v') :: setField rest k v
  end.

Fixpoint eqList {A : Type} (eq : A -> A -> bool) (xs ys : list A) : bool :=
  match xs, ys with
  | [], [] => true
  | x :: xs', y :: ys' => eq x y && eqList eq xs' ys'
  | _, _ => false
  end.

(** [isDeepStrictEqual] of [node:util].  Primitives are compared by value,
    arrays element by element, objects property by property.  Properties are
    compared in the order in which they were written; the adapter only ever
    compares objects built by the same object literal, so that Node's
    indifference to property order never comes into play. *)
Fixpoint isDeepStrictEqual (a b : JsVal) : bool :=
  match a, b with
  | JUndefined, JUndefined => true
  | JNull, JNull => true
  | JBool x, JBool y => Bool.eqb x y
  | JNum x, JNum y => x =? y
  | JStr x, JStr y => String.eqb x y
  | JArr xs, JArr ys => eqList isDeepStrictEqual xs ys
  | JObj fa, JObj fb =>
      eqList (fun p q => String.eqb (fst p) (fst q)
                         && isDeepStrictEqual (snd p) (snd q)) fa fb
  | _, _ => false
  end.

(** What [collection.get(key)] yields as a value. *)
Definition getOrUndefined (o : option Obj) : JsVal :=
  match o with Some fields => JObj fields | None => JUndefined end.

(** ** The adapter and its collaborators *)

(** [config.authorizedUsers[i]] and [config.authorizedServerRoles[i]] *)
Record AuthorizedUser := {
  userId : string;
  au_getStates : bool;
  au_setStates : bool;
  au_useText2command : bool }.

Record AuthorizedServerRole := {
  serverAndRoleId : string;
  ar_getStates : bool;
  ar_setStates : bool;
  ar_useText2command : bool }.

Record Config := {
  enableAuthorization : bool;
  authorizedUsers : list AuthorizedUser;
  authorizedServerRoles : list AuthorizedServerRole;
  observeUserPresence : bool }.

(** What the adapter reads from a Discord user and from a guild channel. *)
Record User := {
  user_id : string;
  user_tag : string;
  user_bot : bool;
  user_displayAvatarURL : string }.

Record ChannelMember := {
  cm_userId : string;
  cm_userTag : string;
  cm_displayName : string }.

Record Channel := {
  channel_id : string;
  channel_name : string;
  channel_type : string;
  channel_parentId : option string;
  channel_parentName : option string;   (* [channel.parent?.name] *)
  channel_guildName : string;           (* [channel.guild.name] *)
  channel_isText : bool;
  channel_isVoice : bool;
  channel_isThread : bool;
  channel_members : list ChannelMember }.

(** Where a message can be sent to. *)
Inductive Target :=
| TChannel (guildId : string) (channel : Channel)
| TUser (user : User).

(** Calls that leave the adapter: the object and state database of the host
    and the Discord client. *)
Inductive Call :=
| ExtendObject (id : string) (obj : Obj)
| SetState (id : string) (val : JsVal) (ack : bool)
| DelObject (id : string) (recursive : bool)
| Send (target : Target) (mo : JsVal)
| React (target : Target) (messageId : JsVal) (emoji : string)
| SetPresence (data : Obj)
| VoiceDisconnect (guildId memberId : string)
| VoiceSetDeaf (guildId memberId : string) (deaf : bool)
| VoiceSetMute (guildId memberId : string) (mute : bool).

(** The Discord client as far as the adapter looks into it. *)
Record Client := {
  isReady : bool;
  client_user : option string;   (* [client.user?.id], the bot itself *)
  guilds_cache : gmap string (gmap string Channel);   (* guild id, channel id *)
  users_cache : gmap string User;
  members_cache : string -> string -> option string;   (* guild id, member id: the member's tag *)
  dmChannelAvailable : string -> bool;   (* [user.dmChannel || await user.createDM()] succeeds *)
  messageAvailable : Target -> JsVal -> bool }.   (* in the cache or fetched *)

(** [src/main.ts] only: one entry of [stateId2SendTargetInfo]. *)
Inductive SendTargetInfo :=
| ToChannel (guildId guildName : string) (channel : Channel)
| ToUser (user : User).

(** What the adapter takes from its surroundings without it being part of the
    class: the translation helper of [./lib/i18n], the constants of
    [./lib/definitions], the helpers of [./lib/utils] and [node:path], and the
    JSON built-ins. *)
Record Runtime := {
  getStringOrTranslated : string -> JsVal;
  JSON_stringify : Obj -> string;
  JSON_parse : string -> option JsVal;   (* [None]: a [SyntaxError] is thrown *)
  isValidPresenceStatus : JsVal -> bool;   (* [VALID_PRESENCE_STATUS_DATA.includes] *)
  isValidActivityType : JsVal -> bool;     (* [VALID_ACTIVITY_TYPES.includes] *)
  getBufferAndNameFromBase64String : string -> option (JsVal * string);
  getBasenameFromFilePathOrUrl : string -> string;
  basename : string -> string }.

(** What a reconciliation pass or a command dispatch reads but never
    changes: the surroundings, the instance number (in decimal), the
    configuration, the Discord client, the verdict of the environment on
    each call ([rejects c]: the database or Discord answers [c] with an
    error), and the [unloaded] flag, which only [onUnload] sets. *)
Record Setting := {
  runtime : Runtime;
  instance : string;
  config : Config;
  client : Client;
  rejects : Call -> bool;
  unloaded : bool }.

(** The adapter instance: its setting, the caches and
    registries of the class, the host database (the ids of the objects that
    exist, the value of each state) and the log of the calls issued so far,
    in the order in which they were issued. *)
Record Adapter := mkAdapter {
  setting :> Setting;
  extendObjectCache : gmap string Obj;
  jsonStateCache : gmap string Obj;
  messageReceiveStates : gset string;
  stateId2SendTargetInfo : gmap string SendTargetInfo;
  objects : gset string;
  states : gmap string JsVal;
  calls : list Call }.

(** [this.namespace]: the adapter name is the constant ["discord"]. *)
Definition namespace (s : Setting) : string := "discord." +:+ instance s.

(** The adapter right after construction. *)
Definition newAdapter (s : Setting) : Adapter :=
  mkAdapter s ∅ ∅ ∅ ∅ ∅ ∅ [].

Definition withExtendObjectCache (m : gmap string Obj) (a : Adapter) : Adapter :=
  mkAdapter a m
    (jsonStateCache a) (messageReceiveStates a) (stateId2SendTargetInfo a)
    (objects a) (states a) (calls a).

Definition withJsonStateCache (m : gmap string Obj) (a : Adapter) : Adapter :=
  mkAdapter a
    (extendObjectCache a) m (messageReceiveStates a) (stateId2SendTargetInfo a)
    (objects a) (states a) (calls a).

Definition withMessageReceiveStates (s : gset string) (a : Adapter) : Adapter :=
  mkAdapter a
    (extendObjectCache a) (jsonStateCache a) s (stateId2SendTargetInfo a)
    (objects a) (states a) (calls a).

Definition withStateId2SendTargetInfo (m : gmap string SendTargetInfo) (a : Adapter) : Adapter :=
  mkAdapter a
    (extendObjectCache a) (jsonStateCache a) (messageReceiveStates a) m
    (objects a) (states a) (calls a).

Definition withObjects (s : gset string) (a : Adapter) : Adapter :=
  mkAdapter a
    (extendObjectCache a) (jsonStateCache a) (messageReceiveStates a)
    (stateId2SendTargetInfo a) s (states a) (calls a).

Definition withStates (m : gmap string JsVal) (a : Adapter) : Adapter :=
  mkAdapter a
    (extendObjectCache a) (jsonStateCache a) (messageReceiveStates a)
    (stateId2SendTargetInfo a) (objects a) m (calls a).

Definition withCalls (l : list Call) (a : Adapter) : Adapter :=
  mkAdapter a
    (extendObjectCache a) (jsonStateCache a) (messageReceiveStates a)
    (stateId2SendTargetInfo a) (objects a) (states a) l.

(** A setting for examples: instance 0, presence observation on, a ready
    client with empty caches, an environment that accepts every call, and
    English strings for the translation helper. *)
Definition sampleRuntime : Runtime :=
  {| getStringOrTranslated := fun s => JStr s;
     JSON_stringify := fun _ => "{}";
     JSON_parse := fun _ => None;
     isValidPresenceStatus := fun _ => true;
     isValidActivityType := fun _ => true;
     getBufferAndNameFromBase64String := fun _ => None;
     getBasenameFromFilePathOrUrl := fun s => s;
     basename := fun s => s |}.

Definition sampleClient : Client :=
  {| isReady := true; client_user := Some "1000"; guilds_cache := ∅; users_cache := ∅;
     members_cache := fun _ _ => None;
     dmChannelAvailable := fun _ => true; messageAvailable := fun _ _ => true |}.

Definition sampleConfig : Config :=
  {| enableAuthorization := true; authorizedUsers := []; authorizedServerRoles := [];
     observeUserPresence := true |}.

Definition sampleSetting : Setting :=
  {| runtime := sampleRuntime; instance := "0"; config := sampleConfig;
     client := sampleClient; rejects := fun _ => false; unloaded := false |}.

(** Issue a call: it is appended to the log. *)
Definition issue (c : Call) (a : Adapter) : Adapter := withCalls (calls a ++ [c]) a.

(** *** The host database (adapter-core) *)

(** Ids relative to the adapter are completed with its namespace. *)
Definition fixId (a : Setting) (id : string) : string :=
  if startsWith id (namespace a +:+ ".") then id else namespace a +:+ "." +:+ id.

(** [this.extendObjectAsync(id, obj)]: [false] stands for a rejected promise. *)
Definition extendObjectAsync (id : string) (obj : Obj) (a : Adapter) : bool * Adapter :=
  let c := ExtendObject id obj in
  let a1 := issue c a in
  if rejects a c then (false, a1)
  else (true, withObjects ({[fixId a id]} ∪ objects a1) a1).

(** [this.setStateAsync(id, val, ack)] *)
Definition setStateAsync (id : string) (val : JsVal) (ack : bool) (a : Adapter) : bool * Adapter :=
  let c := SetState id val ack in
  let a1 := issue c a in
  if rejects a c then (false, a1)
  else (true, withStates (<[fixId a id := val]> (states a1)) a1).

(** [this.delObjectAsync(id, { recursive })]: the object goes, and with
    [recursive] every object below it in the dotted hierarchy. *)
Definition delObjectAsync (id : string) (recursive : bool) (a : Adapter) : bool * Adapter :=
  let c := DelObject id recursive in
  let a1 := issue c a in
  if rejects a c then (false, a1)
  else
    let root := fixId a id in
    (true,
     withObjects
       (filter (fun k => k <> root /\ ~ (recursive = true /\ startsWith k (root +:+ ".") = true))
               (objects a1)) a1).

(** [this.getForeignStateAsync(id)?.val] *)
Definition getForeignStateVal (id : string) (a : Adapter) : JsVal :=
  default JUndefined (states a !! id).

(** *** The write-suppression wrappers

    Both revisions have the same text for these two methods. *)

(** [extendObjectAsyncCached(id, objPart)] *)
Definition extendObjectAsyncCached (id : string) (objPart : Obj) (a : Adapter) : bool * Adapter :=
  let cachedObj := getOrUndefined (extendObjectCache a !! id) in
  if isDeepStrictEqual cachedObj (JObj objPart) then (true, a)
  else
    let '(ok, a1) := extendObjectAsync id objPart a in
    if ok then (true, withExtendObjectCache (<[id := objPart]> (extendObjectCache a1)) a1)
    else (false, a1).

(** [collection.each((_obj, id2) => cache.delete(id2))] *)
Definition deleteEach (doomed cache : gmap string Obj) : gmap string Obj :=
  map_fold (fun id2 _ acc => delete id2 acc) cache doomed.

(** [delObjectAsyncCached(id, options)]; [recursive] is [options?.recursive]. *)
Definition delObjectAsyncCached (id : string) (recursive : bool) (a : Adapter) : bool * Adapter :=
  let a1 :=
    if recursive
    then withExtendObjectCache
           (deleteEach
              (filter (fun kv => startsWith (fst kv) id = true) (extendObjectCache a))
              (extendObjectCache a)) a
    else withExtendObjectCache (delete id (extendObjectCache a)) a in
  delObjectAsync id recursive a1.

(** ** Authorization *)

(** The principal handed to [checkUserAuthorization]: a [User], or a
    [GuildMember] with its guild and the ids of [roles.cache] in order. *)
Inductive Principal :=
| PUser (id : string)
| PGuildMember (id : string) (guildId : string) (roles : list string).

Definition principalId (p : Principal) : string :=
  match p with PUser id => id | PGuildMember id _ _ => id end.

(** The three capability fields, as read from [given]. *)
Record Grant := {
  getStates : bool;
  setStates : bool;
  useText2command : bool }.

(** [required]: each field is absent or a boolean. *)
Record Required := {
  req_getStates : option bool;
  req_setStates : option bool;
  req_useText2command : option bool }.

Definition requested (f : option bool) : bool := default false f.

Definition grantOfUser (au : AuthorizedUser) : Grant :=
  {| getStates := au_getStates au; setStates := au_setStates au;
     useText2command := au_useText2command au |}.

Definition grantOfRole (ar : AuthorizedServerRole) : Grant :=
  {| getStates := ar_getStates ar; setStates := ar_setStates ar;
     useText2command := ar_useText2command ar |}.

(** The object built in the [else] branch of the role loop. *)
Definition orGrant (given roleGiven : Grant) : Grant :=
  {| getStates := getStates given || getStates roleGiven;
     setStates := setStates given || setStates roleGiven;
     useText2command := useText2command given || useText2command roleGiven |}.

(** [authorizedUsers.find(au => au.userId === user.id)] *)
Definition findAuthorizedUser (cfg : Config) (id : string) : option AuthorizedUser :=
  List.find (fun au => String.eqb (userId au) id) (authorizedUsers cfg).

(** [authorizedServerRoles.find(ar => ar.serverAndRoleId === `${guild}|${role}`)] *)
Definition findAuthorizedServerRole (cfg : Config) (guildId roleId : string)
  : option AuthorizedServerRole :=
  List.find (fun ar => String.eqb (serverAndRoleId ar) (guildId +:+ "|" +:+ roleId))
            (authorizedServerRoles cfg).

(** One turn of [for (const [, role] of user.roles.cache)]. *)
Definition roleStep (cfg : Config) (guildId : string) (given : option Grant) (roleId : string)
  : option Grant :=
  match findAuthorizedServerRole cfg guildId roleId with
  | Some roleGiven =>
      match given with
      | None => Some (grantOfRole roleGiven)
      | Some g => Some (orGrant g (grantOfRole roleGiven))
      end
  | None => given
  end.

(** [checkUserAuthorization(user, required)] *)
Definition checkUserAuthorization (a : Adapter) (user : Principal) (required : option Required) : bool :=
  let cfg := config a in
  if negb (enableAuthorization cfg) then true
  else
    let given := grantOfUser <$> findAuthorizedUser cfg (principalId user) in
    let given :=
      match user with
      | PGuildMember _ guildId roles =>
          if (0 <? length (authorizedServerRoles cfg))%nat
          then fold_left (roleStep cfg guildId) roles given
          else given
      | PUser _ => given
      end in
    match given with
    | None => false
    | Some g =>
        match required with
        | None => true
        | Some r =>
            if requested (req_getStates r) && negb (getStates g)
               || requested (req_setStates r) && negb (setStates g)
               || requested (req_useText2command r) && negb (useText2command g)
            then false else true
        end
    end.

(** The grants that take part in the merge: the first configured entry of the
    principal's user id, and for each of the principal's roles the first
    configured entry of that (server, role) pair. *)
Definition userGrants (cfg : Config) (user : Principal) : list Grant :=
  option_list (grantOfUser <$> findAuthorizedUser cfg (principalId user)).

Definition firstRoleGrants (cfg : Config) (user : Principal) : list Grant :=
  match user with
  | PGuildMember _ guildId roles =>
      omap (fun roleId => grantOfRole <$> findAuthorizedServerRole cfg guildId roleId) roles
  | PUser _ => []
  end.

(** The merge as the specification words it: every configured role entry
    whose key is one of the principal's (server, role) pairs takes part. *)
Definition everyRoleGrant (cfg : Config) (user : Principal) : list Grant :=
  match user with
  | PGuildMember _ guildId roles =>
      grantOfRole <$>
        List.filter
          (fun ar => existsb (fun roleId =>
                                String.eqb (serverAndRoleId ar) (guildId +:+ "|" +:+ roleId))
                             roles)
          (authorizedServerRoles cfg)
  | PUser _ => []
  end.

(** The decision taken on a list of grants that are OR-merged field by field. *)
Definition decideOnGrants (enabled : bool) (grants : list Grant) (required : option Required) : bool :=
  if negb enabled then true
  else
    match grants with
    | [] => false
    | _ =>
        match required with
        | None => true
        | Some r =>
            implb (requested (req_getStates r)) (existsb getStates grants)
            && implb (requested (req_setStates r)) (existsb setStates grants)
            && implb (requested (req_useText2command r)) (existsb useText2command grants)
        end
    end.

Definition claimedAuthorization (a : Adapter) (user : Principal) (required : option Required) : bool :=
  decideOnGrants (enableAuthorization (config a))
    (userGrants (config a) user ++ everyRoleGrant (config a) user) required.

(** The result of OR-merging a list of grants from left to right. *)
Definition mergeAll (grants : list Grant) : option Grant :=
  match grants with
  | [] => None
  | g :: gs => Some (fold_left orGrant gs g)
  end.

(** A configuration in which the role entry of server 1, role 2 is listed
    twice, first without and then with the capabilities. *)
Definition duplicateRoleConfig : Config :=
  {| enableAuthorization := true;
     authorizedUsers := [];
     authorizedServerRoles :=
       [ {| serverAndRoleId := "1|2"; ar_getStates := false; ar_setStates := false;
            ar_useText2command := false |};
         {| serverAndRoleId := "1|2"; ar_getStates := true; ar_setStates := true;
            ar_useText2command := true |} ];
     observeUserPresence := true |}.

Definition duplicateRoleAdapter : Adapter :=
  newAdapter {| runtime := sampleRuntime; instance := "0"; config := duplicateRoleConfig;
                client := sampleClient; rejects := fun _ => false; unloaded := false |}.

(** ** Presence projection *)

Record Activity := {
  activity_type : string;
  activity_name : string;
  activity_state : option string }.

Record Presence := {
  presence_status : string;
  presence_activities : list Activity }.

Record UpdateUserPresenceResult := {
  activityName : string;
  activityType : string;
  status : string }.

(** [{ activityName: "", activityType: "", status: "" }] *)
Definition noPresence : UpdateUserPresenceResult :=
  {| activityName := ""; activityType := ""; status := "" |}.

(** The object [p] built at the top of the [try] block; the expression is
    the same in both revisions.  [presence] is [None] for [null]. *)
Definition presenceProjection (presence : option Presence) : UpdateUserPresenceResult :=
  let activity0 := presence ≫= (fun p => head (presence_activities p)) in
  {| status := match presence with Some p => presence_status p | None => "" end;
     activityName :=
       match activity0 with
       | Some act =>
           if String.eqb (activity_type act) "CUSTOM"
           then default "" (activity_state act)
           else activity_name act
       | None => ""
       end;
     activityType :=
       match activity0 with Some act => activity_type act | None => "" end |}.

(** [json.status = p.status; json.activityName = ...; json.activityType = ...] *)
Definition withPresence (json : Obj) (p : UpdateUserPresenceResult) : Obj :=
  setField
    (setField (setField json "status" (JStr (status p)))
              "activityName" (JStr (activityName p)))
    "activityType" (JStr (activityType p)).

(** The [if (!skipJsonStateUpdate)] block, the same in both revisions: the
    cached user snapshot, when there is one, gets the three fields, is put
    back and written. *)
Definition presenceJsonUpdate (userId : string) (p : UpdateUserPresenceResult) (a : Adapter)
  : bool * Adapter :=
  let key := namespace a +:+ ".users." +:+ userId +:+ ".json" in
  match jsonStateCache a !! key with
  | Some json =>
      let json3 := withPresence json p in
      let a1 := withJsonStateCache (<[key := json3]> (jsonStateCache a)) a in
      setStateAsync ("users." +:+ userId +:+ ".json")
        (JStr (JSON_stringify (runtime a) json3)) true a1
  | None => (true, a)
  end.

(** [updateUserPresence(userId, presence, skipJsonStateUpdate)] of
    [build/main.js].  A rejected write is caught and turns the result into
    the empty one. *)
Definition updateUserPresence (userId : string) (presence : option Presence)
    (skipJsonStateUpdate : bool) (a : Adapter) : UpdateUserPresenceResult * Adapter :=
  if negb (observeUserPresence (config a)) then (noPresence, a)
  else
    let p := presenceProjection presence in
    let '(okJson, a1) :=
      if skipJsonStateUpdate then (true, a) else presenceJsonUpdate userId p a in
    let '(ok1, a2) :=
      setStateAsync ("users." +:+ userId +:+ ".status") (JStr (status p)) true a1 in
    let '(ok2, a3) :=
      setStateAsync ("users." +:+ userId +:+ ".activityName") (JStr (activityName p)) true a2 in
    let '(ok3, a4) :=
      setStateAsync ("users." +:+ userId +:+ ".activityType") (JStr (activityType p)) true a3 in
    if okJson && ok1 && ok2 && ok3 then (p, a4) else (noPresence, a4).


(** A user playing chess. *)
Definition chessPresence : Presence :=
  {| presence_status := "online";
     presence_activities :=
       [ {| activity_type := "PLAYING"; activity_name := "Chess"; activity_state := None |} ] |}.

(** ** Reconciliation: [updateGuilds] of [build/main.js] *)

(** *** The remote graph as the pass fetches it *)

Record Role := { role_id : string; role_name : string }.

Record VoiceState := {
  voice_channel : option (string * string);   (* id and name of [voice.channel] *)
  voice_selfDeaf : option bool;
  voice_serverDeaf : option bool;
  voice_selfMute : option bool;
  voice_serverMute : option bool }.

Record GuildMember := {
  member_user : User;
  member_displayName : string;
  member_roles : list Role;               (* [member.roles.cache] *)
  member_joinedTimestamp : option Z;
  member_presence : option Presence;
  member_voice : VoiceState }.

(** [member.id] is the id of the member's user. *)
Definition member_id (m : GuildMember) : string := user_id (member_user m).

(** A guild: whether [guildBase.fetch()] succeeds, and what
    [guild.members.fetch()] and [guild.channels.fetch()] deliver ([None]: the
    fetch rejects). *)
Record Guild := {
  guild_id : string;
  guild_name : string;
  guild_fetch : bool;
  guild_members : option (list GuildMember);
  guild_channels : option (list Channel) }.

(** *** Object literals *)

(** [{ type: "channel", common: { name }, native: {} }] *)
Definition channelObject (name : JsVal) : Obj :=
  [ ("type", JStr "channel"); ("common", JObj [("name", name)]); ("native", JObj []) ].

(** [{ type: "state", common: { name, role, type, read, write, def }, native: {} }] *)
Definition stateObject (name : JsVal) (role type : string) (read write : bool) (def : JsVal) : Obj :=
  [ ("type", JStr "state");
    ("common", JObj [ ("name", name); ("role", JStr role); ("type", JStr type);
                      ("read", JBool read); ("write", JBool write); ("def", def) ]);
    ("native", JObj []) ].

(** [!!x] and [x || ""] on optional values. *)
Definition toBool (b : option bool) : bool := default false b.

(** [list.join(sep)] *)
Fixpoint join (sep : string) (l : list string) : string :=
  match l with
  | [] => ""
  | [x] => x
  | x :: rest => x +:+ sep +:+ join sep rest
  end.

Definition numberOrNull (n : option Z) : JsVal :=
  match n with Some z => JNum z | None => JNull end.

(** *** The steps of a pass

    A pass is a sequence of steps.  [Await cmds] is an [await] of one call, or
    of [Promise.all] over several: the calls are started in the order of the
    list, and the [await] throws afterwards if one of them was rejected. *)

Inductive Cmd :=
| CExtend (id : string) (obj : Obj)            (* [this.extendObjectAsyncCached(id, obj)] *)
| CSetState (id : string) (val : JsVal)        (* [this.setStateAsync(id, val, true)] *)
| CPushJson (id : string) (json : Obj)         (* guarded [proms.push(setStateAsync(json))] *)
| CPresence (userId : string) (presence : option Presence).
                                               (* [this.updateUserPresence(id, presence)] *)

Inductive Step :=
| Await (cmds : list Cmd)
| AwaitJson (id : string) (json : Obj)         (* the member snapshot *)
| AwaitPresence (userId : string) (presence : option Presence)
                                               (* [ps = await updateUserPresence(.., true)] *)
| CheckUnloaded                                (* [if (this.unloaded) return;] *)
| KnownAdd (id : string)                       (* [knownServersAndChannelsIds.add(id)] *)
| UsersSet (userId : string) (user : User) (presence : option Presence)
                                               (* [allServersUsers.set(id, ..)] *)
| ReceiveAdd (id : string)                     (* [this.messageReceiveStates.add(id)] *)
| Reject.                                      (* a fetch of the client rejects *)

(** How a piece of the pass ends: it ran to its end, it returned at an
    [unloaded] check, or it threw. *)
Inductive Status := Ok | Stopped | Thrown.

(** The adapter together with the two locals of [updateGuilds]. *)
Record Pass := mkPass {
  adapter :> Adapter;
  allServersUsers : list (string * (User * option Presence));
  knownServersAndChannelsIds : gset string }.

Definition withAdapter (a : Adapter) (st : Pass) : Pass :=
  mkPass a (allServersUsers st) (knownServersAndChannelsIds st).

(** [collection.set(key, value)]: a present key keeps its place. *)
Fixpoint collectionSet {A : Type} (key : string) (value : A) (c : list (string * A))
  : list (string * A) :=
  match c with
  | [] => [(key, value)]
  | (k, v) :: rest =>
      if String.eqb k key then (k, value) :: rest else (k, v) :: collectionSet key value rest
  end.

(** The member snapshot: compare, [await] the write, then remember. *)
Definition awaitJsonState (id : string) (json : Obj) (a : Adapter) : bool * Adapter :=
  let key := namespace a +:+ "." +:+ id in
  if isDeepStrictEqual (JObj json) (getOrUndefined (jsonStateCache a !! key)) then (true, a)
  else
    let '(ok, a1) := setStateAsync id (JStr (JSON_stringify (runtime a) json)) true a in
    if ok then (true, withJsonStateCache (<[key := json]> (jsonStateCache a1)) a1)
    else (false, a1).

(** The channel and user snapshots: compare, start the write, remember. *)
Definition pushJsonState (id : string) (json : Obj) (a : Adapter) : bool * Adapter :=
  let key := namespace a +:+ "." +:+ id in
  if isDeepStrictEqual (JObj json) (getOrUndefined (jsonStateCache a !! key)) then (true, a)
  else
    let '(ok, a1) := setStateAsync id (JStr (JSON_stringify (runtime a) json)) true a in
    (ok, withJsonStateCache (<[key := json]> (jsonStateCache a1)) a1).

Definition execCmd (c : Cmd) (a : Adapter) : bool * Adapter :=
  match c with
  | CExtend id obj => extendObjectAsyncCached id obj a
  | CSetState id val => setStateAsync id val true a
  | CPushJson id json => pushJsonState id json a
  | CPresence userId presence => (true, snd (updateUserPresence userId presence false a))
  end.

Fixpoint execAll (cmds : list Cmd) (a : Adapter) : bool * Adapter :=
  match cmds with
  | [] => (true, a)
  | c :: rest =>
      let '(ok, a1) := execCmd c a in
      let '(oks, a2) := execAll rest a1 in
      (ok && oks, a2)
  end.

Definition statusOf (ok : bool) : Status := if ok then Ok else Thrown.

Definition execStep (step : Step) (st : Pass) : Status * Pass :=
  match step with
  | Await cmds =>
      let '(ok, a) := execAll cmds st in (statusOf ok, withAdapter a st)
  | AwaitJson id json =>
      let '(ok, a) := awaitJsonState id json st in (statusOf ok, withAdapter a st)
  | AwaitPresence userId presence =>
      (Ok, withAdapter (snd (updateUserPresence userId presence true st)) st)
  | CheckUnloaded => (if unloaded st then Stopped else Ok, st)
  | KnownAdd id =>
      (Ok, mkPass st (allServersUsers st) ({[id]} ∪ knownServersAndChannelsIds st))
  | UsersSet userId user presence =>
      (Ok, mkPass st (collectionSet userId (user, presence) (allServersUsers st))
                  (knownServersAndChannelsIds st))
  | ReceiveAdd id =>
      (Ok, withAdapter (withMessageReceiveStates ({[id]} ∪ messageReceiveStates st) st) st)
  | Reject => (Thrown, st)
  end.

Fixpoint run (steps : list Step) (st : Pass) : Status * Pass :=
  match steps with
  | [] => (Ok, st)
  | step :: rest =>
      match execStep step st with
      | (Ok, st1) => run rest st1
      | other => other
      end
  end.

(** What [await this.updateUserPresence(id, presence, true)] returns: the
    projection, or the empty result when observation is off or one of the
    three writes is rejected. *)
Definition presenceOutcome (s : Setting) (userId : string) (presence : option Presence)
  : UpdateUserPresenceResult :=
  if negb (observeUserPresence (config s)) then noPresence
  else
    let p := presenceProjection presence in
    if rejects s (SetState ("users." +:+ userId +:+ ".status") (JStr (status p)) true)
       || rejects s (SetState ("users." +:+ userId +:+ ".activityName") (JStr (activityName p)) true)
       || rejects s (SetState ("users." +:+ userId +:+ ".activityType") (JStr (activityType p)) true)
    then noPresence else p.

(** *** The upsert phase *)

Section Upsert.

Variable s : Setting.

Let tr (key : string) : JsVal := getStringOrTranslated (runtime s) key.

(** One turn of [for (const [, member] of guildMembers)]. *)
Definition memberSteps (botId : string) (guild : Guild) (member : GuildMember) : list Step :=
  let user := member_user member in
  let voice := member_voice member in
  let base := "servers." +:+ guild_id guild +:+ ".members." +:+ member_id member in
  let memberRoles := role_name <$> member_roles member in
  let voiceChannelName := default "" (snd <$> voice_channel voice) in
  let voiceChannelId := default "" (fst <$> voice_channel voice) in
  let json : Obj :=
    [ ("tag", JStr (user_tag user));
      ("id", JStr (member_id member));
      ("displayName", JStr (member_displayName member));
      ("roles", JArr (JStr <$> memberRoles));
      ("joined", numberOrNull (member_joinedTimestamp member));
      ("voiceChannel", JStr voiceChannelName);
      ("voiceChannelId", JStr voiceChannelId);
      ("voiceSelfDeaf", JBool (toBool (voice_selfDeaf voice)));
      ("voiceServerDeaf", JBool (toBool (voice_serverDeaf voice)));
      ("voiceSelfMute", JBool (toBool (voice_selfMute voice)));
      ("voiceServerMute", JBool (toBool (voice_serverMute voice))) ] in
  (if String.eqb (user_id user) botId then []
   else [UsersSet (user_id user) user (member_presence member)])
  ++ [ Await [ CExtend base
                 (channelObject
                    (JStr (member_displayName member +:+ " (" +:+ user_tag user +:+ ")"))) ];
       Await
         [ CExtend (base +:+ ".tag")
             (stateObject (tr "User tag") "text" "string" true false (JStr ""));
           CExtend (base +:+ ".displayName")
             (stateObject (tr "Display name") "text" "string" true false (JStr ""));
           CExtend (base +:+ ".roles")
             (stateObject (tr "Roles") "text" "string" true false (JStr ""));
           CExtend (base +:+ ".joinedAt")
             (stateObject (tr "Joined at") "date" "number" true false (JNum 0));
           CExtend (base +:+ ".voiceChannel")
             (stateObject (tr "Voice channel") "text" "string" true false (JStr ""));
           CExtend (base +:+ ".voiceDisconnect")
             (stateObject (tr "Voice disconnect") "button" "boolean" false true (JBool false));
           CExtend (base +:+ ".voiceSelfDeaf")
             (stateObject (tr "Voice self deafen") "indicator" "boolean" true false (JBool false));
           CExtend (base +:+ ".voiceServerDeaf")
             (stateObject (tr "Voice server deafen") "switch" "boolean" true true (JBool false));
           CExtend (base +:+ ".voiceSelfMute")
             (stateObject (tr "Voice self mute") "indicator" "boolean" true false (JBool false));
           CExtend (base +:+ ".voiceServerMute")
             (stateObject (tr "Voice server mute") "switch" "boolean" true true (JBool false));
           CExtend (base +:+ ".json")
             (stateObject (tr "JSON data") "json" "string" true false (JStr "")) ];
       Await
         [ CSetState (base +:+ ".tag") (JStr (user_tag user));
           CSetState (base +:+ ".displayName") (JStr (member_displayName member));
           CSetState (base +:+ ".roles") (JStr (join ", " memberRoles));
           CSetState (base +:+ ".joinedAt") (numberOrNull (member_joinedTimestamp member));
           CSetState (base +:+ ".voiceChannel") (JStr voiceChannelName);
           CSetState (base +:+ ".voiceSelfDeaf") (JBool (toBool (voice_selfDeaf voice)));
           CSetState (base +:+ ".voiceServerDeaf") (JBool (toBool (voice_serverDeaf voice)));
           CSetState (base +:+ ".voiceSelfMute") (JBool (toBool (voice_selfMute voice)));
           CSetState (base +:+ ".voiceServerMute") (JBool (toBool (voice_serverMute voice))) ];
       AwaitJson (base +:+ ".json") json ].

(** [channel.parentId] is set (not [null], not empty). *)
Definition hasParent (channel : Channel) : bool :=
  match channel_parentId channel with
  | Some p => negb (String.eqb p "")
  | None => false
  end.

(** [channelIdPrefix] *)
Definition channelIdPrefix (guild : Guild) (parents : bool) (channel : Channel) : string :=
  if parents
  then "servers." +:+ guild_id guild +:+ ".channels." +:+ channel_id channel
  else "servers." +:+ guild_id guild +:+ ".channels."
         +:+ default "null" (channel_parentId channel)
         +:+ ".channels." +:+ channel_id channel.

(** The body of the channel loop, after the [continue] test. *)
Definition channelSteps (guild : Guild) (parents : bool) (channel : Channel) : list Step :=
  let prefix := channelIdPrefix guild parents channel in
  let icon :=
    if channel_isVoice channel then JStr "channel-voice.svg"
    else if channel_isText channel then JStr "channel-text.svg"
    else JUndefined in
  let name :=
    match channel_parentName channel with
    | Some parentName => parentName +:+ " / " +:+ channel_name channel
    | None => channel_name channel
    end in
  let members := channel_members channel in
  let json : Obj :=
    [ ("id", JStr (channel_id channel));
      ("name", JStr (channel_name channel));
      ("type", JStr (channel_type channel));
      ("memberCount", JNum (Z.of_nat (length members)));
      ("members",
       JArr ((fun m => JObj [ ("id", JStr (cm_userId m)); ("tag", JStr (cm_userTag m));
                              ("displayName", JStr (cm_displayName m)) ]) <$> members)) ] in
  [ KnownAdd (namespace s +:+ "." +:+ prefix);
    Await [ CExtend prefix
              [ ("type", JStr "channel");
                ("common", JObj [("name", JStr name); ("icon", icon)]);
                ("native", JObj [("channelId", JStr (channel_id channel))]) ] ] ]
  ++ (if String.eqb (channel_type channel) "GUILD_CATEGORY"
      then [ Await [ CExtend (prefix +:+ ".channels") (channelObject (tr "Channels")) ] ]
      else [])
  ++ [ Await
         [ CExtend (prefix +:+ ".json")
             (stateObject (tr "JSON data") "json" "string" true false (JStr ""));
           CExtend (prefix +:+ ".memberCount")
             (stateObject (tr "Member count") "value" "number" true false (JNum 0));
           CExtend (prefix +:+ ".members")
             (stateObject (tr "Members") "text" "string" true false (JStr "")) ] ]
  ++ (if channel_isText channel
      then [ Await
               [ CExtend (prefix +:+ ".message")
                   (stateObject (tr "Last message") "text" "string" true false (JStr ""));
                 CExtend (prefix +:+ ".messageId")
                   (stateObject (tr "Last message ID") "text" "string" true false (JStr ""));
                 CExtend (prefix +:+ ".messageAuthor")
                   (stateObject (tr "Last message author") "text" "string" true false (JStr ""));
                 CExtend (prefix +:+ ".messageTimestamp")
                   (stateObject (tr "Last message timestamp") "date" "number" true false (JNum 0));
                 CExtend (prefix +:+ ".messageJson")
                   (stateObject (tr "Last message JSON data") "json" "string" true false (JStr ""));
                 CExtend (prefix +:+ ".send")
                   (stateObject (tr "Send message") "text" "string" false true (JStr ""));
                 CExtend (prefix +:+ ".sendFile")
                   (stateObject (tr "Send file") "text" "string" false true (JStr ""));
                 CExtend (prefix +:+ ".sendReply")
                   (stateObject (tr "Send reply") "text" "string" false true (JStr ""));
                 CExtend (prefix +:+ ".sendReaction")
                   (stateObject (tr "Send reaction") "text" "string" false true (JStr "")) ];
             ReceiveAdd (namespace s +:+ "." +:+ prefix +:+ ".message") ]
      else [])
  ++ [ Await
         [ CPushJson (prefix +:+ ".json") json;
           CSetState (prefix +:+ ".memberCount") (JNum (Z.of_nat (length members)));
           CSetState (prefix +:+ ".members") (JStr (join ", " (cm_displayName <$> members))) ] ].

(** [for (const parents of [true, false]) for (const [, channel] of channels)]
    with its [continue]: the loop header is the same in both revisions. *)
Definition channelWaves (body : bool -> Channel -> list Step) (channels : list Channel)
  : list Step :=
  flat_map
    (fun parents : bool =>
       flat_map
         (fun channel =>
            if parents && hasParent channel || negb parents && negb (hasParent channel)
            then []
            else body parents channel)
         channels)
    [true; false].

(** One turn of [for (const [, guildBase] of guilds)]. *)
Definition guildSteps (botId : string) (guild : Guild) : list Step :=
  CheckUnloaded ::
  (if negb (guild_fetch guild) then []
   else
     [ CheckUnloaded;
       KnownAdd (namespace s +:+ ".servers." +:+ guild_id guild);
       Await [ CExtend ("servers." +:+ guild_id guild) (channelObject (JStr (guild_name guild))) ];
       Await [ CExtend ("servers." +:+ guild_id guild +:+ ".members")
                 (channelObject (tr "Members"));
               CExtend ("servers." +:+ guild_id guild +:+ ".channels")
                 (channelObject (tr "Channels")) ] ]
     ++ match guild_members guild with
        | None => [Reject]
        | Some guildMembers =>
            [CheckUnloaded]
            ++ flat_map (memberSteps botId guild) guildMembers
            ++ [CheckUnloaded]
            ++ match guild_channels guild with
               | None => [Reject]
               | Some channels =>
                   CheckUnloaded :: channelWaves (channelSteps guild) channels
               end
        end).

(** Everything up to the end of the guild loop; [guilds] is what
    [client.guilds.fetch()] delivers. *)
Definition guildsSteps (botId : string) (guilds : option (list Guild)) : list Step :=
  CheckUnloaded ::
  match guilds with
  | None => [Reject]
  | Some gs => CheckUnloaded :: flat_map (guildSteps botId) gs
  end.

(** One turn of [for (const [, { user, presence }] of allServersUsers)]. *)
Definition userSteps (entry : string * (User * option Presence)) : list Step :=
  let user := fst (snd entry) in
  let presence := snd (snd entry) in
  let base := "users." +:+ user_id user in
  let ps := presenceOutcome s (user_id user) presence in
  let json : Obj :=
    [ ("id", JStr (user_id user));
      ("tag", JStr (user_tag user));
      ("activityName", JStr (activityName ps));
      ("activityType", JStr (activityType ps));
      ("avatarUrl", JStr (user_displayAvatarURL user));
      ("bot", JBool (user_bot user));
      ("status", JStr (status ps)) ] in
  [ Await [ CExtend base
              [ ("type", JStr "channel");
                ("common", JObj [("name", JStr (user_tag user))]);
                ("native", JObj [("userId", JStr (user_id user))]) ] ];
    Await
      [ CExtend (base +:+ ".json")
          (stateObject (tr "JSON data") "json" "string" true false (JStr ""));
        CExtend (base +:+ ".tag")
          (stateObject (tr "User tag") "text" "string" true false (JStr ""));
        CExtend (base +:+ ".message")
          (stateObject (tr "Last message") "text" "string" true false (JStr ""));
        CExtend (base +:+ ".messageId")
          (stateObject (tr "Last message ID") "text" "string" true false (JStr ""));
        CExtend (base +:+ ".messageTimestamp")
          (stateObject (tr "Last message timestamp") "date" "number" true false (JNum 0));
        CExtend (base +:+ ".messageJson")
          (stateObject (tr "Last message JSON data") "json" "string" true false (JStr ""));
        CExtend (base +:+ ".send")
          (stateObject (tr "Send message") "text" "string" false true (JStr ""));
        CExtend (base +:+ ".sendFile")
          (stateObject (tr "Send file") "text" "string" false true (JStr ""));
        CExtend (base +:+ ".sendReply")
          (stateObject (tr "Send reply") "text" "string" false true (JStr ""));
        CExtend (base +:+ ".sendReaction")
          (stateObject (tr "Send reaction") "text" "string" false true (JStr ""));
        CExtend (base +:+ ".avatarUrl")
          (stateObject (tr "Avatar") "media.link" "string" true false (JStr ""));
        CExtend (base +:+ ".bot")
          (stateObject (tr "Bot") "indicator" "boolean" true false (JBool false));
        CExtend (base +:+ ".status")
          (stateObject (tr "Status") "text" "string" true false (JStr ""));
        CExtend (base +:+ ".activityType")
          (stateObject (tr "Activity type") "text" "string" true false (JStr ""));
        CExtend (base +:+ ".activityName")
          (stateObject (tr "Activity name") "text" "string" true false (JStr "")) ];
    ReceiveAdd (namespace s +:+ ".users." +:+ user_id user +:+ ".message");
    AwaitPresence (user_id user) presence;
    Await
      [ CPushJson (base +:+ ".json") json;
        CSetState (base +:+ ".tag") (JStr (user_tag user));
        CSetState (base +:+ ".avatarUrl") (JStr (user_displayAvatarURL user));
        CSetState (base +:+ ".bot") (JBool (user_bot user));
        CPresence (user_id user) presence ] ].

End Upsert.

(** *** The sweep phase *)

(** [\.channels\.(\d+)] at the start of [r]; what follows it. *)
Definition channelsGroup (r : string) : option string :=
  r1 ← stripPrefix ".channels." r;
  snd <$> digits1 r1.

(** [(\d+)(\.channels\.(\d+)){0,2}$] *)
Definition isIdPath (r : string) : bool :=
  match digits1 r with
  | None => false
  | Some (_, r1) =>
      if String.eqb r1 "" then true
      else
        match channelsGroup r1 with
        | None => false
        | Some r2 =>
            if String.eqb r2 "" then true
            else
              match channelsGroup r2 with
              | None => false
              | Some r3 => String.eqb r3 ""
              end
        end
  end.

(** [item.id.match(reServersChannels)]: the capture [m[1]]. *)
Definition matchServersChannels (s : Setting) (id : string) : option string :=
  idPath ← stripPrefix (namespace s +:+ ".servers.") id;
  if isIdPath idPath then Some idPath else None.

(** [item.id.match(reUsers)]: the capture [m[1]]. *)
Definition matchUsers (s : Setting) (id : string) : option string :=
  userId ← stripPrefix (namespace s +:+ ".users.") id;
  if allDigits userId && negb (String.eqb userId "") then Some userId else None.

(** The ids of [getObjectListAsync({ startkey, endkey: startkey + "\u9999" })]:
    the objects of the database whose id starts with [startkey]. *)
Definition getObjectList (startkey : string) (a : Adapter) : list string :=
  List.filter (fun id => startsWith id startkey) (elements (objects a)).

(** The body of [for (const item of objListServers.rows)]. *)
Definition sweepServersItem (known : gset string) (itemId : string) (a : Adapter)
  : bool * Adapter :=
  match matchServersChannels a itemId with
  | Some idPath =>
      if decide (itemId ∈ known) then (true, a)
      else
        let a1 :=
          withMessageReceiveStates
            (messageReceiveStates a ∖ {[namespace a +:+ ".servers." +:+ idPath +:+ ".message"]}) a in
        let a2 :=
          withJsonStateCache
            (delete (namespace a +:+ ".servers." +:+ idPath +:+ ".json") (jsonStateCache a1)) a1 in
        delObjectAsyncCached ("servers." +:+ idPath) true a2
  | None => (true, a)
  end.

(** [allServersUsers.has(userId)] *)
Definition collectionHas {A : Type} (key : string) (c : list (string * A)) : bool :=
  existsb (fun kv => String.eqb (fst kv) key) c.

(** The body of [for (const item of objListUsers.rows)]. *)
Definition sweepUsersItem (users : list (string * (User * option Presence)))
    (itemId : string) (a : Adapter) : bool * Adapter :=
  match matchUsers a itemId with
  | Some userId =>
      if collectionHas userId users then (true, a)
      else
        let a1 :=
          withMessageReceiveStates
            (messageReceiveStates a ∖ {[namespace a +:+ ".users." +:+ userId +:+ ".message"]}) a in
        let a2 :=
          withJsonStateCache
            (delete (namespace a +:+ ".users." +:+ userId +:+ ".json") (jsonStateCache a1)) a1 in
        delObjectAsyncCached ("users." +:+ userId) true a2
  | None => (true, a)
  end.

(** A loop whose body is awaited: a rejection ends it. *)
Fixpoint sweepLoop (body : string -> Adapter -> bool * Adapter) (rows : list string)
    (a : Adapter) : bool * Adapter :=
  match rows with
  | [] => (true, a)
  | itemId :: rest =>
      let '(ok, a1) := body itemId a in
      if ok then sweepLoop body rest a1 else (false, a1)
  end.

Definition sweepPhase (st : Pass) : Status * Pass :=
  let objListServers := getObjectList (namespace st +:+ ".servers.") st in
  let '(ok1, a1) :=
    sweepLoop (sweepServersItem (knownServersAndChannelsIds st)) objListServers st in
  if ok1 then
    let objListUsers := getObjectList (namespace a1 +:+ ".users.") a1 in
    let '(ok2, a2) := sweepLoop (sweepUsersItem (allServersUsers st)) objListUsers a1 in
    (statusOf ok2, withAdapter a2 st)
  else (Thrown, withAdapter a1 st).

(** *** The pass *)

(** Everything before the sweep: the guild loop, then the user loop over
    the users collected by the guild loop. *)
Definition upsertPhase (guilds : option (list Guild)) (a : Adapter) : Status * Pass :=
  let st0 := mkPass a [] ∅ in
  match client_user (client a) with
  | None => (Thrown, st0)
  | Some botId =>
      match run (guildsSteps a botId guilds) st0 with
      | (Ok, st1) => run (flat_map (userSteps a) (allServersUsers st1)) st1
      | other => other
      end
  end.

(** [updateGuilds()] *)
Definition updateGuilds (guilds : option (list Guild)) (a : Adapter) : Status * Pass :=
  match upsertPhase guilds a with
  | (Ok, st) => sweepPhase st
  | other => other
  end.

(** *** A small remote graph for examples *)

Definition alice : User :=
  {| user_id := "7"; user_tag := "alice#0001"; user_bot := false;
     user_displayAvatarURL := "https://cdn.example/7.png" |}.

Definition aliceMember : GuildMember :=
  {| member_user := alice;
     member_displayName := "Alice";
     member_roles := [ {| role_id := "2"; role_name := "admin" |} ];
     member_joinedTimestamp := Some 1650000000000;
     member_presence := Some chessPresence;
     member_voice := {| voice_channel := None; voice_selfDeaf := None; voice_serverDeaf := None;
                        voice_selfMute := None; voice_serverMute := None |} |}.

Definition lobby : Channel :=
  {| channel_id := "30"; channel_name := "Lobby"; channel_type := "GUILD_CATEGORY";
     channel_parentId := None; channel_parentName := None; channel_guildName := "Home";
     channel_isText := false; channel_isVoice := false; channel_isThread := false;
     channel_members := [] |}.

Definition general : Channel :=
  {| channel_id := "31"; channel_name := "general"; channel_type := "GUILD_TEXT";
     channel_parentId := Some "30"; channel_parentName := Some "Lobby";
     channel_guildName := "Home";
     channel_isText := true; channel_isVoice := false; channel_isThread := false;
     channel_members :=
       [ {| cm_userId := "7"; cm_userTag := "alice#0001"; cm_displayName := "Alice" |} ] |}.

(** The child channel is listed before its parent. *)
Definition home : Guild :=
  {| guild_id := "5"; guild_name := "Home"; guild_fetch := true;
     guild_members := Some [aliceMember];
     guild_channels := Some [general; lobby] |}.



(** *** What a list of steps asks for *)


































(** An adapter that still mirrors server 99 and user 8, both unknown to the
    remote graph [home]. *)
Definition staleAdapter : Adapter :=
  mkAdapter sampleSetting
    {[ "servers.99" := channelObject (JStr "Gone");
       "servers.99.channels.1" := channelObject (JStr "old") ]}
    {[ "discord.0.servers.99.channels.1.json" := [("id", JStr "1")];
       "discord.0.users.8.json" := [("id", JStr "8")] ]}
    {[ "discord.0.servers.99.channels.1.message"; "discord.0.users.8.message" ]}
    ∅
    {[ "discord.0.servers.99"; "discord.0.servers.99.channels";
       "discord.0.servers.99.channels.1"; "discord.0.users.8" ]}
    ∅ [].

(** ** Outbound commands *)

(** An [ioBroker.State] as far as the handlers read it. *)
Record State := { state_val : JsVal; state_ack : bool }.

(** How an [async] handler that returns a boolean ends. *)
Inductive Completion := Returns (b : bool) | Rejected.

(** [a || b] *)
Definition orElse (x y : JsVal) : JsVal := if truthy x then x else y.

(** [await target.send(mo)] inside its [try]: [true] when Discord accepts. *)
Definition sendTo (target : Target) (mo : JsVal) (a : Adapter) : Completion * Adapter :=
  let c := Send target mo in
  (Returns (negb (rejects a c)), issue c a).

(** The two-part grammar of [sendReply] and [sendReaction], the same text in
    both revisions: the message reference and the content.  [base] is
    [targetStateIdBase] ([stateIdChannel] in [src/main.ts]). *)
Definition pipeParts (val base : string) (a : Adapter) : JsVal * string :=
  let idx := indexOf val "|" in
  if 0 <? idx
  then (JStr (slice val 0 (Some idx)), slice val (idx + 1) None)
  else (getForeignStateVal (base +:+ ".messageId") a, val).

(** The reply branch after the split, the same text in both revisions. *)
Definition sendReply (target : Target) (messageReference : JsVal) (content : string)
    (a : Adapter) : Completion * Adapter :=
  if negb (truthy messageReference) || negb (truthy (JStr content)) then (Returns false, a)
  else
    sendTo target
      (JObj [ ("content", JStr content);
              ("reply", JObj [("messageReference", messageReference)]) ]) a.

(** The reaction branch after the split: the channel of the target (the DM
    channel of a user, created when needed), the message (from the cache or
    fetched), and the reaction. *)
Definition sendReaction (target : Target) (messageReference : JsVal) (content : string)
    (a : Adapter) : Completion * Adapter :=
  if negb (truthy messageReference) || negb (truthy (JStr content)) then (Returns false, a)
  else
    let channelOk :=
      match target with
      | TUser user => dmChannelAvailable (client a) (user_id user)
      | TChannel _ _ => true
      end in
    if negb channelOk then (Rejected, a)
    else if negb (messageAvailable (client a) target messageReference) then (Rejected, a)
    else
      let c := React target messageReference content in
      (Returns (negb (rejects a c)), issue c a).

(** What the JSON branch and the plain branch of [send] make of the value. *)
Inductive Payload := Invalid | Crash | Valid (mo : JsVal).

(** The last two branches of the action dispatch, the same text in both
    revisions. *)
Definition sendPayload (rt : Runtime) (val : string) : Payload :=
  if startsWith val "{" && endsWith val "}" then
    match JSON_parse rt val with
    | None => Invalid
    | Some JNull | Some JUndefined => Crash   (* [mo.content] on [null] *)
    | Some mo =>
        if negb (truthy (prop mo "files")) && negb (truthy (prop mo "content"))
           || truthy (prop mo "files") && negb (isArray (prop mo "files"))
           || truthy (prop mo "embeds") && negb (isArray (prop mo "embeds"))
        then Invalid
        else Valid mo
    end
  else Valid (JObj [("content", JStr val)]).

Definition sendChecked (rt : Runtime) (target : Target) (val : string) (a : Adapter)
  : Completion * Adapter :=
  match sendPayload rt val with
  | Invalid => (Returns false, a)
  | Crash => (Rejected, a)
  | Valid mo => sendTo target mo a
  end.

(** [file | content] of [sendFile]: the file part and the optional content. *)
Definition fileParts (val : string) : string * JsVal :=
  let idx := indexOf val "|" in
  if 0 <? idx
  then (slice val 0 (Some idx), JStr (slice val (idx + 1) None))
  else (val, JUndefined).

(** [(send|sendFile|sendReaction|sendReply)$] *)
Definition isSendAction (r : string) : bool :=
  String.eqb r "send" || String.eqb r "sendFile"
  || String.eqb r "sendReaction" || String.eqb r "sendReply".

(** [\.(send|sendFile|sendReaction|sendReply)$] *)
Definition actionSuffix (r : string) : option string :=
  act ← stripPrefix "." r;
  if isSendAction act then Some act else None.

(** The first pattern of [onSendStateChange] in [build/main.js]:
    [m[1]], [m[2]], [m[5] || m[3]] and [m[6]]. *)
Definition matchSendChannel (stateId : string) : option (string * string * string * string) :=
  r0 ← stripPrefix "discord." stateId;
  '(inst, r1) ← digits1 r0;
  r2 ← stripPrefix ".servers." r1;
  '(guildId, r3) ← digits1 r2;
  r4 ← stripPrefix ".channels." r3;
  '(channelId, r5) ← digits1 r4;
  let base := "discord." +:+ inst +:+ ".servers." +:+ guildId +:+ ".channels." +:+ channelId in
  let withGroup :=
    r6 ← stripPrefix ".channels." r5;
    '(subId, r7) ← digits1 r6;
    act ← actionSuffix r7;
    Some (base +:+ ".channels." +:+ subId, guildId, subId, act) in
  match withGroup with
  | Some m => Some m
  | None => act ← actionSuffix r5; Some (base, guildId, channelId, act)
  end.

(** The second pattern: [m[1]], [m[2]] and [m[3]]. *)
Definition matchSendUser (stateId : string) : option (string * string * string) :=
  r0 ← stripPrefix "discord." stateId;
  '(inst, r1) ← digits1 r0;
  r2 ← stripPrefix ".users." r1;
  '(userId, r3) ← digits1 r2;
  act ← actionSuffix r3;
  Some ("discord." +:+ inst +:+ ".users." +:+ userId, userId, act).

(** Target resolution of [build/main.js]: the target, [targetStateIdBase]
    and the action; [None] where the handler returns [false]. *)
Definition resolveTarget (stateId : string) (a : Adapter) : option (Target * string * string) :=
  match matchSendChannel stateId with
  | Some (base, guildId, channelId, action) =>
      match guilds_cache (client a) !! guildId ≫= (fun channels => channels !! channelId) with
      | Some channel =>
          if negb (channel_isText channel) || channel_isThread channel then None
          else Some (TChannel guildId channel, base, action)
      | None => None
      end
  | None =>
      match matchSendUser stateId with
      | Some (base, userId, action) =>
          match users_cache (client a) !! userId with
          | Some user => Some (TUser user, base, action)
          | None => None
          end
      | None => None
      end
  end.

(** [onSendStateChange(stateId, state)] of [build/main.js] *)
Definition onSendStateChange (stateId : string) (state : State) (a : Adapter)
  : Completion * Adapter :=
  if negb (isReady (client a)) then (Returns false, a)
  else
    match state_val state with
    | JStr val =>
        if (String.length val =? 0)%nat then (Returns false, a)
        else
          match resolveTarget stateId a with
          | None => (Returns false, a)
          | Some (target, targetStateIdBase, action) =>
              if String.eqb action "sendFile" then
                let '(file, content) := fileParts val in
                match getBufferAndNameFromBase64String (runtime a) file with
                | Some (buffer, name) =>
                    sendTo target
                      (JObj [ ("content", content);
                              ("files", JArr [ JObj [ ("attachment", buffer);
                                                      ("name", JStr name) ] ]) ]) a
                | None =>
                    let name := getBasenameFromFilePathOrUrl (runtime a) file in
                    let file1 := if startsWith file "file://" then slice file 7 None else file in
                    sendTo target
                      (JObj [ ("content", content);
                              ("files", JArr [ JObj [ ("attachment", JStr file1);
                                                      ("name", JStr name) ] ]) ]) a
                end
              else if String.eqb action "sendReply" || String.eqb action "sendReaction" then
                let '(messageReference, content) := pipeParts val targetStateIdBase a in
                if String.eqb action "sendReply"
                then sendReply target messageReference content a
                else sendReaction target messageReference content a
              else sendChecked (runtime a) target val a
          end
    | _ => (Returns false, a)
    end.

(** [setBotPresence(opts)]; an absent option is [JUndefined]. *)
Definition setBotPresence (optStatus optActivityType optActivityName : JsVal) (a : Adapter)
  : Adapter :=
  match client_user (client a) with
  | None => a
  | Some _ =>
      let stored (id : string) := default JUndefined (states a !! fixId a id) in
      let status1 :=
        if negb (truthy optStatus) then orElse (stored "bot.status") (JStr "online")
        else optStatus in
      let status2 :=
        if negb (isValidPresenceStatus (runtime a) status1) then JStr "online" else status1 in
      let type1 :=
        match optActivityType with
        | JUndefined => orElse (stored "bot.activityType") (JStr "")
        | t => t
        end in
      let type2 := if negb (isValidActivityType (runtime a) type1) then JStr "" else type1 in
      let name1 :=
        match optActivityName with
        | JUndefined => orElse (stored "bot.activityName") (JStr "")
        | n => n
        end in
      let activities :=
        if truthy type2 && truthy name1
        then [ JObj [("type", type2); ("name", name1)] ] else [] in
      issue (SetPresence [("status", status2); ("activities", JArr activities)]) a
  end.

(** [^discord\.\d+\.servers\.(\d+)\.members\.(\d+)\.voice(Disconnect|ServerMute|ServerDeaf)$] *)
Definition matchVoice (stateId : string) : option (string * string * string) :=
  r0 ← stripPrefix "discord." stateId;
  '(_, r1) ← digits1 r0;
  r2 ← stripPrefix ".servers." r1;
  '(guildId, r3) ← digits1 r2;
  r4 ← stripPrefix ".members." r3;
  '(memberId, r5) ← digits1 r4;
  act ← stripPrefix ".voice" r5;
  if String.eqb act "Disconnect" || String.eqb act "ServerMute" || String.eqb act "ServerDeaf"
  then Some (guildId, memberId, act) else None.

(** [onVoiceStateChange(stateId, state)] *)
Definition onVoiceStateChange (stateId : string) (state : State) (a : Adapter)
  : Completion * Adapter :=
  match matchVoice stateId with
  | None => (Returns false, a)
  | Some (guildId, memberId, action) =>
      match guilds_cache (client a) !! guildId, members_cache (client a) guildId memberId with
      | Some _, Some _ =>
          let call (c : Call) := (Returns (negb (rejects a c)), issue c a) in
          if String.eqb action "Disconnect" then
            if negb (truthy (state_val state)) then (Returns false, a)
            else call (VoiceDisconnect guildId memberId)
          else if String.eqb action "ServerDeaf" then
            call (VoiceSetDeaf guildId memberId (truthy (state_val state)))
          else call (VoiceSetMute guildId memberId (truthy (state_val state)))
      | _, _ => (Returns false, a)
      end
  end.

(** What [onStateChange] hands on: the result of the handler, the adapter,
    and whether the state was written back with [ack: true]. *)
Definition acknowledge (stateId : string) (state : State) (r : Completion * Adapter)
  : Completion * Adapter :=
  match r with
  | (Returns true, a) =>
      let '(ok, a1) := setStateAsync stateId (state_val state) true a in
      (if ok then Returns true else Rejected, a1)
  | other => other
  end.

(** [onStateChange(stateId, state)] of [build/main.js]; [state] is [None]
    for [null].  The completion is [Returns setAck], or [Rejected] when a
    handler or the final write throws. *)
Definition onStateChange (stateId : string) (state : option State) (a : Adapter)
  : Completion * Adapter :=
  match state with
  | None => (Returns false, a)
  | Some st =>
      if state_ack st then (Returns false, a)
      else
        let ns := namespace a in
        acknowledge stateId st
          (if startsWith stateId (ns +:+ ".") then
             if String.eqb stateId (ns +:+ ".bot.status") then
               (Returns true, setBotPresence (state_val st) JUndefined JUndefined a)
             else if String.eqb stateId (ns +:+ ".bot.activityType") then
               (Returns true, setBotPresence JUndefined (state_val st) JUndefined a)
             else if String.eqb stateId (ns +:+ ".bot.activityName") then
               (Returns true, setBotPresence JUndefined JUndefined (state_val st) a)
             else if endsWith stateId ".send" || endsWith stateId ".sendFile"
                     || endsWith stateId ".sendReply" || endsWith stateId ".sendReaction" then
               onSendStateChange stateId st a
             else if endsWith stateId ".voiceDisconnect" || endsWith stateId ".voiceServerMute"
                     || endsWith stateId ".voiceServerDeaf" then
               onVoiceStateChange stateId st a
             else (Returns false, a)
           else (Returns false, a))
  end.

(** ** The older revision, [src/main.ts] *)

Module Ts.

(** [updateUserPresence] of [src/main.ts]. *)
Definition updateUserPresence (userId : string) (presence : option Presence)
    (skipJsonStateUpdate : bool) (a : Adapter) : UpdateUserPresenceResult * Adapter :=
  if negb (observeUserPresence (config a)) then (noPresence, a)
  else
    let p := presenceProjection presence in
    let '(okJson, a1) :=
      if skipJsonStateUpdate then (true, a) else presenceJsonUpdate userId p a in
    let '(ok1, a2) :=
      setStateAsync ("users." +:+ userId +:+ ".status") (JStr (status p)) true a1 in
    let '(ok2, a3) :=
      setStateAsync ("users." +:+ userId +:+ ".activityName") (JStr (activityType p)) true a2 in
    let '(ok3, a4) :=
      setStateAsync ("users." +:+ userId +:+ ".activityType") (JStr (activityName p)) true a3 in
    if okJson && ok1 && ok2 && ok3 then (p, a4) else (noPresence, a4).

(** Split at the last dot: what is before it and what is after it. *)
Fixpoint splitLastDot (s : string) : option (string * string) :=
  match s with
  | EmptyString => None
  | String c rest =>
      match splitLastDot rest with
      | Some (pre, suf) => Some (String c pre, suf)
      | None => if Ascii.eqb c "." then Some (EmptyString, rest) else None
      end
  end.

Fixpoint allWordChars (s : string) : bool :=
  match s with
  | EmptyString => true
  | String c rest => isWordChar c && allWordChars rest
  end.

(** No line terminator, which [.] of a regular expression does not match. *)
Fixpoint oneLine (s : string) : bool :=
  match s with
  | EmptyString => true
  | String c rest =>
      negb (Ascii.eqb c "010") && negb (Ascii.eqb c "013") && oneLine rest
  end.

(** [stateId.replace(/^(.+)\.\w+$/, "$1")] *)
Definition stateIdChannelOf (stateId : string) : string :=
  match splitLastDot stateId with
  | Some (pre, suf) =>
      if negb (String.eqb pre "") && oneLine pre
         && negb (String.eqb suf "") && allWordChars suf
      then pre else stateId
  | None => stateId
  end.

(** Target resolution through [stateId2SendTargetInfo]: the target and
    [stateIdChannel]; [None] where the handler returns [false]. *)
Definition resolveTarget (stateId : string) (a : Adapter) : option (Target * string) :=
  let stateIdChannel := stateIdChannelOf stateId in
  match stateId2SendTargetInfo a !! stateIdChannel with
  | Some (ToChannel guildId _ channel) =>
      if negb (channel_isText channel) then None
      else Some (TChannel guildId channel, stateIdChannel)
  | Some (ToUser user) => Some (TUser user, stateIdChannel)
  | None => None
  end.

(** [onSendStateChange(stateId, state)] of [src/main.ts] *)
Definition onSendStateChange (stateId : string) (state : State) (a : Adapter)
  : Completion * Adapter :=
  if negb (isReady (client a)) then (Returns false, a)
  else
    match state_val state with
    | JStr val =>
        if (String.length val =? 0)%nat then (Returns false, a)
        else
          match resolveTarget stateId a with
          | None => (Returns false, a)
          | Some (target, stateIdChannel) =>
              if endsWith stateId ".sendFile" then
                let '(file, content) := fileParts val in
                sendTo target
                  (JObj [ ("content", content);
                          ("files", JArr [ JObj [ ("attachment", JStr file);
                                                  ("name", JStr (basename (runtime a) file)) ] ]) ])
                  a
              else if endsWith stateId ".sendReply" || endsWith stateId ".sendReaction" then
                let '(messageReference, content) := pipeParts val stateIdChannel a in
                if endsWith stateId ".sendReply"
                then sendReply target messageReference content a
                else sendReaction target messageReference content a
              else sendChecked (runtime a) target val a
          end
    | _ => (Returns false, a)
    end.

End Ts.

(** ** Reading aids for the statements about outbound commands *)

(** The state id ends with one of the four command suffixes. *)
Definition hasSendSuffix (stateId : string) : bool :=
  endsWith stateId ".send" || endsWith stateId ".sendFile"
  || endsWith stateId ".sendReply" || endsWith stateId ".sendReaction".

(** [typeof v !== "string"] *)
Definition notAString (v : JsVal) : bool :=
  match v with JStr _ => false | _ => true end.

(** The calls of a log that go to Discord. *)
Definition isRemoteCall (c : Call) : bool :=
  match c with
  | Send _ _ | React _ _ _ | SetPresence _
  | VoiceDisconnect _ _ | VoiceSetDeaf _ _ _ | VoiceSetMute _ _ _ => true
  | _ => false
  end.

(** [{ content, reply: { messageReference } }] *)
Definition replyMessage (messageReference : JsVal) (content : string) : JsVal :=
  JObj [ ("content", JStr content); ("reply", JObj [("messageReference", messageReference)]) ].

(** One remote send of [mo] to [target], and nothing else: the call is
    appended to the log, the handler returns whether Discord accepted it. *)
Definition sentOnce (target : Target) (mo : JsVal) (a : Adapter) : Completion * Adapter :=
  (Returns (negb (rejects a (Send target mo))), issue (Send target mo) a).

(** What a dispatch of [sendReply] does with the value [val], for the target
    [target] whose mirrored states live under [base]: [res] is the result of
    the handler.  A first [|] that is not the first character splits the
    value into message id and content; a value without [|], or starting with
    [|], is the content as a whole and the message id is read from the
    mirrored [messageId] state.  An empty id or content gives [false]
    without a call; otherwise there is exactly one send. *)
Definition ReplyDispatch (target : Target) (val base : string) (a : Adapter)
    (res : Completion * Adapter) : Prop :=
  (forall l r,
      val = l +:+ "|" +:+ r -> contains l "|" = false -> l <> "" ->
      res = if String.eqb r "" then (Returns false, a)
            else sentOnce target (replyMessage (JStr l) r) a)
  /\ (contains val "|" = false \/ startsWith val "|" = true ->
      let messageId := getForeignStateVal (base +:+ ".messageId") a in
      res = if truthy messageId then sentOnce target (replyMessage messageId val) a
            else (Returns false, a)).

(** The split as the specification words it: at the first [|], wherever it
    stands; the mirrored [messageId] only when there is no [|]. *)
Definition claimedReply (target : Target) (val base : string) (a : Adapter)
  : Completion * Adapter :=
  let idx := indexOf val "|" in
  let '(messageReference, content) :=
    if 0 <=? idx
    then (JStr (slice val 0 (Some idx)), slice val (idx + 1) None)
    else (getForeignStateVal (base +:+ ".messageId") a, val) in
  sendReply target messageReference content a.

(** The checks of the JSON branch on the parsed object. *)
Definition failsBasicChecks (mo : JsVal) : bool :=
  negb (truthy (prop mo "files")) && negb (truthy (prop mo "content"))
  || truthy (prop mo "files") && negb (isArray (prop mo "files"))
  || truthy (prop mo "embeds") && negb (isArray (prop mo "embeds")).

(** What a dispatch of [send] does with the value [val]: a value in braces
    is parsed; it is refused without a call when it does not parse or fails
    the checks, and sent as parsed otherwise; any other value is sent as
    the content of a message. *)
Definition SendDispatch (rt : Runtime) (target : Target) (val : string) (a : Adapter)
    (res : Completion * Adapter) : Prop :=
  (startsWith val "{" && endsWith val "}" = true ->
     (JSON_parse rt val = None -> res = (Returns false, a))
     /\ (forall fields,
           JSON_parse rt val = Some (JObj fields) ->
           res = if failsBasicChecks (JObj fields) then (Returns false, a)
                 else sentOnce target (JObj fields) a))
  /\ (startsWith val "{" && endsWith val "}" = false ->
      res = sentOnce target (JObj [("content", JStr val)]) a).

(** [k in o] for an object value. *)
Definition hasField (o : JsVal) (k : string) : bool :=
  match o with
  | JObj fields => existsb (fun kv => String.eqb (fst kv) k) fields
  | _ => false
  end.

(** The checks as the specification words them: neither content nor files
    is there, or files is there and no array, or embeds is there and no
    array. *)
Definition claimedInvalid (mo : JsVal) : bool :=
  negb (hasField mo "files") && negb (hasField mo "content")
  || hasField mo "files" && negb (isArray (prop mo "files"))
  || hasField mo "embeds" && negb (isArray (prop mo "embeds")).

(** *** Examples *)

(** A double quote. *)
Definition dq : string := String "034" EmptyString.

(** The JSON text of an object with content x and files 0. *)
Definition filesZeroText : string :=
  "{" +:+ dq +:+ "content" +:+ dq +:+ ":" +:+ dq +:+ "x" +:+ dq +:+ ","
      +:+ dq +:+ "files" +:+ dq +:+ ":0}".

Definition filesZero : JsVal := JObj [ ("content", JStr "x"); ("files", JNum 0) ].

(** The client knows server 5 with its text channel 31 and the user 7;
    [JSON.parse] is given on the one text the example needs. *)
Definition commandSetting : Setting :=
  {| runtime :=
       {| getStringOrTranslated := fun s => JStr s;
          JSON_stringify := fun _ => "{}";
          JSON_parse := fun s => if String.eqb s filesZeroText then Some filesZero else None;
          isValidPresenceStatus := fun _ => true;
          isValidActivityType := fun _ => true;
          getBufferAndNameFromBase64String := fun _ => None;
          getBasenameFromFilePathOrUrl := fun s => s;
          basename := fun s => s |};
     instance := "0";
     config := sampleConfig;
     client :=
       {| isReady := true; client_user := Some "1000";
          guilds_cache := {[ "5" := {[ "31" := general ]} ]};
          users_cache := {[ "7" := alice ]};
          members_cache := fun _ _ => None;
          dmChannelAvailable := fun _ => true;
          messageAvailable := fun _ _ => true |};
     rejects := fun _ => false;
     unloaded := false |}.

(** The last message mirrored for channel 31 has the id 111. *)
Definition commandAdapter : Adapter :=
  mkAdapter commandSetting ∅ ∅ ∅
    {[ "discord.0.servers.5.channels.30.channels.31" := ToChannel "5" "Home" general;
       "discord.0.users.7" := ToUser alice ]}
    ∅
    {[ "discord.0.servers.5.channels.30.channels.31.messageId" := JStr "111" ]}
    [].

(** * The rest of the adapter

    What follows covers the methods of [DiscordAdapter] around the caches,
    the reconciliation pass and the command dispatch: the handlers of the
    Discord events, the object and lifecycle handlers, and what the methods
    above do on the inputs the statements so far left aside. *)

(** ** Reading aids *)

(** A call to the voice connection of a guild member. *)
Definition isVoiceCall (c : Call) : bool :=
  match c with
  | VoiceDisconnect _ _ | VoiceSetDeaf _ _ _ | VoiceSetMute _ _ _ => true
  | _ => false
  end.

(** A call that sends a message or a reaction. *)
Definition isMessageCall (c : Call) : bool :=
  match c with Send _ _ | React _ _ _ => true | _ => false end.

(** The target of a message call. *)
Definition targetOf (c : Call) : option Target :=
  match c with Send t _ | React t _ _ => Some t | _ => None end.

(** The target is taken from the caches of the client: a text channel of a
    cached guild that is no thread, or a cached user. *)
Definition cachedTarget (cl : Client) (t : Target) : Prop :=
  match t with
  | TChannel guildId channel =>
      channel_isText channel = true /\ channel_isThread channel = false
      /\ exists channels channelId,
           guilds_cache cl !! guildId = Some channels /\ channels !! channelId = Some channel
  | TUser user => exists userId, users_cache cl !! userId = Some user
  end.

(** A string of one or more digits, as [\d+] matches it whole. *)
Definition isDigits (s : string) : bool := allDigits s && negb (String.eqb s "").

(** [\d+] stops here: the string is empty or starts with no digit. *)
Definition noLeadingDigit (s : string) : bool :=
  match s with
  | EmptyString => true
  | String c _ => negb (isDigit c)
  end.

(** An adapter that has the snapshot of user 7 in its cache. *)
Definition snapshotAdapter : Adapter :=
  withJsonStateCache
    {[ "discord.0.users.7.json" :=
         [ ("id", JStr "7"); ("tag", JStr "alice#0001"); ("status", JStr "idle") ] ]}
    (newAdapter sampleSetting).

(** An adapter whose database holds a stored [bot.status]. *)
Definition botStatusAdapter : Adapter :=
  withStates {[ "discord.0.bot.status" := JStr "idle" ]} (newAdapter sampleSetting).

(** A client that has member 7 of guild 5 in its caches. *)
Definition memberClient : Client :=
  {| isReady := true; client_user := Some "1000";
     guilds_cache := {[ "5" := ∅ ]}; users_cache := ∅;
     members_cache := fun guildId memberId =>
       if String.eqb guildId "5" && String.eqb memberId "7" then Some "alice#0001" else None;
     dmChannelAvailable := fun _ => true; messageAvailable := fun _ _ => true |}.

Definition memberAdapter : Adapter :=
  newAdapter {| runtime := sampleRuntime; instance := "0"; config := sampleConfig;
                client := memberClient; rejects := fun _ => false; unloaded := false |}.

(** The adapter [a'] is [a] after at most one call, and that call goes to
    Discord. *)
Definition AtMostOneRemote (a a' : Adapter) : Prop :=
  a' = a \/ exists c, isRemoteCall c = true /\ a' = issue c a.

(** The adapter [a'] has what [a] has and more: no object is gone, and the
    calls made in between delete nothing. *)
Definition Grows (a a' : Adapter) : Prop :=
  objects a ⊆ objects a'
  /\ messageReceiveStates a ⊆ messageReceiveStates a'
  /\ exists made,
       calls a' = calls a ++ made
       /\ Forall (fun c => match c with DelObject _ _ => False | _ => True end) made.

(** ** The connection state and the end of the adapter *)

(** The adapter with the three fields of the class that the lifecycle
    methods use beside it: [infoConnected], whether [this.client] has
    been created, and, for the observer, whether [client.destroy()] was
    called and how often the [unload] callback was called. *)
Record Lifecycle := mkLifecycle {
  lc_adapter : Adapter;
  infoConnected : bool;
  clientCreated : bool;
  destroyed : bool;
  callbacks : nat }.

Definition withLcAdapter (a : Adapter) (l : Lifecycle) : Lifecycle :=
  mkLifecycle a (infoConnected l) (clientCreated l) (destroyed l) (callbacks l).

(** The adapter right after construction: [infoConnected = false],
    [client = null]. *)
Definition newLifecycle (a : Adapter) : Lifecycle := mkLifecycle a false false false 0.

(** [setInfoConnectionState(connected, force)]: [false] stands for a
    rejected promise.  The flag is set after the awaited write. *)
Definition setInfoConnectionState (connected force : bool) (l : Lifecycle)
  : bool * Lifecycle :=
  if force || negb (Bool.eqb connected (infoConnected l)) then
    let '(ok, a1) := setStateAsync "info.connection" (JBool connected) true (lc_adapter l) in
    if ok
    then (true, mkLifecycle a1 connected (clientCreated l) (destroyed l) (callbacks l))
    else (false, withLcAdapter a1 l)
  else (true, l).

(** [this.unloaded = true] *)
Definition withUnloaded (a : Adapter) : Adapter :=
  mkAdapter
    {| runtime := runtime a; instance := instance a; config := config a; client := client a;
       rejects := rejects a; unloaded := true |}
    (extendObjectCache a) (jsonStateCache a) (messageReceiveStates a)
    (stateId2SendTargetInfo a) (objects a) (states a) (calls a).

(** [onUnload(callback)]: the [try] block and its [catch].  [destroyThrows]
    says whether [client.destroy()] throws; the callback itself is taken
    not to throw. *)
Definition onUnload (destroyThrows : bool) (l : Lifecycle) : Lifecycle :=
  let l1 := withLcAdapter (withUnloaded (lc_adapter l)) l in
  let called (x : Lifecycle) :=
    mkLifecycle (lc_adapter x) (infoConnected x) (clientCreated x) (destroyed x)
                (S (callbacks x)) in
  let '(ok, l2) := setInfoConnectionState false true l1 in
  if negb ok then called l2
  else if clientCreated l2 then
    if destroyThrows then called l2
    else called (mkLifecycle (lc_adapter l2) (infoConnected l2) (clientCreated l2) true
                             (callbacks l2))
  else called l2.

(** ** Voice state events *)

(** What [onClientVoiceStateUpdate] reads of a [VoiceState]: the id of its
    member and of its guild, the id of its channel and, when the channel is
    resolved, its name, and the four flags.  [None] is [null]. *)
Record VoiceStateEvent := {
  vs_memberId : option string;      (* [state.member?.id] *)
  vs_guildId : string;              (* [state.guild.id] *)
  vs_channelId : option string;     (* [state.channelId] *)
  vs_channelName : option string;   (* [state.channel?.name] *)
  vs_serverDeaf : option bool;
  vs_selfDeaf : option bool;
  vs_serverMute : option bool;
  vs_selfMute : option bool }.

(** [x !== y] on strings or [null], and on booleans or [null]. *)
Definition differs_string (x y : option string) : bool :=
  match x, y with
  | Some s, Some t => negb (String.eqb s t)
  | None, None => false
  | _, _ => true
  end.

Definition differs_bool (x y : option bool) : bool :=
  match x, y with
  | Some b, Some c => negb (Bool.eqb b c)
  | None, None => false
  | _, _ => true
  end.

(** One [if (oldState.x !== newState.x) { proms.push(..); json.f = v; update = true; }]:
    the writes started so far, the snapshot and the [update] flag. *)
Definition voiceChange (changed : bool) (leafId : string) (leafVal : JsVal)
    (field : string) (fieldVal : JsVal) (acc : list Cmd * Obj * bool)
  : list Cmd * Obj * bool :=
  let '(proms, json, update) := acc in
  if changed
  then (proms ++ [CSetState leafId leafVal], setField json field fieldVal, true)
  else (proms, json, update).

(** The five comparisons of [onClientVoiceStateUpdate], in order, for the
    member states under [base]. *)
Definition voiceChanges (oldState newState : VoiceStateEvent) (base : string) (json : Obj)
  : list Cmd * Obj * bool :=
  let name := JStr (default "" (vs_channelName newState)) in   (* [channel?.name || ""] *)
  voiceChange (differs_bool (vs_selfMute oldState) (vs_selfMute newState))
    (base +:+ ".voiceSelfMute") (JBool (toBool (vs_selfMute newState)))
    "voiceServerMute" (JBool (toBool (vs_serverMute newState)))
  (voiceChange (differs_bool (vs_serverMute oldState) (vs_serverMute newState))
    (base +:+ ".voiceServerMute") (JBool (toBool (vs_serverMute newState)))
    "voiceSelfMute" (JBool (toBool (vs_selfMute newState)))
  (voiceChange (differs_bool (vs_selfDeaf oldState) (vs_selfDeaf newState))
    (base +:+ ".voiceSelfDeaf") (JBool (toBool (vs_selfDeaf newState)))
    "voiceServerDeaf" (JBool (toBool (vs_serverDeaf newState)))
  (voiceChange (differs_bool (vs_serverDeaf oldState) (vs_serverDeaf newState))
    (base +:+ ".voiceServerDeaf") (JBool (toBool (vs_serverDeaf newState)))
    "voiceSelfDeaf" (JBool (toBool (vs_selfDeaf newState)))
  (voiceChange (differs_string (vs_channelId oldState) (vs_channelId newState))
    (base +:+ ".voiceChannel") name "voiceChannel" name
    ([], json, false))))).

(** [onClientVoiceStateUpdate(oldState, newState)]: [false] stands for a
    rejected promise.  The snapshot starts as a copy of the cached one (of
    the empty object when there is none); the writes are started in the
    order in which they are pushed, the snapshot last, and the cache is set
    before they are awaited. *)
Definition onClientVoiceStateUpdate (oldState newState : VoiceStateEvent) (a : Adapter)
  : bool * Adapter :=
  match vs_memberId newState with
  | None => (true, a)
  | Some memberId =>
      if negb (truthy (JStr memberId)) then (true, a)
      else
        let base := "servers." +:+ vs_guildId newState +:+ ".members." +:+ memberId in
        let key := namespace a +:+ "." +:+ base +:+ ".json" in
        let '(proms, json, update) :=
          voiceChanges oldState newState base (default [] (jsonStateCache a !! key)) in
        if update then
          let '(ok, a1) :=
            execAll (proms ++ [CSetState (base +:+ ".json")
                                 (JStr (JSON_stringify (runtime a) json))]) a in
          (ok, withJsonStateCache (<[key := json]> (jsonStateCache a1)) a1)
        else execAll proms a
  end.

(** The write of one member leaf, when its field changed. *)
Definition leafWrite (changed : bool) (id : string) (val : JsVal) : list Call :=
  if changed then [SetState id val true] else [].

(** A member of guild 5 is deafened by the server. *)
Definition notDeaf : VoiceStateEvent :=
  {| vs_memberId := Some "7"; vs_guildId := "5"; vs_channelId := Some "40";
     vs_channelName := Some "Talk"; vs_serverDeaf := Some false; vs_selfDeaf := Some false;
     vs_serverMute := Some false; vs_selfMute := Some false |}.

Definition serverDeafened : VoiceStateEvent :=
  {| vs_memberId := Some "7"; vs_guildId := "5"; vs_channelId := Some "40";
     vs_channelName := Some "Talk"; vs_serverDeaf := Some true; vs_selfDeaf := Some false;
     vs_serverMute := Some false; vs_selfMute := Some false |}.

(** ** Custom configuration of objects *)

(** [common.custom[this.namespace]] of an object.  The optional flags are
    given by their truthiness; a name or alias that is not set is [None]. *)
Record CustomConfig := {
  cc_enabled : bool;
  cc_enableText2command : bool;
  cc_enableCommands : bool;
  cc_commandsName : option string;
  cc_commandsAlias : option string;
  cc_commandsAllowGet : bool;
  cc_commandsAllowSet : bool }.

(** [common.name]: a string, or an object of translations by language.  A
    name that is not set reads like the empty string, both are falsy. *)
Inductive CommonName :=
| PlainName (name : string)
| TranslatedName (byLanguage : gmap string string).

Record ObjCommon := { common_name : CommonName }.

(** What [getForeignObjectAsync(objId)] answers. *)
Inductive FetchedObject :=
| FetchRejected
| NoObject
| FoundObject (type : string) (common : ObjCommon).

(** [i18n.language] and the object database as [setupObjCustom] reads it. *)
Record CustomEnv := {
  language : string;
  getForeignObject : string -> FetchedObject }.

(** The argument of [discordSlashCommands.setupCommandObject]. *)
Record CommandCfg := {
  cmd_id : string;
  cmd_alias : string;
  cmd_name : string;
  cmd_get : bool;
  cmd_set : bool }.

(** [text2commandObjects] and the calls of [setupCommandObject] made so
    far, the latest last; [None] is [null]. *)
Record CustomState := {
  text2commandObjects : gset string;
  commandObjects : list (string * option CommandCfg) }.

(** [x || y] on strings that may be unset. *)
Definition orString (x : option string) (y : string) : string :=
  match x with
  | Some s => if String.eqb s "" then y else s
  | None => y
  end.

Fixpoint allChars (ok : ascii -> bool) (s : string) : bool :=
  match s with
  | EmptyString => true
  | String c s' => ok c && allChars ok s'
  end.

(** [[0-9a-zA-Z._-]] *)
Definition isAliasChar (c : ascii) : bool :=
  isWordChar c || Ascii.eqb c "." || Ascii.eqb c "-".

(** [alias.match(/^[0-9a-zA-Z._-]{0,100}$/)] *)
Definition validAlias (alias : string) : bool :=
  allChars isAliasChar alias && (String.length alias <=? 100)%nat.

(** The name taken from [objCommon.name]. *)
Definition nameFromCommon (env : CustomEnv) (common : ObjCommon) : option string :=
  match common_name common with
  | TranslatedName byLanguage =>
      match byLanguage !! language env with
      | Some s => if String.eqb s "" then byLanguage !! "en" else Some s
      | None => byLanguage !! "en"
      end
  | PlainName name => Some name
  end.

(** [setupObjCustom(objId, customCfg, objCommon)]: [false] stands for a
    rejected promise ([getForeignObjectAsync] rejected). *)
Definition setupObjCustom (env : CustomEnv) (s : Setting) (objId : string)
    (customCfg : option CustomConfig) (objCommon : option ObjCommon) (st : CustomState)
  : bool * CustomState :=
  let flag (f : CustomConfig -> bool) := default false (f <$> customCfg) in
  let t2c :=
    if startsWith objId (namespace s +:+ ".") && endsWith objId ".message" then
      if flag cc_enabled && flag cc_enableText2command
      then {[objId]} ∪ text2commandObjects st
      else text2commandObjects st ∖ {[objId]}
    else text2commandObjects st in
  let register (cfg : option CommandCfg) :=
    (true, {| text2commandObjects := t2c;
              commandObjects := commandObjects st ++ [(objId, cfg)] |}) in
  match customCfg with
  | Some cc =>
      if cc_enableCommands cc then
        let fetched :=
          match objCommon with
          | Some common => Some (Some common)
          | None =>
              match getForeignObject env objId with
              | FetchRejected => None
              | NoObject => Some None
              | FoundObject type common =>
                  if String.eqb type "state" then Some (Some common) else Some None
              end
          end in
        match fetched with
        | None => (false, {| text2commandObjects := t2c; commandObjects := commandObjects st |})
        | Some common =>
            let name :=
              match cc_commandsName cc with
              | Some n => if String.eqb n "" then common ≫= nameFromCommon env else Some n
              | None => common ≫= nameFromCommon env
              end in
            let cfg :=
              {| cmd_id := objId;
                 cmd_alias := orString (cc_commandsAlias cc) objId;
                 cmd_name := orString name objId;
                 cmd_get := cc_commandsAllowGet cc;
                 cmd_set := cc_commandsAllowSet cc |} in
            let cfgOk :=
              negb (100 <? String.length (cmd_name cfg))%nat && validAlias (cmd_alias cfg) in
            register (if cfgOk then Some cfg else None)
        end
      else register None
  | None => register None
  end.

(** An ioBroker object as [onObjectChange] reads it: its type, its
    [common] and [common.custom[this.namespace]]. *)
Record IoObject := {
  obj_type : string;
  obj_common : option ObjCommon;
  obj_custom : option CustomConfig }.

(** [onObjectChange(objId, obj)]; [obj] is [None] for a deleted object. *)
Definition onObjectChange (env : CustomEnv) (s : Setting) (objId : string)
    (obj : option IoObject) (st : CustomState) : CustomState :=
  match obj with
  | Some o =>
      if String.eqb (obj_type o) "state"
      then snd (setupObjCustom env s objId (obj_common o ≫= fun _ => obj_custom o)
                  (obj_common o) st)
      else st
  | None => snd (setupObjCustom env s objId None None st)
  end.

(** ** Incoming messages *)

(** The options of the adapter that [onClientMessageCreate] reads beside
    the authorization. *)
Record MessageConfig := {
  enableRawStates : bool;
  processMessagesFromUnauthorizedUsers : bool;
  reactOnMentions : bool;
  reactOnMentionsEmoji : string;
  processAllMessagesInServerChannel : bool;
  text2commandInstance : string }.

Record Attachment := {
  att_attachment : string;   (* [att.attachment.toString()] *)
  att_name : option string;
  att_size : Z;
  att_id : string }.

Record MentionedMember := {
  mm_id : string;
  mm_tag : string;
  mm_displayName : string }.

(** A Discord message as the handler reads it.  [msg_member] is
    [message.member]: the guild of the member and the ids of its roles;
    [msg_rawJson] is the text [JSON.stringify(message.toJSON(), ..)]
    gives. *)
Record Message := {
  msg_id : string;
  msg_channelType : string;
  msg_channelId : string;
  msg_channelParentId : option string;
  msg_guildId : option string;
  msg_author : User;
  msg_authorUsername : string;
  msg_member : option (string * list string);
  msg_content : string;
  msg_interaction : bool;
  msg_mentionsUsers : list string;
  msg_mentionsMembers : option (list MentionedMember);
  msg_attachments : list Attachment;
  msg_createdTimestamp : Z;
  msg_rawJson : string }.

(** What the handler does beside the calls to the database: a reaction to
    the message, and a message to another adapter instance. *)
Inductive Outgoing :=
| Reacted (messageId emoji : string)
| SentTo (instance command : string) (payload : Obj).

(** [message.member || author] as a principal of the authorization. *)
Definition authCheckTarget (message : Message) : Principal :=
  match msg_member message with
  | Some (guildId, roles) => PGuildMember (user_id (msg_author message)) guildId roles
  | None => PUser (user_id (msg_author message))
  end.

(** [msgStateIdPrefix]; [None] where the handler returns with a warning. *)
Definition msgStateIdPrefix (s : Setting) (message : Message) : option string :=
  if String.eqb (msg_channelType message) "GUILD_TEXT" then
    let guildId := default "null" (msg_guildId message) in
    match msg_channelParentId message with
    | Some parentId =>
        if String.eqb parentId ""
        then Some (namespace s +:+ ".servers." +:+ guildId +:+ ".channels."
                     +:+ msg_channelId message)
        else Some (namespace s +:+ ".servers." +:+ guildId +:+ ".channels." +:+ parentId
                     +:+ ".channels." +:+ msg_channelId message)
    | None =>
        Some (namespace s +:+ ".servers." +:+ guildId +:+ ".channels."
                +:+ msg_channelId message)
    end
  else if String.eqb (msg_channelType message) "DM" then
    Some (namespace s +:+ ".users." +:+ user_id (msg_author message))
  else None.

(** The snapshot [json] of the message, before [json.author] is added. *)
Definition messageJson (message : Message) (mentioned authorized : bool) : Obj :=
  [ ("content", JStr (msg_content message));
    ("attachments",
     JArr ((fun att =>
              JObj [ ("attachment", JStr (att_attachment att));
                     ("name", match att_name att with Some n => JStr n | None => JNull end);
                     ("size", JNum (att_size att));
                     ("id", JStr (att_id att)) ])
           <$> msg_attachments message));
    ("id", JStr (msg_id message));
    ("mentions",
     JArr ((fun m => JObj [ ("id", JStr (mm_id m)); ("tag", JStr (mm_tag m));
                            ("displayName", JStr (mm_displayName m)) ])
           <$> default [] (msg_mentionsMembers message)));
    ("mentioned", JBool mentioned);
    ("timestamp", JNum (msg_createdTimestamp message));
    ("authorized", JBool authorized) ].

(** Where the guards at the top of [onClientMessageCreate] lead: the
    handler returns, or it goes on to mirror the message under [prefix].
    Both carry the reaction made on the way. *)
Inductive Guarded :=
| Return (reaction : list Outgoing)
| Mirror (prefix : string) (mentioned authorized : bool) (reaction : list Outgoing).

(** The handler from the check of the client to the check of
    [messageReceiveStates].  A reaction that Discord rejects is caught and
    logged. *)
Definition messageGuards (mc : MessageConfig) (message : Message) (a : Adapter) : Guarded :=
  match client_user (client a) with
  | None => Return []
  | Some botId =>
      if negb (truthy (JStr botId)) then Return []
      else if msg_interaction message then Return []
      else if String.eqb (user_id (msg_author message)) botId then Return []
      else
        let isAuthorAuthorized := checkUserAuthorization a (authCheckTarget message) None in
        if negb (processMessagesFromUnauthorizedUsers mc) && negb isAuthorAuthorized
        then Return []
        else
          let mentioned := existsb (String.eqb botId) (msg_mentionsUsers message) in
          let reaction :=
            if mentioned && reactOnMentions mc && isAuthorAuthorized
            then [Reacted (msg_id message) (reactOnMentionsEmoji mc)] else [] in
          if negb mentioned && String.eqb (msg_channelType message) "GUILD_TEXT"
             && negb (processAllMessagesInServerChannel mc)
          then Return reaction
          else
            match msgStateIdPrefix a message with
            | None => Return reaction
            | Some prefix =>
                if negb (bool_decide (prefix +:+ ".message" ∈ messageReceiveStates a))
                then Return reaction
                else Mirror prefix mentioned isAuthorAuthorized reaction
            end
  end.

(** The snapshot with [json.author], which a message of a guild gets. *)
Definition messageSnapshot (displayName : option string) (message : Message)
    (mentioned authorized : bool) : Obj :=
  if truthy (JStr (default "" (msg_guildId message)))
  then messageJson message mentioned authorized ++
       [ ("author",
          JObj [ ("id", JStr (user_id (msg_author message)));
                 ("tag", JStr (user_tag (msg_author message)));
                 ("displayName",
                  JStr (orString displayName (msg_authorUsername message))) ]) ]
  else messageJson message mentioned authorized.

(** The writes of the handler in the order in which they are started:
    those pushed to [proms] (the author of a guild message, the snapshot
    when it differs from the cached one), then the three of the array
    literal. *)
Definition messageWrites (displayName : option string) (message : Message)
    (prefix : string) (mentioned authorized : bool) (a : Adapter) : list (string * JsVal) :=
  let json := messageSnapshot displayName message mentioned authorized in
  let key := namespace a +:+ "." +:+ prefix +:+ ".messageJson" in
  (if truthy (JStr (default "" (msg_guildId message)))
   then [(prefix +:+ ".messageAuthor", JStr (user_tag (msg_author message)))]
   else [])
  ++ (if isDeepStrictEqual (JObj json) (getOrUndefined (jsonStateCache a !! key))
      then []
      else [(prefix +:+ ".messageJson", JStr (JSON_stringify (runtime a) json))])
  ++ [ (prefix +:+ ".message", JStr (msg_content message));
       (prefix +:+ ".messageId", JStr (msg_id message));
       (prefix +:+ ".messageTimestamp", JNum (msg_createdTimestamp message)) ].

(** [onClientMessageCreate(message)]: [false] stands for a rejected
    promise.  [displayName] is what the guild cache of the client has for
    the author ([guilds.cache.get(guildId)?.members.cache.get(id)?.displayName]),
    [t2c] is [text2commandObjects].  The raw state is written with
    [setState], whose outcome nobody waits for.  The snapshot cache is set
    when the write of the snapshot is started, before the writes are
    awaited. *)
Definition onClientMessageCreate (mc : MessageConfig) (displayName : option string)
    (t2c : gset string) (message : Message) (a : Adapter)
  : bool * Adapter * list Outgoing :=
  let a0 :=
    if enableRawStates mc
    then snd (setStateAsync "raw.messageJson" (JStr (msg_rawJson message)) true a)
    else a in
  match messageGuards mc message a with
  | Return reaction => (true, a0, reaction)
  | Mirror prefix mentioned authorized reaction =>
      let json := messageSnapshot displayName message mentioned authorized in
      let key := namespace a +:+ "." +:+ prefix +:+ ".messageJson" in
      let '(ok, a1) :=
        execAll ((fun w => CSetState (fst w) (snd w))
                   <$> messageWrites displayName message prefix mentioned authorized a) a0 in
      let a2 :=
        if isDeepStrictEqual (JObj json) (getOrUndefined (jsonStateCache a !! key))
        then a1
        else withJsonStateCache (<[key := json]> (jsonStateCache a1)) a1 in
      if negb ok then (false, a2, reaction)
      else if truthy (JStr (msg_content message))
              && truthy (JStr (text2commandInstance mc))
              && bool_decide (prefix +:+ ".message" ∈ t2c)
      then
        if checkUserAuthorization a (authCheckTarget message)
             (Some {| req_getStates := None; req_setStates := None;
                      req_useText2command := Some true |})
        then (true, a2,
              reaction ++ [SentTo (text2commandInstance mc) "send"
                             [("text", JStr (msg_content message))]])
        else (true, a2, reaction)
      else (true, a2, reaction)
  end.


(** A mention of the bot in channel 31 of guild 5 by the user 7, and the
    adapter that mirrors the messages of that channel. *)
Definition helloMessage : Message :=
  {| msg_id := "900"; msg_channelType := "GUILD_TEXT"; msg_channelId := "31";
     msg_channelParentId := Some "30"; msg_guildId := Some "5";
     msg_author := alice; msg_authorUsername := "alice";
     msg_member := Some ("5", ["2"]);
     msg_content := "hello"; msg_interaction := false;
     msg_mentionsUsers := ["1000"]; msg_mentionsMembers := None;
     msg_attachments := []; msg_createdTimestamp := 1650000000000;
     msg_rawJson := "{}" |}.

Definition openConfig : MessageConfig :=
  {| enableRawStates := false; processMessagesFromUnauthorizedUsers := true;
     reactOnMentions := false; reactOnMentionsEmoji := "";
     processAllMessagesInServerChannel := false; text2commandInstance := "" |}.

Definition mirroringAdapter : Adapter :=
  withMessageReceiveStates {[ "discord.0.servers.5.channels.30.channels.31.message" ]}
    (newAdapter sampleSetting).



(** ** The token check of [onReady] *)

(** [[0-9a-zA-Z-_]] *)
Definition isTokenChar (c : ascii) : bool := isWordChar c || Ascii.eqb c "-".

(** [typeof token === "string" &&
    token.match(/^[0-9a-zA-Z-_]{24}\.[0-9a-zA-Z-_]{6}\.[0-9a-zA-Z-_]{27,38}$/)]:
    the first 24 characters, a dot, the next 6 characters, a dot, and
    27 to 38 characters up to the end. *)
Definition validToken (token : JsVal) : bool :=
  match token with
  | JStr t =>
      let part1 := take 24 t in
      let rest1 := drop 24 t in
      let part2 := take 6 (drop 1 rest1) in
      let rest2 := drop 6 (drop 1 rest1) in
      let part3 := drop 1 rest2 in
      (String.length part1 =? 24)%nat && allChars isTokenChar part1
      && startsWith rest1 "."
      && (String.length part2 =? 6)%nat && allChars isTokenChar part2
      && startsWith rest2 "."
      && (27 <=? String.length part3)%nat && (String.length part3 <=? 38)%nat
      && allChars isTokenChar part3
  | _ => false
  end.

(** ** Files *)

(** [{ content, files: [{ attachment, name }] }], the message of
    [sendFile]. *)
Definition fileMessage (content attachment : JsVal) (name : string) : JsVal :=
  JObj [ ("content", content);
         ("files", JArr [ JObj [ ("attachment", attachment); ("name", JStr name) ] ]) ].

(** ** The two revisions of the outbound commands *)

(** An entry of [stateId2SendTargetInfo] of [src/main.ts] names the target
    [t]: the same guild and channel, or the same user. *)
Definition sameTargetInfo (info : SendTargetInfo) (t : Target) : Prop :=
  match info, t with
  | ToChannel guildId _ channel, TChannel guildId' channel' =>
      guildId = guildId' /\ channel = channel'
  | ToUser user, TUser user' => user = user'
  | _, _ => False
  end.

(** * Properties *)

(** ** Strings *)

Lemma startsWith_app (p r : string) : startsWith (p +:+ r) p = true.
Proof.
  induction p as [|a p IH]; simpl; [reflexivity|].
  rewrite Ascii.eqb_refl. exact IH.
Qed.

Lemma startsWith_inv (s p : string) :
  startsWith s p = true -> exists r, s = p +:+ r.
Proof.
  revert s. induction p as [|a p IH]; intros s H; simpl in *.
  - exists s. reflexivity.
  - destruct s as [|b s]; [discriminate|].
    apply andb_prop in H as [Hab Hs].
    apply Ascii.eqb_eq in Hab. subst b.
    destruct (IH _ Hs) as [r ->]. exists r. reflexivity.
Qed.

Lemma startsWith_spec (s p : string) :
  startsWith s p = true <-> exists r, s = p +:+ r.
Proof.
  split; [apply startsWith_inv|]. intros [r ->]. apply startsWith_app.
Qed.

Lemma startsWith_refl (s : string) : startsWith s s = true.
Proof.
  induction s as [|a s IH]; simpl; [reflexivity|].
  rewrite Ascii.eqb_refl. exact IH.
Qed.

Lemma stripPrefix_spec (p s r : string) :
  stripPrefix p s = Some r <-> s = p +:+ r.
Proof.
  revert s. induction p as [|a p IH]; intros s; simpl.
  - split; [intros [= ->]; reflexivity | intros ->; reflexivity].
  - destruct s as [|b s].
    + split; discriminate.
    + destruct (Ascii.eqb a b) eqn:E.
      * apply Ascii.eqb_eq in E. subst b. rewrite IH.
        split; [intros ->; reflexivity | intros [= ->]; reflexivity].
      * apply Ascii.eqb_neq in E.
        split; [discriminate | intros [= <- _]; congruence].
Qed.

Lemma stripPrefix_app (p r : string) : stripPrefix p (p +:+ r) = Some r.
Proof. apply stripPrefix_spec. reflexivity. Qed.

Lemma append_assoc (a b c : string) : (a +:+ b) +:+ c = a +:+ b +:+ c.
Proof. induction a as [|x a IH]; simpl; [reflexivity | now rewrite IH]. Qed.

Lemma startsWith_trans (s p q : string) :
  startsWith s p = true -> startsWith p q = true -> startsWith s q = true.
Proof.
  intros [r ->]%startsWith_inv [r' ->]%startsWith_inv.
  rewrite append_assoc. apply startsWith_app.
Qed.

Lemma length_append (a b : string) :
  String.length (a +:+ b) = (String.length a + String.length b)%nat.
Proof. induction a as [|x a IH]; simpl; [reflexivity | now rewrite IH]. Qed.

Lemma drop_append (a b : string) : drop (String.length a) (a +:+ b) = b.
Proof. induction a as [|x a IH]; simpl; [now destruct b | exact IH]. Qed.

Lemma drop_append_le (n : nat) (a b : string) :
  (n <= String.length a)%nat -> drop n (a +:+ b) = drop n a +:+ b.
Proof.
  revert a. induction n as [|n IH]; intros a H; simpl.
  - reflexivity.
  - destruct a as [|x a]; simpl in *; [lia|]. apply IH. lia.
Qed.

Lemma drop_more (n m : nat) (s : string) : drop n (drop m s) = drop (m + n) s.
Proof.
  revert s. induction m as [|m IH]; intros s; simpl; [reflexivity|].
  destruct s as [|x s]; [now destruct n|]. apply IH.
Qed.

Lemma take_append (a b : string) : take (String.length a) (a +:+ b) = a.
Proof. induction a as [|x a IH]; simpl; [reflexivity | now rewrite IH]. Qed.

Lemma take_all (s : string) : take (String.length s) s = s.
Proof. induction s as [|x s IH]; simpl; [reflexivity | now rewrite IH]. Qed.

(** A suffix test on [r +:+ s] only looks at [s] when [s] is long enough. *)
Lemma endsWith_app (r s p : string) :
  (String.length p <= String.length s)%nat ->
  endsWith (r +:+ s) p = endsWith s p.
Proof.
  intros H. unfold endsWith. rewrite length_append.
  replace (String.length p <=? String.length r + String.length s)%nat
    with true by (symmetry; apply Nat.leb_le; lia).
  replace (String.length p <=? String.length s)%nat
    with true by (symmetry; apply Nat.leb_le; lia).
  simpl. f_equal.
  replace (String.length r + String.length s - String.length p)%nat
    with (String.length r + (String.length s - String.length p))%nat by lia.
  rewrite <- drop_more, drop_append. reflexivity.
Qed.

Lemma take_then_drop (n : nat) (s : string) : take n s +:+ drop n s = s.
Proof.
  revert s. induction n as [|n IH]; intros s; simpl; [reflexivity|].
  destruct s as [|x s]; simpl; [reflexivity | now rewrite IH].
Qed.

Lemma endsWith_spec (s p : string) :
  endsWith s p = true <-> exists r, s = r +:+ p.
Proof.
  unfold endsWith. split.
  - intros [Hl He]%andb_prop. apply String.eqb_eq in He.
    exists (take (String.length s - String.length p) s).
    rewrite <- He at 2. symmetry. apply take_then_drop.
  - intros [r ->]. rewrite length_append.
    replace (String.length p <=? String.length r + String.length p)%nat
      with true by (symmetry; apply Nat.leb_le; lia).
    replace (String.length r + String.length p - String.length p)%nat
      with (String.length r) by lia.
    rewrite drop_append. simpl. apply String.eqb_refl.
Qed.

(** The position of the first [c] in [l +:+ c +:+ r] when [l] has none. *)
Lemma indexOf_first (l r : string) (c : ascii) :
  contains l c = false ->
  indexOf (l +:+ String c r) c = Z.of_nat (String.length l).
Proof.
  induction l as [|a l IH]; simpl; intros H.
  - now rewrite Ascii.eqb_refl.
  - apply orb_false_elim in H as [Hac Hl]. rewrite Hac, (IH Hl).
    destruct (Z.of_nat (String.length l) <? 0) eqn:E; lia.
Qed.

Lemma indexOf_absent (s : string) (c : ascii) :
  contains s c = false -> indexOf s c = -1.
Proof.
  induction s as [|a s IH]; simpl; intros H; [reflexivity|].
  apply orb_false_elim in H as [Hac Hs]. now rewrite Hac, (IH Hs).
Qed.

Lemma indexOf_ge (s : string) (c : ascii) : -1 <= indexOf s c.
Proof.
  induction s as [|a s IH]; simpl; [lia|].
  destruct (Ascii.eqb a c); [lia|].
  destruct (indexOf s c <? 0) eqn:E; lia.
Qed.

Lemma clampIndex_id (len i : Z) : 0 <= i <= len -> clampIndex len i = i.
Proof.
  intros H. unfold clampIndex. destruct (i <? 0) eqn:E; lia.
Qed.

Lemma slice_prefix (l r : string) :
  slice (l +:+ r) 0 (Some (Z.of_nat (String.length l))) = l.
Proof.
  unfold slice. rewrite length_append.
  rewrite !clampIndex_id by lia.
  rewrite Z.sub_0_r, Nat2Z.id. change (Z.to_nat 0) with O.
  apply take_append.
Qed.

Lemma slice_suffix (l r : string) (c : ascii) :
  slice (l +:+ String c r) (Z.of_nat (String.length l) + 1) None = r.
Proof.
  unfold slice. rewrite length_append. cbn [String.length].
  rewrite clampIndex_id by lia.
  replace (Z.to_nat (Z.of_nat (String.length l) + 1))
    with (String.length l + 1)%nat by lia.
  rewrite <- drop_more, drop_append. cbn [drop].
  replace (Z.to_nat _) with (String.length r) by lia.
  apply take_all.
Qed.

(** ** Deep equality *)




(** ** The write-suppression wrappers *)

Lemma deleteEach_lookup (doomed cache : gmap string Obj) (k : string) :
  deleteEach doomed cache !! k =
  match doomed !! k with Some _ => None | None => cache !! k end.
Proof.
  unfold deleteEach. revert k.
  apply (map_fold_weak_ind
           (fun r (m : gmap string Obj) =>
              forall k, r !! k = match m !! k with Some _ => None | None => cache !! k end)).
  - intros k. now rewrite lookup_empty.
  - intros i x m r Hi IH k. destruct (decide (i = k)) as [->|Hne].
    + now rewrite lookup_delete_eq, lookup_insert_eq.
    + rewrite lookup_delete_ne, lookup_insert_ne by done. apply IH.
Qed.

(** The definition cache after a recursive cached delete. *)
Lemma delObjectAsyncCached_cache (id k : string) (a : Adapter) :
  extendObjectCache (snd (delObjectAsyncCached id true a)) !! k =
  if startsWith k id then None else extendObjectCache a !! k.
Proof.
  unfold delObjectAsyncCached, delObjectAsync. simpl.
  destruct (rejects _ _); simpl; rewrite deleteEach_lookup, map_lookup_filter;
    destruct (extendObjectCache a !! k) as [o|] eqn:E; simpl;
    destruct (startsWith k id) eqn:S; simpl;
    try reflexivity; try (rewrite option_guard_True by done; reflexivity);
    try (rewrite option_guard_False by (simpl; congruence); reflexivity).
Qed.



(** C9.  A recursive cached delete removes a definition-cache entry exactly
    when its key starts with the given id as a string, whatever follows the
    id in the key: deleting [servers.123] also purges the entries of the
    sibling [servers.1234].  Entries whose key does not start with the id
    keep their value. *)
Theorem delObjectAsyncCached_purges_by_string_prefix (id : string) (a : Adapter) :
  (forall k, extendObjectCache (snd (delObjectAsyncCached id true a)) !! k =
             if startsWith k id then None else extendObjectCache a !! k)
  /\ (forall k, startsWith k id = false ->
                extendObjectCache (snd (delObjectAsyncCached id true a)) !! k =
                extendObjectCache a !! k)
  /\ (forall k, startsWith k id = true ->
                extendObjectCache (snd (delObjectAsyncCached id true a)) !! k = None)
  /\ (forall rest, extendObjectCache
                     (snd (delObjectAsyncCached "servers.123" true a))
                     !! ("servers.1234" +:+ rest) = None).
Proof.
  split; [intros k; apply delObjectAsyncCached_cache|].
  split; [intros k H; now rewrite delObjectAsyncCached_cache, H|].
  split; [intros k H; now rewrite delObjectAsyncCached_cache, H|].
  intros rest. now rewrite delObjectAsyncCached_cache.
Qed.

(** ** Authorization *)

Section Authorization.

Lemma fold_orGrant_fields (gs : list Grant) (g : Grant) :
  getStates (fold_left orGrant gs g) = existsb getStates (g :: gs)
  /\ setStates (fold_left orGrant gs g) = existsb setStates (g :: gs)
  /\ useText2command (fold_left orGrant gs g) = existsb useText2command (g :: gs).
Proof.
  revert g. induction gs as [|h gs IH]; intros g; simpl.
  - now rewrite !orb_false_r.
  - destruct (IH (orGrant g h)) as (H1 & H2 & H3). rewrite H1, H2, H3. simpl.
    now rewrite !orb_assoc.
Qed.

Lemma mergeAll_snoc (gs : list Grant) (h : Grant) :
  mergeAll (gs ++ [h]) =
  Some (match mergeAll gs with None => h | Some g => orGrant g h end).
Proof.
  destruct gs as [|g gs]; simpl; [reflexivity|]. now rewrite fold_left_app.
Qed.

Lemma role_loop (cfg : Config) (guildId : string) (roles : list string) (gs : list Grant) :
  fold_left (roleStep cfg guildId) roles (mergeAll gs) =
  mergeAll (gs ++ omap (fun roleId => grantOfRole <$> findAuthorizedServerRole cfg guildId roleId)
                       roles).
Proof.
  revert gs. induction roles as [|r roles IH]; intros gs; simpl.
  - now rewrite app_nil_r.
  - unfold roleStep at 2.
    destruct (findAuthorizedServerRole cfg guildId r) as [ar|]; simpl.
    + replace (gs ++ grantOfRole ar :: _) with ((gs ++ [grantOfRole ar]) ++
        omap (fun roleId => grantOfRole <$> findAuthorizedServerRole cfg guildId roleId) roles)
        by now rewrite <- app_assoc.
      rewrite <- IH, mergeAll_snoc. now destruct (mergeAll gs).
    + apply IH.
Qed.

Lemma no_roles_configured (cfg : Config) (user : Principal) :
  authorizedServerRoles cfg = [] -> firstRoleGrants cfg user = [].
Proof.
  intros H. destruct user as [|id g roles]; simpl; [reflexivity|].
  unfold findAuthorizedServerRole. rewrite H. simpl.
  induction roles as [|r roles IH]; simpl; [reflexivity | exact IH].
Qed.

Lemma decide_on_merged (grants : list Grant) (required : option Required) :
  match mergeAll grants with
  | None => false
  | Some g =>
      match required with
      | None => true
      | Some r =>
          if requested (req_getStates r) && negb (getStates g)
             || requested (req_setStates r) && negb (setStates g)
             || requested (req_useText2command r) && negb (useText2command g)
          then false else true
      end
  end = decideOnGrants true grants required.
Proof.
  unfold decideOnGrants.
  destruct grants as [|g gs]; simpl; [reflexivity|].
  destruct required as [r|]; [|reflexivity].
  destruct (fold_orGrant_fields gs g) as (H1 & H2 & H3). rewrite H1, H2, H3.
  simpl. destruct (requested (req_getStates r)), (requested (req_setStates r)),
    (requested (req_useText2command r)), (getStates g || existsb getStates gs),
    (setStates g || existsb setStates gs),
    (useText2command g || existsb useText2command gs); reflexivity.
Qed.

End Authorization.

(** C4, as the code has it.  With authorization disabled the answer is
    [true].  Otherwise the grants taking part are the first configured user
    entry of the principal's id and, for a guild member, the first configured
    role entry of each of its (server, role) pairs; they are OR-merged per
    field.  Without any such grant the answer is [false]; with a grant and no
    requested capability it is [true]; otherwise it is [true] exactly when
    every requested field is [true] in the merge. *)
Theorem checkUserAuthorization_or_merge
    (a : Adapter) (user : Principal) (required : option Required) :
  checkUserAuthorization a user required =
  decideOnGrants (enableAuthorization (config a))
    (userGrants (config a) user ++ firstRoleGrants (config a) user) required.
Proof.
  unfold checkUserAuthorization. cbv zeta.
  destruct (enableAuthorization (config a)) eqn:En; [|reflexivity].
  change (negb true) with false. cbv iota.
  rewrite <- decide_on_merged.
  assert (Hu : grantOfUser <$> findAuthorizedUser (config a) (principalId user)
               = mergeAll (userGrants (config a) user)).
  { unfold userGrants. now destruct (findAuthorizedUser _ _). }
  destruct user as [id | id g roles].
  - simpl firstRoleGrants. rewrite app_nil_r, Hu. reflexivity.
  - destruct (0 <? length (authorizedServerRoles (config a)))%nat eqn:L.
    + rewrite Hu, role_loop. reflexivity.
    + rewrite no_roles_configured, app_nil_r, Hu; [reflexivity|].
      apply Nat.ltb_ge in L. destruct (authorizedServerRoles (config a)); [reflexivity|].
      simpl in L. lia.
Qed.

(** C4 as worded, with every matching role entry taking part in the merge,
    fails when a (server, role) pair is configured twice: the member of
    server 1 with role 2 asks for [getStates]; the code only looks at the
    first entry of the pair and refuses, the worded merge would accept. *)
Lemma checkUserAuthorization_ignores_later_duplicates :
  checkUserAuthorization duplicateRoleAdapter (PGuildMember "9" "1" ["2"])
    (Some {| req_getStates := Some true; req_setStates := None;
             req_useText2command := None |}) = false
  /\ claimedAuthorization duplicateRoleAdapter (PGuildMember "9" "1" ["2"])
       (Some {| req_getStates := Some true; req_setStates := None;
                req_useText2command := None |}) = true.
Proof. split; reflexivity. Qed.

(** ** Presence projection *)

Lemma setStateAsync_calls (id : string) (v : JsVal) (ack : bool) (a : Adapter) :
  calls (snd (setStateAsync id v ack a)) = calls a ++ [SetState id v ack].
Proof. unfold setStateAsync. now destruct (rejects a _). Qed.

Lemma setStateAsync_setting (id : string) (v : JsVal) (ack : bool) (a : Adapter) :
  setting (snd (setStateAsync id v ack a)) = setting a.
Proof. unfold setStateAsync. now destruct (rejects a _). Qed.

Lemma presenceJsonUpdate_calls (userId : string) (p : UpdateUserPresenceResult) (a : Adapter) :
  exists pre, calls (snd (presenceJsonUpdate userId p a)) = calls a ++ pre.
Proof.
  unfold presenceJsonUpdate.
  destruct (jsonStateCache a !! _) as [json|].
  - eexists. rewrite setStateAsync_calls. reflexivity.
  - exists []. now rewrite app_nil_r.
Qed.

(** The newer revision writes each derived value to the leaf of its name. *)
Lemma updateUserPresence_writes_projection
    (userId : string) (presence : option Presence) (skip : bool) (a : Adapter) :
  observeUserPresence (config a) = true ->
  let p := presenceProjection presence in
  exists pre,
    calls (snd (updateUserPresence userId presence skip a)) =
    calls a ++ pre
      ++ [ SetState ("users." +:+ userId +:+ ".status") (JStr (status p)) true;
           SetState ("users." +:+ userId +:+ ".activityName") (JStr (activityName p)) true;
           SetState ("users." +:+ userId +:+ ".activityType") (JStr (activityType p)) true ].
Proof.
  intros Hobs p. unfold updateUserPresence. rewrite Hobs. simpl negb. cbv iota.
  fold p.
  assert (Hpre : exists pre,
    calls (snd (if skip then (true, a) else presenceJsonUpdate userId p a)) = calls a ++ pre).
  { destruct skip; [exists []; now rewrite app_nil_r | apply presenceJsonUpdate_calls]. }
  destruct Hpre as [pre Hpre]. exists pre.
  destruct (if skip then (true, a) else presenceJsonUpdate userId p a) as [okJ a1].
  simpl in Hpre.
  destruct (setStateAsync _ (JStr (status p)) true a1) as [ok1 a2] eqn:E1.
  destruct (setStateAsync _ (JStr (activityName p)) true a2) as [ok2 a3] eqn:E2.
  destruct (setStateAsync _ (JStr (activityType p)) true a3) as [ok3 a4] eqn:E3.
  assert (calls a4 = calls a ++ pre ++ [ SetState ("users." +:+ userId +:+ ".status") (JStr (status p)) true;
           SetState ("users." +:+ userId +:+ ".activityName") (JStr (activityName p)) true;
           SetState ("users." +:+ userId +:+ ".activityType") (JStr (activityType p)) true ]).
  { change a4 with (snd (ok3, a4)). rewrite <- E3, setStateAsync_calls.
    change a3 with (snd (ok2, a3)). rewrite <- E2, setStateAsync_calls.
    change a2 with (snd (ok1, a2)). rewrite <- E1, setStateAsync_calls.
    rewrite Hpre, <- !app_assoc. reflexivity. }
  now destruct (okJ && ok1 && ok2 && ok3).
Qed.

(** C7 on [src/main.ts].  With presence observation on, the older revision
    writes the derived activity type to the [activityName] leaf and the
    derived activity name to the [activityType] leaf. *)
Theorem updateUserPresence_ts_swaps_activity_leaves
    (userId : string) (presence : option Presence) (a : Adapter) :
  observeUserPresence (config a) = true ->
  let p := presenceProjection presence in
  calls (snd (Ts.updateUserPresence userId presence true a)) =
  calls a
    ++ [ SetState ("users." +:+ userId +:+ ".status") (JStr (status p)) true;
         SetState ("users." +:+ userId +:+ ".activityName") (JStr (activityType p)) true;
         SetState ("users." +:+ userId +:+ ".activityType") (JStr (activityName p)) true ].
Proof.
  intros Hobs p. unfold Ts.updateUserPresence. rewrite Hobs. simpl negb. cbv iota.
  fold p.
  destruct (setStateAsync _ (JStr (status p)) true a) as [ok1 a2] eqn:E1.
  destruct (setStateAsync _ (JStr (activityType p)) true a2) as [ok2 a3] eqn:E2.
  destruct (setStateAsync _ (JStr (activityName p)) true a3) as [ok3 a4] eqn:E3.
  assert (calls a4 = calls a ++ [ SetState ("users." +:+ userId +:+ ".status") (JStr (status p)) true;
         SetState ("users." +:+ userId +:+ ".activityName") (JStr (activityType p)) true;
         SetState ("users." +:+ userId +:+ ".activityType") (JStr (activityName p)) true ]).
  { change a4 with (snd (ok3, a4)). rewrite <- E3, setStateAsync_calls.
    change a3 with (snd (ok2, a3)). rewrite <- E2, setStateAsync_calls.
    change a2 with (snd (ok1, a2)). rewrite <- E1, setStateAsync_calls.
    rewrite <- !app_assoc. reflexivity. }
  now destruct (true && ok1 && ok2 && ok3).
Qed.

Lemma updateUserPresence_ts_swaps_activity_leaves_witness :
  calls (snd (Ts.updateUserPresence "7" (Some chessPresence) true (newAdapter sampleSetting))) =
  [ SetState "users.7.status" (JStr "online") true;
    SetState "users.7.activityName" (JStr "PLAYING") true;
    SetState "users.7.activityType" (JStr "Chess") true ].
Proof.
  exact (updateUserPresence_ts_swaps_activity_leaves "7" (Some chessPresence)
           (newAdapter sampleSetting) eq_refl).
Defined.

(** ** The pass never changes its setting *)

Ltac split_ifs :=
  repeat match goal with
         | |- context [if ?c then _ else _] => destruct c eqn:?
         | |- context [match ?x with Some _ => _ | None => _ end] => destruct x eqn:?
         end.

Lemma extendObjectAsync_setting id obj (a : Adapter) :
  setting (snd (extendObjectAsync id obj a)) = setting a.
Proof. unfold extendObjectAsync. now destruct (rejects a _). Qed.

Lemma delObjectAsync_setting id r (a : Adapter) :
  setting (snd (delObjectAsync id r a)) = setting a.
Proof. unfold delObjectAsync. now destruct (rejects a _). Qed.

Lemma extendObjectAsyncCached_setting id obj (a : Adapter) :
  setting (snd (extendObjectAsyncCached id obj a)) = setting a.
Proof.
  unfold extendObjectAsyncCached, extendObjectAsync.
  destruct (isDeepStrictEqual _ _); [reflexivity|]. now destruct (rejects a _).
Qed.

Lemma delObjectAsyncCached_setting id r (a : Adapter) :
  setting (snd (delObjectAsyncCached id r a)) = setting a.
Proof.
  unfold delObjectAsyncCached. rewrite delObjectAsync_setting. now destruct r.
Qed.

Lemma presenceJsonUpdate_setting uid p (a : Adapter) :
  setting (snd (presenceJsonUpdate uid p a)) = setting a.
Proof.
  unfold presenceJsonUpdate. destruct (jsonStateCache a !! _); [|reflexivity].
  now rewrite setStateAsync_setting.
Qed.

Lemma updateUserPresence_setting uid presence skip (a : Adapter) :
  setting (snd (updateUserPresence uid presence skip a)) = setting a.
Proof.
  unfold updateUserPresence. destruct (negb _); [reflexivity|].
  pose proof (presenceJsonUpdate_setting uid (presenceProjection presence) a) as HJ.
  destruct (if skip then (true, a) else presenceJsonUpdate uid (presenceProjection presence) a)
    as [okJ a1] eqn:EJ.
  assert (H1 : setting a1 = setting a).
  { destruct skip; [now inversion EJ | now rewrite EJ in HJ]. }
  destruct (setStateAsync _ _ true a1) as [ok1 a2] eqn:E1.
  destruct (setStateAsync _ _ true a2) as [ok2 a3] eqn:E2.
  destruct (setStateAsync _ _ true a3) as [ok3 a4] eqn:E3.
  assert (setting a4 = setting a).
  { change a4 with (snd (ok3, a4)). rewrite <- E3, setStateAsync_setting.
    change a3 with (snd (ok2, a3)). rewrite <- E2, setStateAsync_setting.
    change a2 with (snd (ok1, a2)). rewrite <- E1, setStateAsync_setting. exact H1. }
  now destruct (okJ && ok1 && ok2 && ok3).
Qed.

Lemma awaitJsonState_setting id json (a : Adapter) :
  setting (snd (awaitJsonState id json a)) = setting a.
Proof.
  unfold awaitJsonState, setStateAsync.
  destruct (isDeepStrictEqual _ _); [reflexivity|]. now destruct (rejects a _).
Qed.

Lemma pushJsonState_setting id json (a : Adapter) :
  setting (snd (pushJsonState id json a)) = setting a.
Proof.
  unfold pushJsonState, setStateAsync.
  destruct (isDeepStrictEqual _ _); [reflexivity|]. now destruct (rejects a _).
Qed.

Lemma execCmd_setting c (a : Adapter) : setting (snd (execCmd c a)) = setting a.
Proof.
  destruct c; simpl.
  - apply extendObjectAsyncCached_setting.
  - apply setStateAsync_setting.
  - apply pushJsonState_setting.
  - apply updateUserPresence_setting.
Qed.

Lemma execAll_setting cmds (a : Adapter) : setting (snd (execAll cmds a)) = setting a.
Proof.
  revert a. induction cmds as [|c cmds IH]; intros a; simpl; [reflexivity|].
  pose proof (execCmd_setting c a) as Hc. destruct (execCmd c a) as [ok a1].
  pose proof (IH a1) as Hr. destruct (execAll cmds a1) as [oks a2].
  simpl in *. congruence.
Qed.

Lemma execStep_setting step (st : Pass) :
  setting (snd (execStep step st)) = setting st.
Proof.
  destruct step; simpl; try reflexivity.
  - pose proof (execAll_setting cmds st) as H. now destruct (execAll cmds st).
  - pose proof (awaitJsonState_setting id json st) as H. now destruct (awaitJsonState id json st).
  - apply updateUserPresence_setting.
Qed.

Lemma run_setting steps (st : Pass) : setting (snd (run steps st)) = setting st.
Proof.
  revert st. induction steps as [|step steps IH]; intros st; simpl; [reflexivity|].
  pose proof (execStep_setting step st) as H.
  destruct (execStep step st) as [[| |] st1]; simpl in *; try exact H.
  now rewrite IH.
Qed.

Lemma upsertPhase_setting guilds (a : Adapter) :
  setting (snd (upsertPhase guilds a)) = setting a.
Proof.
  unfold upsertPhase. destruct (client_user _) as [botId|]; [|reflexivity].
  pose proof (run_setting (guildsSteps a botId guilds) (mkPass a [] ∅)) as H1.
  destruct (run (guildsSteps a botId guilds) _) as [[| |] st1]; simpl in *; try exact H1.
  now rewrite run_setting.
Qed.

(** ** The two waves of the channel loop *)







(** ** The sweep *)




Lemma fixId_servers (s : Setting) (rest : string) :
  fixId s ("servers." +:+ rest) = namespace s +:+ ".servers." +:+ rest.
Proof. reflexivity. Qed.

Lemma fixId_users (s : Setting) (rest : string) :
  fixId s ("users." +:+ rest) = namespace s +:+ ".users." +:+ rest.
Proof. reflexivity. Qed.






Lemma sweepServersItem_setting known itemId (a : Adapter) :
  setting (snd (sweepServersItem known itemId a)) = setting a.
Proof.
  unfold sweepServersItem.
  destruct (matchServersChannels a itemId); [|reflexivity].
  destruct (decide _); [reflexivity|]. now rewrite delObjectAsyncCached_setting.
Qed.

Lemma sweepUsersItem_setting users itemId (a : Adapter) :
  setting (snd (sweepUsersItem users itemId a)) = setting a.
Proof.
  unfold sweepUsersItem.
  destruct (matchUsers a itemId); [|reflexivity].
  destruct (collectionHas _ _); [reflexivity|]. now rewrite delObjectAsyncCached_setting.
Qed.



Lemma sweepLoop_setting (body : string -> Adapter -> bool * Adapter)
    (rows : list string) (a : Adapter) :
  (forall y b, setting (snd (body y b)) = setting b) ->
  setting (snd (sweepLoop body rows a)) = setting a.
Proof.
  intros Hset. revert a. induction rows as [|y rows IH]; intros a; simpl; [reflexivity|].
  pose proof (Hset y a) as Hs. destruct (body y a) as [ok a1]. simpl in Hs.
  destruct ok; simpl; [|exact Hs]. now rewrite IH.
Qed.

Lemma matchServersChannels_id (s : Setting) (id idPath : string) :
  matchServersChannels s id = Some idPath -> id = namespace s +:+ ".servers." +:+ idPath.
Proof.
  unfold matchServersChannels.
  destruct (stripPrefix _ id) as [r|] eqn:E; simpl; [|discriminate].
  destruct (isIdPath r); [|discriminate]. intros [= <-].
  apply stripPrefix_spec in E. rewrite E. apply append_assoc.
Qed.




Lemma startsWith_cancel (p x y : string) :
  startsWith (p +:+ x) (p +:+ y) = startsWith x y.
Proof.
  induction p as [|c p IH]; simpl; [reflexivity|]. now rewrite Ascii.eqb_refl.
Qed.

Lemma delObjectAsync_keeps (id k : string) (a : Adapter) :
  k ∈ objects a ->
  k <> fixId a id ->
  startsWith k (fixId a id +:+ ".") = false ->
  k ∈ objects (snd (delObjectAsync id true a)).
Proof.
  intros Hin Hne Hs. unfold delObjectAsync.
  destruct (rejects a _); cbn [snd objects withObjects issue withCalls]; [exact Hin|].
  apply elem_of_filter. split; [|exact Hin].
  split; [exact Hne|]. intros [_ H]. congruence.
Qed.

(** The servers loop leaves the objects outside [<namespace>.servers.] alone. *)
Lemma sweepServersItem_keeps_others (known : gset string) (itemId k : string) (a : Adapter) :
  k ∈ objects a ->
  startsWith k (namespace a +:+ ".servers.") = false ->
  k ∈ objects (snd (sweepServersItem known itemId a)).
Proof.
  intros Hin Hk. unfold sweepServersItem.
  destruct (matchServersChannels a itemId) as [idPath|]; [|exact Hin].
  destruct (decide (itemId ∈ known)); [exact Hin|].
  unfold delObjectAsyncCached.
  match goal with |- context [delObjectAsync _ _ ?x] => set (A := x) end.
  assert (HA : setting A = setting a) by reflexivity.
  assert (Hin' : k ∈ objects A) by exact Hin.
  clearbody A.
  apply delObjectAsync_keeps; [exact Hin' | |];
    rewrite fixId_servers; unfold namespace; rewrite HA; fold (namespace a).
  - intros ->. rewrite startsWith_cancel in Hk. simpl in Hk. discriminate.
  - destruct (startsWith k ((namespace a +:+ _) +:+ ".")) eqn:Hs; [|reflexivity].
    assert (startsWith k (namespace a +:+ ".servers.") = true); [|congruence].
    eapply startsWith_trans; [exact Hs|].
    rewrite append_assoc, startsWith_cancel. reflexivity.
Qed.

Lemma sweepLoop_keeps_others (known : gset string) (rows : list string) (k : string)
    (a : Adapter) :
  k ∈ objects a ->
  startsWith k (namespace a +:+ ".servers.") = false ->
  k ∈ objects (snd (sweepLoop (sweepServersItem known) rows a)).
Proof.
  revert a. induction rows as [|y rows IH]; intros a Hin Hk; simpl; [exact Hin|].
  pose proof (sweepServersItem_keeps_others known y k a Hin Hk) as H1.
  pose proof (sweepServersItem_setting known y a) as H2.
  destruct (sweepServersItem known y a) as [ok a1]. simpl in *.
  destruct ok; simpl; [|exact H1].
  apply IH; [exact H1|]. unfold namespace in *. now rewrite H2.
Qed.


Lemma updateGuilds_phases (guilds : option (list Guild)) (a : Adapter) (st' : Pass) :
  updateGuilds guilds a = (Ok, st') ->
  exists mid a1,
    upsertPhase guilds a = (Ok, mid)
    /\ sweepLoop (sweepServersItem (knownServersAndChannelsIds mid))
         (getObjectList (namespace mid +:+ ".servers.") mid) mid = (true, a1)
    /\ sweepLoop (sweepUsersItem (allServersUsers mid))
         (getObjectList (namespace a1 +:+ ".users.") a1) a1 = (true, adapter st')
    /\ allServersUsers st' = allServersUsers mid
    /\ knownServersAndChannelsIds st' = knownServersAndChannelsIds mid.
Proof.
  unfold updateGuilds. destruct (upsertPhase guilds a) as [[| |] mid] eqn:Eup; try discriminate.
  unfold sweepPhase.
  destruct (sweepLoop (sweepServersItem _) _ mid) as [ok1 a1] eqn:E1.
  destruct ok1; [|discriminate].
  destruct (sweepLoop (sweepUsersItem _) _ a1) as [ok2 a2] eqn:E2.
  destruct ok2; [|discriminate]. intros [= <-].
  exists mid, a1. repeat split; assumption.
Qed.

Lemma ran_to_end {A : Type} (r : Status * A) : fst r = Ok -> r = (Ok, snd r).
Proof. destruct r as [st x]. simpl. now intros ->. Qed.



(** ** Outbound commands: the guards and the acknowledgement *)

Lemma endsWith_trans (s p q : string) :
  endsWith s p = true -> endsWith p q = true -> endsWith s q = true.
Proof.
  intros [r ->]%endsWith_spec [r' ->]%endsWith_spec.
  apply endsWith_spec. exists (r +:+ r'). now rewrite append_assoc.
Qed.

(** The last two characters of a state id with a command suffix. *)
Lemma send_suffix_tail (stateId : string) :
  hasSendSuffix stateId = true ->
  endsWith stateId "nd" = true \/ endsWith stateId "le" = true
  \/ endsWith stateId "ly" = true \/ endsWith stateId "on" = true.
Proof.
  unfold hasSendSuffix. intros H.
  apply orb_prop in H as [H|H]; [apply orb_prop in H as [H|H];
                                 [apply orb_prop in H as [H|H]|]|].
  - left. eapply endsWith_trans; [exact H | reflexivity].
  - right. left. eapply endsWith_trans; [exact H | reflexivity].
  - right. right. left. eapply endsWith_trans; [exact H | reflexivity].
  - right. right. right. eapply endsWith_trans; [exact H | reflexivity].
Qed.

Lemma send_suffix_not_bot (ns stateId : string) :
  hasSendSuffix stateId = true ->
  String.eqb stateId (ns +:+ ".bot.status") = false
  /\ String.eqb stateId (ns +:+ ".bot.activityType") = false
  /\ String.eqb stateId (ns +:+ ".bot.activityName") = false.
Proof.
  intros H. apply send_suffix_tail in H.
  repeat split; apply String.eqb_neq; intros ->;
    rewrite !endsWith_app in H by (simpl; lia);
    destruct H as [H|[H|[H|H]]]; discriminate H.
Qed.

Lemma onSendStateChange_guards (stateId : string) (st : State) (a : Adapter) :
  notAString (state_val st) = true \/ state_val st = JStr "" ->
  onSendStateChange stateId st a = (Returns false, a).
Proof.
  unfold onSendStateChange. destruct (negb (isReady (client a))); [reflexivity|].
  intros [H | ->]; [|reflexivity].
  destruct (state_val st); try reflexivity. discriminate H.
Qed.

Lemma acknowledge_calls (stateId : string) (st : State) (r : Completion * Adapter) :
  calls (snd (acknowledge stateId st r)) =
  calls (snd r) ++ match fst r with
                   | Returns true => [SetState stateId (state_val st) true]
                   | _ => []
                   end.
Proof.
  destruct r as [[[|]|] a]; simpl; try (now rewrite app_nil_r).
  unfold setStateAsync. now destruct (rejects a _).
Qed.

(** C10.  For a write without acknowledgement to a state of the adapter whose
    id ends in [.send], [.sendFile], [.sendReply] or [.sendReaction],
    [onStateChange] hands the write to [onSendStateChange] and writes the
    state back with [ack: true] exactly when that handler returned [true].
    When the value is not a string or is the empty string the handler returns
    [false] and leaves the adapter as it was: no call is made, neither to
    Discord nor to write the state back. *)
Theorem onStateChange_acknowledges_handled_sends
    (stateId : string) (st : State) (a : Adapter) :
  state_ack st = false ->
  startsWith stateId (namespace a +:+ ".") = true ->
  hasSendSuffix stateId = true ->
  let handled := onSendStateChange stateId st a in
  let done := onStateChange stateId (Some st) a in
  calls (snd done) =
    calls (snd handled)
    ++ match fst handled with
       | Returns true => [SetState stateId (state_val st) true]
       | _ => []
       end
  /\ (notAString (state_val st) = true \/ state_val st = JStr "" ->
      handled = (Returns false, a) /\ done = (Returns false, a)).
Proof.
  intros Hack Hns Hsuf handled done.
  destruct (send_suffix_not_bot (namespace a) stateId Hsuf) as (B1 & B2 & B3).
  assert (Hdone : done = acknowledge stateId st handled).
  { unfold done, onStateChange. rewrite Hack, Hns, B1, B2, B3.
    unfold hasSendSuffix in Hsuf. rewrite Hsuf. reflexivity. }
  split.
  - rewrite Hdone. apply acknowledge_calls.
  - intros Hval. pose proof (onSendStateChange_guards stateId st a Hval) as Hh.
    fold handled in Hh. split; [exact Hh|]. now rewrite Hdone, Hh.
Qed.

Lemma onStateChange_acknowledges_handled_sends_witness :
  onStateChange "discord.0.users.7.send" (Some {| state_val := JNum 5; state_ack := false |})
    (newAdapter sampleSetting)
  = (Returns false, newAdapter sampleSetting).
Proof.
  refine (proj2 (proj2 (onStateChange_acknowledges_handled_sends "discord.0.users.7.send"
            {| state_val := JNum 5; state_ack := false |} (newAdapter sampleSetting)
            _ _ _) _)).
  - reflexivity.
  - reflexivity.
  - reflexivity.
  - left. reflexivity.
Defined.

(** ** Outbound commands: replies *)

Lemma pipeParts_split (l r base : string) (a : Adapter) :
  contains l "|" = false -> l <> "" ->
  pipeParts (l +:+ "|" +:+ r) base a = (JStr l, r).
Proof.
  intros Hl Hne. unfold pipeParts.
  change (l +:+ "|" +:+ r) with (l +:+ String "|" r).
  rewrite indexOf_first by exact Hl.
  destruct l as [|c l]; [congruence|].
  replace (0 <? Z.of_nat (String.length (String c l))) with true
    by (symmetry; apply Z.ltb_lt; simpl; lia).
  now rewrite slice_prefix, slice_suffix.
Qed.

Lemma pipeParts_whole (val base : string) (a : Adapter) :
  contains val "|" = false \/ startsWith val "|" = true ->
  pipeParts val base a = (getForeignStateVal (base +:+ ".messageId") a, val).
Proof.
  intros [H|H]; unfold pipeParts.
  - now rewrite indexOf_absent.
  - apply startsWith_inv in H as [r ->]. reflexivity.
Qed.

Lemma sendReply_dispatch (target : Target) (val base : string) (a : Adapter) :
  val <> "" ->
  ReplyDispatch target val base a
    (let '(messageReference, content) := pipeParts val base a in
     sendReply target messageReference content a).
Proof.
  intros Hval. split.
  - intros l r -> Hl Hne. rewrite pipeParts_split by assumption.
    unfold sendReply. simpl. destruct l as [|c l]; [congruence|]. simpl.
    now destruct (String.eqb r "").
  - intros H. rewrite pipeParts_whole by exact H. unfold sendReply. cbv zeta.
    destruct (truthy (getForeignStateVal _ a)) eqn:T; simpl; [|reflexivity].
    destruct val as [|c val]; [congruence | reflexivity].
Qed.

Lemma nonempty_length (val : string) : val <> "" -> (String.length val =? 0)%nat = false.
Proof. destruct val; [congruence | reflexivity]. Qed.

(** C3, as the code has it, in both revisions.  A dispatch of [sendReply]
    with a non-empty string value that reaches the action (client ready,
    target resolved) splits the value at its first [|] when that is not the
    first character: the left side is the message id, the right side the
    content.  A value without [|], and also a value that starts with [|],
    is the content as a whole, and the message id is read from the mirrored
    [messageId] state of the target.  With an empty message id or content
    the handler returns [false] and makes no call; otherwise it makes
    exactly one send with that reply reference and content. *)
Theorem sendReply_splits_after_nonempty_id
    (stateId : string) (st : State) (val : string) (target : Target) (base : string)
    (a : Adapter) :
  isReady (client a) = true ->
  state_val st = JStr val ->
  val <> "" ->
  (resolveTarget stateId a = Some (target, base, "sendReply") ->
   ReplyDispatch target val base a (onSendStateChange stateId st a))
  /\ (Ts.resolveTarget stateId a = Some (target, base) ->
      endsWith stateId ".sendFile" = false ->
      endsWith stateId ".sendReply" = true ->
      ReplyDispatch target val base a (Ts.onSendStateChange stateId st a)).
Proof.
  intros Hready Hval Hne.
  pose proof (sendReply_dispatch target val base a Hne) as HD.
  split.
  - intros Hres. unfold onSendStateChange.
    rewrite Hready, Hval, (nonempty_length _ Hne), Hres. simpl.
    destruct (pipeParts val base a) as [m c]. exact HD.
  - intros Hres HF HR. unfold Ts.onSendStateChange.
    rewrite Hready, Hval, (nonempty_length _ Hne), Hres, HF, HR. simpl.
    destruct (pipeParts val base a) as [m c]. exact HD.
Qed.

Lemma sendReply_splits_after_nonempty_id_witness :
  onSendStateChange "discord.0.servers.5.channels.30.channels.31.sendReply"
    {| state_val := JStr "222|hi there"; state_ack := false |} commandAdapter
  = sentOnce (TChannel "5" general) (replyMessage (JStr "222") "hi there") commandAdapter.
Proof.
  refine (proj1 (proj1 (sendReply_splits_after_nonempty_id
            "discord.0.servers.5.channels.30.channels.31.sendReply"
            {| state_val := JStr "222|hi there"; state_ack := false |} "222|hi there"
            (TChannel "5" general) "discord.0.servers.5.channels.30.channels.31"
            commandAdapter _ _ _) _) "222" "hi there" _ _ _).
  - reflexivity.
  - reflexivity.
  - discriminate.
  - vm_compute. reflexivity.
  - reflexivity.
  - reflexivity.
  - discriminate.
Defined.

(** C3 as worded fails on a value that starts with [|]: split at the
    first [|], the value [|hello] has an empty message id, which asks for
    [false] and no call; the code takes the whole value as content, reads
    the message id 111 from the mirrored state and sends the reply. *)
Lemma sendReply_leading_pipe_is_content :
  claimedReply (TChannel "5" general) "|hello" "discord.0.servers.5.channels.30.channels.31"
    commandAdapter = (Returns false, commandAdapter)
  /\ onSendStateChange "discord.0.servers.5.channels.30.channels.31.sendReply"
       {| state_val := JStr "|hello"; state_ack := false |} commandAdapter
     = sentOnce (TChannel "5" general) (replyMessage (JStr "111") "|hello") commandAdapter
  /\ Ts.onSendStateChange "discord.0.servers.5.channels.30.channels.31.sendReply"
       {| state_val := JStr "|hello"; state_ack := false |} commandAdapter
     = sentOnce (TChannel "5" general) (replyMessage (JStr "111") "|hello") commandAdapter.
Proof. repeat split; vm_compute; reflexivity. Qed.

(** ** Outbound commands: plain and JSON messages *)

Lemma sendChecked_dispatch (rt : Runtime) (target : Target) (val : string) (a : Adapter) :
  SendDispatch rt target val a (sendChecked rt target val a).
Proof.
  unfold SendDispatch, sendChecked, sendPayload. split.
  - intros ->. split.
    + now intros ->.
    + intros fields ->. unfold failsBasicChecks.
      now destruct (_ || _).
  - intros ->. reflexivity.
Qed.

(** C6, as the code has it, in both revisions.  A dispatch of [send] with a
    non-empty string value that reaches the action parses a value that
    starts with [{] and ends with [}].  It returns [false] without a call
    when the text does not parse, when the parsed object has neither a
    truthy [files] nor a truthy [content], when [files] is truthy and not
    an array, or when [embeds] is truthy and not an array; otherwise it
    sends the parsed object.  A value not enclosed in braces is sent as the
    content of a message. *)
Theorem send_json_checks_truthiness
    (stateId : string) (st : State) (val : string) (target : Target) (base : string)
    (a : Adapter) :
  isReady (client a) = true ->
  state_val st = JStr val ->
  val <> "" ->
  (resolveTarget stateId a = Some (target, base, "send") ->
   SendDispatch (runtime a) target val a (onSendStateChange stateId st a))
  /\ (Ts.resolveTarget stateId a = Some (target, base) ->
      endsWith stateId ".sendFile" = false ->
      endsWith stateId ".sendReply" = false ->
      endsWith stateId ".sendReaction" = false ->
      SendDispatch (runtime a) target val a (Ts.onSendStateChange stateId st a)).
Proof.
  intros Hready Hval Hne.
  pose proof (sendChecked_dispatch (runtime a) target val a) as HD.
  split.
  - intros Hres. unfold onSendStateChange.
    rewrite Hready, Hval, (nonempty_length _ Hne), Hres. exact HD.
  - intros Hres HF HR HE. unfold Ts.onSendStateChange.
    rewrite Hready, Hval, (nonempty_length _ Hne), Hres, HF, HR, HE. exact HD.
Qed.

Lemma send_json_checks_truthiness_witness :
  onSendStateChange "discord.0.users.7.send"
    {| state_val := JStr "{content:}"; state_ack := false |} commandAdapter
  = (Returns false, commandAdapter).
Proof.
  refine (proj1 (proj1 (proj1 (send_json_checks_truthiness "discord.0.users.7.send"
            {| state_val := JStr "{content:}"; state_ack := false |} "{content:}"
            (TUser alice) "discord.0.users.7" commandAdapter _ _ _) _) _) _).
  - reflexivity.
  - reflexivity.
  - discriminate.
  - vm_compute. reflexivity.
  - reflexivity.
  - reflexivity.
Defined.

(** C6 as worded fails on a [files] that is there and falsy: the object
    with content x and files 0 has a [files] that is no array, which asks
    for [false] and no call; the code sends it. *)
Lemma send_json_falsy_files_is_sent :
  startsWith filesZeroText "{" && endsWith filesZeroText "}" = true
  /\ JSON_parse (runtime commandAdapter) filesZeroText = Some filesZero
  /\ claimedInvalid filesZero = true
  /\ onSendStateChange "discord.0.users.7.send"
       {| state_val := JStr filesZeroText; state_ack := false |} commandAdapter
     = sentOnce (TUser alice) filesZero commandAdapter
  /\ Ts.onSendStateChange "discord.0.users.7.send"
       {| state_val := JStr filesZeroText; state_ack := false |} commandAdapter
     = sentOnce (TUser alice) filesZero commandAdapter.
Proof. repeat split; vm_compute; reflexivity. Qed.

(** ** A second pass over an unchanged remote graph *)

Section SecondPass.

Variable s : Setting.
Hypothesis accepts : forall c, rejects s c = false.







Lemma presenceOutcome_accepted (userId : string) (presence : option Presence) :
  observeUserPresence (config s) = true ->
  presenceOutcome s userId presence = presenceProjection presence.
Proof.
  intros Hobs. unfold presenceOutcome. now rewrite Hobs, !accepts.
Qed.





























End SecondPass.





(** *** The sweep of a database without stale entities *)





(** *** Two passes over an unchanged remote graph *)

Section TwoPasses.

Variable s : Setting.
Hypothesis accepts : forall c, rejects s c = false.






End TwoPasses.




(** * The rest of the adapter: properties *)

(** ** Strings and patterns *)

Lemma spanDigits_app (d r : string) :
  allDigits d = true -> noLeadingDigit r = true -> spanDigits (d +:+ r) = (d, r).
Proof.
  intros Hd Hr. induction d as [|c d IH]; simpl in *.
  - destruct r as [|c r]; [reflexivity|]. simpl in *.
    apply negb_true_iff in Hr. now rewrite Hr.
  - apply andb_prop in Hd as [Hc Hd]. rewrite Hc, (IH Hd). reflexivity.
Qed.

Lemma digits1_app (d r : string) :
  isDigits d = true -> noLeadingDigit r = true -> digits1 (d +:+ r) = Some (d, r).
Proof.
  unfold isDigits, digits1. intros Hd Hr. apply andb_prop in Hd as [Hd Hne].
  rewrite (spanDigits_app d r Hd Hr). destruct d; [discriminate|reflexivity].
Qed.

Lemma getField_setField (fields : Obj) (k k' : string) (v : JsVal) :
  getField (setField fields k v) k' = if String.eqb k k' then v else getField fields k'.
Proof.
  induction fields as [|[k0 v0] fields IH]; simpl.
  - destruct (String.eqb k k'); reflexivity.
  - destruct (String.eqb k0 k) eqn:E0; simpl.
    + apply String.eqb_eq in E0. subst k0. destruct (String.eqb k k'); reflexivity.
    + destruct (String.eqb k0 k') eqn:E1.
      * apply String.eqb_eq in E1. subst k0. now rewrite String.eqb_sym, E0.
      * exact IH.
Qed.

(** ** The write-suppression wrappers, composed *)



Lemma delObjectAsyncCached_calls (id : string) (recursive : bool) (a : Adapter) :
  calls (snd (delObjectAsyncCached id recursive a)) = calls a ++ [DelObject id recursive].
Proof.
  unfold delObjectAsyncCached, delObjectAsync.
  destruct recursive; cbn; destruct (rejects a _); reflexivity.
Qed.

Lemma delObjectAsyncCached_forgets_id (id : string) (recursive : bool) (a : Adapter) :
  extendObjectCache (snd (delObjectAsyncCached id recursive a)) !! id = None.
Proof.
  destruct recursive.
  - rewrite delObjectAsyncCached_cache, startsWith_refl. reflexivity.
  - unfold delObjectAsyncCached, delObjectAsync. cbn.
    destruct (rejects a _); cbn; apply lookup_delete_eq.
Qed.

(** X2.  A cached delete forgets the definition before it asks the database:
    whether the delete is recursive or not, accepted or rejected, the next
    [extendObjectAsyncCached] of the same id is not suppressed and calls
    [extendObjectAsync]. *)
Theorem delObjectAsyncCached_then_extend_writes
    (id : string) (recursive : bool) (objPart : Obj) (a : Adapter) :
  calls (snd (extendObjectAsyncCached id objPart (snd (delObjectAsyncCached id recursive a))))
  = calls a ++ [DelObject id recursive; ExtendObject id objPart].
Proof.
  unfold extendObjectAsyncCached.
  rewrite delObjectAsyncCached_forgets_id. cbn [getOrUndefined isDeepStrictEqual].
  unfold extendObjectAsync.
  destruct (rejects _ _); cbn; rewrite delObjectAsyncCached_calls, <- app_assoc; reflexivity.
Qed.

(** X3.  A cached delete without [recursive] takes exactly the entry of the
    id out of the definition cache and, when the database accepts it,
    exactly the object of the id out of the database: the entries and the
    objects below the id stay. *)
Theorem delObjectAsyncCached_plain_removes_one (id : string) (a : Adapter) :
  let r := delObjectAsyncCached id false a in
  (forall k, extendObjectCache (snd r) !! k
             = if decide (k = id) then None else extendObjectCache a !! k)
  /\ (rejects a (DelObject id false) = false ->
      fst r = true /\ forall k, k ∈ objects (snd r) <-> k ∈ objects a /\ k <> fixId a id)
  /\ (rejects a (DelObject id false) = true -> fst r = false /\ objects (snd r) = objects a).
Proof.
  cbv zeta. unfold delObjectAsyncCached, delObjectAsync. cbn.
  repeat split.
  - intros k. destruct (rejects a _); cbn.
    + destruct (decide (k = id)) as [->|Hne];
        [apply lookup_delete_eq | now apply lookup_delete_ne].
    + destruct (decide (k = id)) as [->|Hne];
        [apply lookup_delete_eq | now apply lookup_delete_ne].
  - now rewrite H.
  - rewrite H in H0. cbn in H0. apply elem_of_filter in H0. tauto.
  - rewrite H in H0. cbn in H0. apply elem_of_filter in H0. tauto.
  - intros [Hin Hne]. rewrite H. cbn. apply elem_of_filter. split; [|exact Hin].
    split; [exact Hne|]. intros [Hf _]. discriminate.
  - now rewrite H.
  - now rewrite H.
Qed.

(** ** Authorization *)

Lemma checkUserAuthorization_decides
    (a : Adapter) (user : Principal) (required : option Required) :
  enableAuthorization (config a) = true ->
  checkUserAuthorization a user required =
  decideOnGrants true (userGrants (config a) user ++ firstRoleGrants (config a) user) required.
Proof.
  intros En. unfold checkUserAuthorization. cbv zeta. rewrite En.
  change (negb true) with false. cbv iota.
  rewrite <- decide_on_merged.
  assert (Hu : grantOfUser <$> findAuthorizedUser (config a) (principalId user)
               = mergeAll (userGrants (config a) user)).
  { unfold userGrants. now destruct (findAuthorizedUser _ _). }
  destruct user as [id | id g roles].
  - simpl firstRoleGrants. rewrite app_nil_r, Hu. reflexivity.
  - destruct (0 <? length (authorizedServerRoles (config a)))%nat eqn:L.
    + rewrite Hu, role_loop. reflexivity.
    + rewrite no_roles_configured, app_nil_r, Hu; [reflexivity|].
      apply Nat.ltb_ge in L. destruct (authorizedServerRoles (config a)); [reflexivity|].
      simpl in L. lia.
Qed.

Lemma decideOnGrants_more (grants more : list Grant) (required : option Required) :
  decideOnGrants true grants required = true ->
  decideOnGrants true (grants ++ more) required = true.
Proof.
  unfold decideOnGrants. cbn [negb].
  destruct grants as [|g gs]; [discriminate|]. cbn [app].
  destruct required as [r|]; [|reflexivity].
  cbn [existsb]. rewrite !existsb_app.
  destruct (requested (req_getStates r)), (requested (req_setStates r)),
    (requested (req_useText2command r)), (getStates g), (existsb getStates gs),
    (setStates g), (existsb setStates gs), (useText2command g),
    (existsb useText2command gs);
    cbn; try discriminate; reflexivity.
Qed.

(** X4.  Roles only add to what a guild member may do: a member who passes
    [checkUserAuthorization] for a request still passes it with further
    roles in [roles.cache], whatever is configured for them. *)
Theorem checkUserAuthorization_more_roles
    (a : Adapter) (id guildId : string) (roles more : list string)
    (required : option Required) :
  checkUserAuthorization a (PGuildMember id guildId roles) required = true ->
  checkUserAuthorization a (PGuildMember id guildId (roles ++ more)) required = true.
Proof.
  destruct (enableAuthorization (config a)) eqn:En.
  - rewrite !checkUserAuthorization_decides by assumption.
    cbn [firstRoleGrants]. rewrite omap_app, app_assoc. apply decideOnGrants_more.
  - intros _. unfold checkUserAuthorization. now rewrite En.
Qed.

Lemma checkUserAuthorization_more_roles_witness :
  checkUserAuthorization duplicateRoleAdapter (PGuildMember "9" "1" (["2"] ++ ["3"])) None
  = true.
Proof.
  apply (checkUserAuthorization_more_roles duplicateRoleAdapter "9" "1" ["2"] ["3"] None).
  reflexivity.
Defined.

(** X5.  A request is never easier to pass than the plain check: whoever
    passes [checkUserAuthorization] for some required capabilities also
    passes it when nothing is required, and with authorization enabled a
    principal for whom neither a user entry nor a role entry is configured
    passes no check at all. *)
Theorem checkUserAuthorization_needs_a_grant
    (a : Adapter) (user : Principal) (required : option Required) :
  (checkUserAuthorization a user required = true ->
   checkUserAuthorization a user None = true)
  /\ (enableAuthorization (config a) = true ->
      findAuthorizedUser (config a) (principalId user) = None ->
      (forall guildId roles roleId,
         user = PGuildMember (principalId user) guildId roles -> roleId ∈ roles ->
         findAuthorizedServerRole (config a) guildId roleId = None) ->
      checkUserAuthorization a user required = false).
Proof.
  split.
  - destruct (enableAuthorization (config a)) eqn:En.
    + rewrite !checkUserAuthorization_decides by assumption.
      unfold decideOnGrants. cbn [negb].
      now destruct (userGrants (config a) user ++ firstRoleGrants (config a) user).
    + intros _. unfold checkUserAuthorization. now rewrite En.
  - intros En Hu Hr. rewrite checkUserAuthorization_decides by assumption.
    unfold userGrants. rewrite Hu. cbn [fmap option_fmap option_map option_list app].
    assert (Hnone : firstRoleGrants (config a) user = []).
    { destruct user as [uid|uid guildId roles]; [reflexivity|]. cbn [firstRoleGrants].
      assert (H : forall roleId, roleId ∈ roles ->
                    findAuthorizedServerRole (config a) guildId roleId = None).
      { intros roleId. now apply (Hr guildId roles roleId). }
      clear Hr Hu. induction roles as [|r roles IH]; [reflexivity|].
      cbn [omap list_omap]. rewrite (H r) by left. cbn.
      apply IH. intros roleId Hin. apply H. now right. }
    now rewrite Hnone.
Qed.

(** ** Presence *)

Lemma setStateAsync_jsonStateCache (id : string) (v : JsVal) (ack : bool) (a : Adapter) :
  jsonStateCache (snd (setStateAsync id v ack a)) = jsonStateCache a.
Proof. unfold setStateAsync. now destruct (rejects a _). Qed.

(** X6.  With presence observation on and a cached snapshot of the user,
    [updateUserPresence(userId, presence)] puts the snapshot back into the
    cache with [status], [activityName] and [activityType] replaced by the
    projected values and every other property as it was, and issues four
    writes: the snapshot first, then the three leaves.  The cache is
    changed before the writes are awaited, so this also holds when the
    database rejects them. *)
Theorem updateUserPresence_refreshes_snapshot
    (userId : string) (presence : option Presence) (json : Obj) (a : Adapter) :
  observeUserPresence (config a) = true ->
  jsonStateCache a !! (namespace a +:+ ".users." +:+ userId +:+ ".json") = Some json ->
  let p := presenceProjection presence in
  let a' := snd (updateUserPresence userId presence false a) in
  exists json',
    jsonStateCache a' !! (namespace a +:+ ".users." +:+ userId +:+ ".json") = Some json'
    /\ getField json' "status" = JStr (status p)
    /\ getField json' "activityName" = JStr (activityName p)
    /\ getField json' "activityType" = JStr (activityType p)
    /\ (forall k, k <> "status" -> k <> "activityName" -> k <> "activityType" ->
                  getField json' k = getField json k)
    /\ calls a' =
       calls a
       ++ [ SetState ("users." +:+ userId +:+ ".json")
              (JStr (JSON_stringify (runtime a) json')) true;
            SetState ("users." +:+ userId +:+ ".status") (JStr (status p)) true;
            SetState ("users." +:+ userId +:+ ".activityName") (JStr (activityName p)) true;
            SetState ("users." +:+ userId +:+ ".activityType") (JStr (activityType p)) true ].
Proof.
  intros Hobs Hjson p a'. exists (withPresence json p).
  assert (Hfield : forall k, getField (withPresence json p) k =
            if String.eqb "activityType" k then JStr (activityType p)
            else if String.eqb "activityName" k then JStr (activityName p)
            else if String.eqb "status" k then JStr (status p)
            else getField json k).
  { intros k. unfold withPresence. now rewrite !getField_setField. }
  subst a'. unfold updateUserPresence. rewrite Hobs. cbn [negb]. fold p.
  unfold presenceJsonUpdate. rewrite Hjson.
  set (key := namespace a +:+ ".users." +:+ userId +:+ ".json").
  set (a1 := withJsonStateCache (<[key := withPresence json p]> (jsonStateCache a)) a).
  destruct (setStateAsync ("users." +:+ userId +:+ ".json") _ true a1) as [okJ b1] eqn:E0.
  destruct (setStateAsync _ (JStr (status p)) true b1) as [ok1 b2] eqn:E1.
  destruct (setStateAsync _ (JStr (activityName p)) true b2) as [ok2 b3] eqn:E2.
  destruct (setStateAsync _ (JStr (activityType p)) true b3) as [ok3 b4] eqn:E3.
  assert (H0 : b1 = snd (setStateAsync ("users." +:+ userId +:+ ".json")
                           (JStr (JSON_stringify (runtime a) (withPresence json p))) true a1))
    by now rewrite E0.
  assert (H1 : b2 = snd (setStateAsync ("users." +:+ userId +:+ ".status")
                           (JStr (status p)) true b1)) by now rewrite E1.
  assert (H2 : b3 = snd (setStateAsync ("users." +:+ userId +:+ ".activityName")
                           (JStr (activityName p)) true b2)) by now rewrite E2.
  assert (H3 : b4 = snd (setStateAsync ("users." +:+ userId +:+ ".activityType")
                           (JStr (activityType p)) true b3)) by now rewrite E3.
  assert (Hsnd : forall (x y : UpdateUserPresenceResult) (c : bool),
            snd (if c then (x, b4) else (y, b4)) = b4) by now intros x y [].
  rewrite Hsnd.
  repeat split.
  - rewrite H3, setStateAsync_jsonStateCache, H2, setStateAsync_jsonStateCache,
      H1, setStateAsync_jsonStateCache, H0, setStateAsync_jsonStateCache.
    subst a1. cbn. apply lookup_insert_eq.
  - now rewrite Hfield.
  - now rewrite Hfield.
  - now rewrite Hfield.
  - intros k Hs Hn Ht. rewrite Hfield.
    destruct (String.eqb_spec "activityType" k); [congruence|].
    destruct (String.eqb_spec "activityName" k); [congruence|].
    destruct (String.eqb_spec "status" k); [congruence|reflexivity].
  - rewrite H3, setStateAsync_calls, H2, setStateAsync_calls, H1, setStateAsync_calls,
      H0, setStateAsync_calls.
    subst a1. cbn. now rewrite <- !app_assoc.
Qed.

Lemma updateUserPresence_refreshes_snapshot_witness :
  exists json',
    jsonStateCache (snd (updateUserPresence "7" (Some chessPresence) false snapshotAdapter))
      !! (namespace snapshotAdapter +:+ ".users." +:+ "7" +:+ ".json") = Some json'
    /\ getField json' "status" = JStr (status (presenceProjection (Some chessPresence)))
    /\ getField json' "activityName"
       = JStr (activityName (presenceProjection (Some chessPresence)))
    /\ getField json' "activityType"
       = JStr (activityType (presenceProjection (Some chessPresence)))
    /\ (forall k, k <> "status" -> k <> "activityName" -> k <> "activityType" ->
                  getField json' k
                  = getField [ ("id", JStr "7"); ("tag", JStr "alice#0001");
                               ("status", JStr "idle") ] k)
    /\ calls (snd (updateUserPresence "7" (Some chessPresence) false snapshotAdapter)) =
       calls snapshotAdapter
       ++ [ SetState ("users." +:+ "7" +:+ ".json")
              (JStr (JSON_stringify (runtime snapshotAdapter) json')) true;
            SetState ("users." +:+ "7" +:+ ".status")
              (JStr (status (presenceProjection (Some chessPresence)))) true;
            SetState ("users." +:+ "7" +:+ ".activityName")
              (JStr (activityName (presenceProjection (Some chessPresence)))) true;
            SetState ("users." +:+ "7" +:+ ".activityType")
              (JStr (activityType (presenceProjection (Some chessPresence)))) true ].
Proof.
  apply (updateUserPresence_refreshes_snapshot "7" (Some chessPresence)
           [ ("id", JStr "7"); ("tag", JStr "alice#0001"); ("status", JStr "idle") ]
           snapshotAdapter).
  - reflexivity.
  - vm_compute. reflexivity.
Defined.

(** ** The presence of the bot *)

(** X7.  [setBotPresence] does nothing without a logged-in user.  Otherwise
    it makes exactly one [setPresence] call; the status of that call is a
    valid presence status or ["online"], and its activities are either
    empty or one activity whose type is truthy and a valid activity type
    and whose name is truthy. *)
Theorem setBotPresence_sends_valid_data
    (optStatus optActivityType optActivityName : JsVal) (a : Adapter) :
  let a' := setBotPresence optStatus optActivityType optActivityName a in
  match client_user (client a) with
  | None => a' = a
  | Some _ =>
      exists status activities,
        a' = issue (SetPresence [("status", status); ("activities", JArr activities)]) a
        /\ (isValidPresenceStatus (runtime a) status = true \/ status = JStr "online")
        /\ (activities = []
            \/ exists type name,
                 activities = [JObj [("type", type); ("name", name)]]
                 /\ isValidActivityType (runtime a) type = true
                 /\ truthy type = true /\ truthy name = true)
  end.
Proof.
  cbv zeta. unfold setBotPresence. destruct (client_user (client a)); [|reflexivity].
  match goal with
  | |- exists st acts, issue (SetPresence [("status", ?S); ("activities", JArr ?A)]) a = _ /\ _ =>
      exists S, A
  end.
  split; [reflexivity|]. split.
  - set (status1 := if negb (truthy optStatus) then _ else optStatus).
    destruct (isValidPresenceStatus (runtime a) status1) eqn:Hv; cbn [negb].
    + left. exact Hv.
    + right. reflexivity.
  - match goal with
    | |- context [if truthy ?t && truthy ?n then _ else _] =>
        destruct (truthy t) eqn:Ht; [destruct (truthy n) eqn:Hn|]; cbn [andb];
          [right|left; reflexivity|left; reflexivity];
          exists t, n; split; [reflexivity|]; split; [|split; assumption]
    end.
    revert Ht.
    set (type1 := match optActivityType with JUndefined => _ | _ => optActivityType end).
    destruct (isValidActivityType (runtime a) type1) eqn:Hv; cbn [negb];
      [intros _; exact Hv|discriminate].
Qed.

(** X8.  The options of [setBotPresence] fall back differently.  A status
    that is not given or falsy is read from the [bot.status] state; an
    activity type or name falls back to its state only when it is not given
    at all.  So an activity name given as the empty string clears the
    activity whatever is stored, while an empty status keeps the stored
    one. *)
Theorem setBotPresence_empty_options (optStatus optActivityType : JsVal) (a : Adapter)
    (botId stored : string) :
  client_user (client a) = Some botId ->
  states a !! fixId a "bot.status" = Some (JStr stored) ->
  stored <> "" ->
  isValidPresenceStatus (runtime a) (JStr stored) = true ->
  (exists status,
     setBotPresence optStatus optActivityType (JStr "") a
     = issue (SetPresence [("status", status); ("activities", JArr [])]) a)
  /\ (exists activities,
        setBotPresence (JStr "") optActivityType (JStr "") a
        = issue (SetPresence [("status", JStr stored); ("activities", JArr activities)]) a).
Proof.
  intros Hbot Hstored Hne Hvalid. unfold setBotPresence. rewrite Hbot, Hstored.
  split.
  - eexists. rewrite andb_false_r. reflexivity.
  - assert (Ht : truthy (JStr stored) = true).
    { cbn. destruct (String.eqb_spec stored ""); [contradiction|reflexivity]. }
    eexists. change (truthy (JStr "")) with false. cbn [negb].
    change (default JUndefined (Some (JStr stored))) with (JStr stored).
    unfold orElse at 1 2. rewrite Ht, Hvalid. cbn [negb]. reflexivity.
Qed.

Lemma setBotPresence_empty_options_witness :
  (exists status,
     setBotPresence JUndefined (JStr "PLAYING") (JStr "") botStatusAdapter
     = issue (SetPresence [("status", status); ("activities", JArr [])]) botStatusAdapter)
  /\ (exists activities,
        setBotPresence (JStr "") (JStr "PLAYING") (JStr "") botStatusAdapter
        = issue (SetPresence [("status", JStr "idle"); ("activities", JArr activities)])
            botStatusAdapter).
Proof.
  apply (setBotPresence_empty_options JUndefined (JStr "PLAYING") botStatusAdapter
           "1000" "idle").
  - reflexivity.
  - vm_compute. reflexivity.
  - discriminate.
  - reflexivity.
Defined.

(** ** Voice states *)

Lemma matchVoice_id (inst guildId memberId action : string) :
  isDigits inst = true -> isDigits guildId = true -> isDigits memberId = true ->
  matchVoice ("discord." +:+ inst +:+ ".servers." +:+ guildId +:+ ".members." +:+ memberId
                +:+ ".voice" +:+ action)
  = if String.eqb action "Disconnect" || String.eqb action "ServerMute"
       || String.eqb action "ServerDeaf"
    then Some (guildId, memberId, action) else None.
Proof.
  intros Hi Hg Hm. unfold matchVoice.
  rewrite stripPrefix_app. cbn [mbind option_bind].
  rewrite digits1_app; [|exact Hi|reflexivity]. cbn [mbind option_bind].
  rewrite stripPrefix_app. cbn [mbind option_bind].
  rewrite digits1_app; [|exact Hg|reflexivity]. cbn [mbind option_bind].
  rewrite stripPrefix_app. cbn [mbind option_bind].
  rewrite digits1_app; [|exact Hm|reflexivity]. cbn [mbind option_bind].
  rewrite stripPrefix_app. reflexivity.
Qed.

(** X9.  [onVoiceStateChange] never throws and makes at most one call, to
    the voice connection of a member: either it returns [false] and leaves
    the adapter as it is, or it makes one voice call and returns whether
    Discord accepted it.  It returns [false] without a call for an id that
    does not match the pattern, for a guild or member that is not cached,
    and for [voiceDisconnect] written with a falsy value. *)
Theorem onVoiceStateChange_at_most_one_call (stateId : string) (st : State) (a : Adapter) :
  let r := onVoiceStateChange stateId st a in
  (r = (Returns false, a)
   \/ exists c, isVoiceCall c = true /\ r = (Returns (negb (rejects a c)), issue c a))
  /\ (matchVoice stateId = None -> r = (Returns false, a))
  /\ (forall guildId memberId action,
        matchVoice stateId = Some (guildId, memberId, action) ->
        guilds_cache (client a) !! guildId = None
        \/ members_cache (client a) guildId memberId = None
        \/ (action = "Disconnect" /\ truthy (state_val st) = false) ->
        r = (Returns false, a)).
Proof.
  cbv zeta. unfold onVoiceStateChange. repeat split.
  - destruct (matchVoice stateId) as [[[guildId memberId] action]|]; [|now left].
    destruct (guilds_cache (client a) !! guildId); [|now left].
    destruct (members_cache (client a) guildId memberId); [|now left].
    destruct (String.eqb action "Disconnect").
    + destruct (truthy (state_val st)); cbn [negb]; [right|now left].
      now exists (VoiceDisconnect guildId memberId).
    + destruct (String.eqb action "ServerDeaf"); right.
      * now exists (VoiceSetDeaf guildId memberId (truthy (state_val st))).
      * now exists (VoiceSetMute guildId memberId (truthy (state_val st))).
  - now intros ->.
  - intros guildId memberId action -> [Hg|[Hm|[-> Hv]]].
    + now rewrite Hg.
    + rewrite Hm. now destruct (guilds_cache (client a) !! guildId).
    + destruct (guilds_cache (client a) !! guildId); [|reflexivity].
      destruct (members_cache (client a) guildId memberId); [|reflexivity].
      cbn [String.eqb Ascii.eqb Bool.eqb]. now rewrite Hv.
Qed.

(** X10.  The voice states the reconciliation creates for a member are the
    ones the voice handler understands.  For an instance number, a guild id
    and a member id made of digits and a cached member,
    [servers.<guild>.members.<member>.voiceServerMute] and [.voiceServerDeaf]
    in the namespace of the adapter set the server mute and the server deaf
    flag to the truthiness of the value written, and [.voiceDisconnect]
    written with a truthy value disconnects the member. *)
Theorem onVoiceStateChange_member_states
    (guildId memberId tag : string) (channels : gmap string Channel) (st : State)
    (a : Adapter) :
  isDigits (instance a) = true -> isDigits guildId = true -> isDigits memberId = true ->
  guilds_cache (client a) !! guildId = Some channels ->
  members_cache (client a) guildId memberId = Some tag ->
  let base := namespace a +:+ ".servers." +:+ guildId +:+ ".members." +:+ memberId in
  let call (c : Call) := (Returns (negb (rejects a c)), issue c a) in
  onVoiceStateChange (base +:+ ".voiceServerMute") st a
  = call (VoiceSetMute guildId memberId (truthy (state_val st)))
  /\ onVoiceStateChange (base +:+ ".voiceServerDeaf") st a
     = call (VoiceSetDeaf guildId memberId (truthy (state_val st)))
  /\ (truthy (state_val st) = true ->
      onVoiceStateChange (base +:+ ".voiceDisconnect") st a
      = call (VoiceDisconnect guildId memberId)).
Proof.
  intros Hi Hg Hm Hguild Hmember base call.
  assert (Hid : forall action,
    base +:+ ".voice" +:+ action
    = "discord." +:+ instance a +:+ ".servers." +:+ guildId +:+ ".members." +:+ memberId
        +:+ ".voice" +:+ action).
  { intros action. subst base. unfold namespace. now rewrite !append_assoc. }
  repeat split.
  - change (base +:+ ".voiceServerMute") with (base +:+ ".voice" +:+ "ServerMute").
    unfold onVoiceStateChange. rewrite Hid, matchVoice_id by assumption.
    cbn [String.eqb Ascii.eqb Bool.eqb orb]. now rewrite Hguild, Hmember.
  - change (base +:+ ".voiceServerDeaf") with (base +:+ ".voice" +:+ "ServerDeaf").
    unfold onVoiceStateChange. rewrite Hid, matchVoice_id by assumption.
    cbn [String.eqb Ascii.eqb Bool.eqb orb]. now rewrite Hguild, Hmember.
  - intros Hv.
    change (base +:+ ".voiceDisconnect") with (base +:+ ".voice" +:+ "Disconnect").
    unfold onVoiceStateChange. rewrite Hid, matchVoice_id by assumption.
    cbn [String.eqb Ascii.eqb Bool.eqb orb]. now rewrite Hguild, Hmember, Hv.
Qed.

Lemma onVoiceStateChange_member_states_witness :
  onVoiceStateChange "discord.0.servers.5.members.7.voiceServerMute"
    {| state_val := JBool true; state_ack := false |} memberAdapter
  = (Returns true, issue (VoiceSetMute "5" "7" true) memberAdapter).
Proof.
  apply (onVoiceStateChange_member_states "5" "7" "alice#0001" ∅
           {| state_val := JBool true; state_ack := false |} memberAdapter);
    reflexivity.
Defined.

(** ** Outbound commands: what they touch *)

Lemma resolveTarget_cached (stateId : string) (a : Adapter) (target : Target)
    (base action : string) :
  resolveTarget stateId a = Some (target, base, action) -> cachedTarget (client a) target.
Proof.
  unfold resolveTarget.
  destruct (matchSendChannel stateId) as [[[[b guildId] channelId] act]|].
  - destruct (guilds_cache (client a) !! guildId) as [channels|] eqn:Hg; cbn; [|discriminate].
    destruct (channels !! channelId) as [channel|] eqn:Hc; [|discriminate].
    destruct (channel_isText channel) eqn:Ht; cbn; [|discriminate].
    destruct (channel_isThread channel) eqn:Hth; [discriminate|].
    intros [= <- <- <-]. cbn. repeat split; try assumption.
    now exists channels, channelId.
  - destruct (matchSendUser stateId) as [[[b userId] act]|]; [|discriminate].
    destruct (users_cache (client a) !! userId) as [user|] eqn:Hu; [|discriminate].
    intros [= <- <- <-]. cbn. now exists userId.
Qed.

(** X11.  A dispatch of [onSendStateChange] touches nothing but the call
    log, and that by at most one call.  Either the adapter stays as it is
    and the handler does not return [true], or exactly one message or
    reaction goes out and the handler returns whether Discord accepted it;
    the target of that call comes from the caches of the client: a cached
    user, or a text channel of a cached guild that is no thread. *)
Theorem onSendStateChange_one_message_to_cached_target
    (stateId : string) (st : State) (a : Adapter) :
  let r := onSendStateChange stateId st a in
  (snd r = a /\ fst r <> Returns true)
  \/ exists c target,
       r = (Returns (negb (rejects a c)), issue c a)
       /\ isMessageCall c = true
       /\ targetOf c = Some target
       /\ cachedTarget (client a) target.
Proof.
  cbv zeta. unfold onSendStateChange.
  assert (Hno : forall b : Adapter, b = a ->
            (snd (Returns false, b) = a /\ fst (Returns false, b) <> Returns true)
            \/ exists c target,
                 (Returns false, b) = (Returns (negb (rejects a c)), issue c a)
                 /\ isMessageCall c = true /\ targetOf c = Some target
                 /\ cachedTarget (client a) target).
  { intros b ->. left. split; [reflexivity|discriminate]. }
  destruct (isReady (client a)); cbn [negb]; [|now apply Hno].
  destruct (state_val st) as [| | | |val| |]; try now apply Hno.
  destruct (String.length val =? 0)%nat; [now apply Hno|].
  destruct (resolveTarget stateId a) as [[[target base] action]|] eqn:Hres; [|now apply Hno].
  pose proof (resolveTarget_cached _ _ _ _ _ Hres) as Hcached.
  assert (Hsend : forall mo,
            (snd (sendTo target mo a) = a /\ fst (sendTo target mo a) <> Returns true)
            \/ exists c target0,
                 sendTo target mo a = (Returns (negb (rejects a c)), issue c a)
                 /\ isMessageCall c = true /\ targetOf c = Some target0
                 /\ cachedTarget (client a) target0).
  { intros mo. right. exists (Send target mo), target. now repeat split. }
  destruct (String.eqb action "sendFile").
  - destruct (fileParts val) as [file content].
    destruct (getBufferAndNameFromBase64String (runtime a) file) as [[buffer name]|];
      apply Hsend.
  - destruct (String.eqb action "sendReply" || String.eqb action "sendReaction").
    + destruct (pipeParts val base a) as [messageReference content].
      destruct (String.eqb action "sendReply").
      * unfold sendReply. destruct (negb _ || negb _); [now apply Hno|apply Hsend].
      * unfold sendReaction. destruct (negb _ || negb _); [now apply Hno|].
        destruct (negb _); [left; split; [reflexivity|discriminate]|].
        destruct (negb _); [left; split; [reflexivity|discriminate]|].
        right. exists (React target messageReference content), target. now repeat split.
    + unfold sendChecked. destruct (sendPayload (runtime a) val).
      * now apply Hno.
      * left. split; [reflexivity|discriminate].
      * apply Hsend.
Qed.

Lemma sendTo_remote (target : Target) (mo : JsVal) (a : Adapter) :
  AtMostOneRemote a (snd (sendTo target mo a)).
Proof. right. now exists (Send target mo). Qed.

Lemma onSendStateChange_remote (stateId : string) (st : State) (a : Adapter) :
  AtMostOneRemote a (snd (onSendStateChange stateId st a)).
Proof.
  unfold onSendStateChange.
  destruct (isReady (client a)); cbn [negb]; [|now left].
  destruct (state_val st) as [| | | |val| |]; try now left.
  destruct (String.length val =? 0)%nat; [now left|].
  destruct (resolveTarget stateId a) as [[[target base] action]|]; [|now left].
  destruct (String.eqb action "sendFile").
  - destruct (fileParts val) as [file content].
    destruct (getBufferAndNameFromBase64String (runtime a) file) as [[buffer name]|];
      apply sendTo_remote.
  - destruct (String.eqb action "sendReply" || String.eqb action "sendReaction").
    + destruct (pipeParts val base a) as [messageReference content].
      destruct (String.eqb action "sendReply").
      * unfold sendReply. destruct (negb _ || negb _); [now left|apply sendTo_remote].
      * unfold sendReaction. destruct (negb _ || negb _); [now left|].
        destruct (negb _); [now left|]. destruct (negb _); [now left|].
        right. now exists (React target messageReference content).
    + unfold sendChecked. destruct (sendPayload (runtime a) val);
        [now left|now left|apply sendTo_remote].
Qed.

Lemma onVoiceStateChange_remote (stateId : string) (st : State) (a : Adapter) :
  AtMostOneRemote a (snd (onVoiceStateChange stateId st a)).
Proof.
  unfold onVoiceStateChange.
  destruct (matchVoice stateId) as [[[guildId memberId] action]|]; [|now left].
  destruct (guilds_cache (client a) !! guildId); [|now left].
  destruct (members_cache (client a) guildId memberId); [|now left].
  destruct (String.eqb action "Disconnect").
  - destruct (truthy (state_val st)); cbn [negb]; [right|now left].
    now exists (VoiceDisconnect guildId memberId).
  - destruct (String.eqb action "ServerDeaf"); right.
    + now exists (VoiceSetDeaf guildId memberId (truthy (state_val st))).
    + now exists (VoiceSetMute guildId memberId (truthy (state_val st))).
Qed.

Lemma setBotPresence_remote (optStatus optActivityType optActivityName : JsVal) (a : Adapter) :
  AtMostOneRemote a (setBotPresence optStatus optActivityType optActivityName a).
Proof.
  unfold setBotPresence. destruct (client_user (client a)); [|now left].
  right. eexists. split; [|reflexivity]. reflexivity.
Qed.

(** X12.  [onStateChange] changes neither the caches nor the objects of
    the database, and of the states it writes at most the one that
    triggered it.  What it adds to the call log is at most one call to
    Discord, followed by at most one write: the triggering state with its
    value and [ack: true].  A state that is [null] or already acknowledged,
    and a state outside the namespace of the adapter, cause no call at
    all. *)
Theorem onStateChange_frame (stateId : string) (state : option State) (a : Adapter) :
  let r := onStateChange stateId state a in
  (exists remote ack,
     calls (snd r) = calls a ++ remote ++ ack
     /\ (remote = [] \/ exists c, isRemoteCall c = true /\ remote = [c])
     /\ (ack = []
         \/ exists st, state = Some st /\ ack = [SetState stateId (state_val st) true]))
  /\ extendObjectCache (snd r) = extendObjectCache a
  /\ jsonStateCache (snd r) = jsonStateCache a
  /\ messageReceiveStates (snd r) = messageReceiveStates a
  /\ objects (snd r) = objects a
  /\ (forall k, k <> fixId a stateId -> states (snd r) !! k = states a !! k)
  /\ (state = None \/ (exists st, state = Some st /\ state_ack st = true)
      \/ startsWith stateId (namespace a +:+ ".") = false ->
      r = (Returns false, a)).
Proof.
  cbv zeta.
  set (P := fun a' : Adapter =>
    (exists remote ack,
       calls a' = calls a ++ remote ++ ack
       /\ (remote = [] \/ exists c, isRemoteCall c = true /\ remote = [c])
       /\ (ack = []
           \/ exists st, state = Some st /\ ack = [SetState stateId (state_val st) true]))
    /\ extendObjectCache a' = extendObjectCache a
    /\ jsonStateCache a' = jsonStateCache a
    /\ messageReceiveStates a' = messageReceiveStates a
    /\ objects a' = objects a
    /\ (forall k, k <> fixId a stateId -> states a' !! k = states a !! k)).
  assert (Hremote : forall b, AtMostOneRemote a b ->
            setting b = setting a /\ states b = states a /\ P b
            /\ exists remote, calls b = calls a ++ remote
                 /\ (remote = [] \/ exists c, isRemoteCall c = true /\ remote = [c])).
  { intros b [->|(c & Hc & ->)].
    - repeat split.
      + exists [], []. rewrite app_nil_r. repeat split; now left.
      + exists []. rewrite app_nil_r. split; [reflexivity|now left].
    - repeat split.
      + exists [c], []. repeat split; [right; now exists c|now left].
      + exists [c]. split; [reflexivity|right; now exists c]. }
  assert (Hack : forall st (h : Completion * Adapter),
            state = Some st -> AtMostOneRemote a (snd h) ->
            P (snd (acknowledge stateId st h))).
  { intros st [res b] Hst Hb. cbn [snd] in Hb.
    destruct (Hremote b Hb) as (Hset & HS & HP & remote & Hcalls & Hrem).
    destruct res as [[|]|]; cbn [acknowledge snd]; try exact HP.
    destruct HP as (_ & HE & HJ & HM & HO & _).
    unfold setStateAsync. rewrite Hset.
    assert (Hlog : exists remote0 ack,
              calls b ++ [SetState stateId (state_val st) true] = calls a ++ remote0 ++ ack
              /\ (remote0 = [] \/ exists c, isRemoteCall c = true /\ remote0 = [c])
              /\ (ack = []
                  \/ exists st0, state = Some st0
                       /\ ack = [SetState stateId (state_val st0) true])).
    { exists remote, [SetState stateId (state_val st) true]. rewrite Hcalls, <- app_assoc.
      repeat split; [assumption|]. right. now exists st. }
    destruct (rejects a (SetState stateId (state_val st) true)); cbn [snd];
      (split; [exact Hlog|]); cbn; repeat split; try assumption.
    - intros k _. now rewrite HS.
    - intros k Hk. rewrite lookup_insert_ne by congruence. now rewrite HS. }
  assert (Hself : P a).
  { now destruct (Hremote a (or_introl eq_refl)) as (_ & _ & HP & _). }
  assert (Hgoal : forall r : Completion * Adapter,
            P (snd r) ->
            (state = None \/ (exists st, state = Some st /\ state_ack st = true)
             \/ startsWith stateId (namespace a +:+ ".") = false -> r = (Returns false, a)) ->
            (exists remote ack,
               calls (snd r) = calls a ++ remote ++ ack
               /\ (remote = [] \/ exists c, isRemoteCall c = true /\ remote = [c])
               /\ (ack = []
                   \/ exists st, state = Some st
                        /\ ack = [SetState stateId (state_val st) true]))
            /\ extendObjectCache (snd r) = extendObjectCache a
            /\ jsonStateCache (snd r) = jsonStateCache a
            /\ messageReceiveStates (snd r) = messageReceiveStates a
            /\ objects (snd r) = objects a
            /\ (forall k, k <> fixId a stateId -> states (snd r) !! k = states a !! k)
            /\ (state = None \/ (exists st, state = Some st /\ state_ack st = true)
                \/ startsWith stateId (namespace a +:+ ".") = false ->
                r = (Returns false, a))).
  { intros r (H1 & H2 & H3 & H4 & H5 & H6) H7. repeat split; assumption. }
  apply Hgoal; unfold onStateChange.
  - destruct state as [st|]; [|exact Hself].
    destruct (state_ack st); [exact Hself|].
    apply Hack; [reflexivity|].
    repeat match goal with
           | |- context [if ?b then _ else _] => destruct b
           end; cbn [snd];
      first [ apply setBotPresence_remote | apply onSendStateChange_remote
            | apply onVoiceStateChange_remote | now left ].
  - intros [->|[(st & -> & ->)|Hns]]; [reflexivity..|].
    destruct state as [st|]; [|reflexivity].
    destruct (state_ack st); [reflexivity|]. now rewrite Hns.
Qed.

Lemma eqb_cancel (p x y : string) : String.eqb (p +:+ x) (p +:+ y) = String.eqb x y.
Proof.
  induction p as [|c p IH]; [reflexivity|]. cbn. now rewrite Ascii.eqb_refl.
Qed.

(** X13.  A write to [bot.status], [bot.activityType] or [bot.activityName]
    is always acknowledged: [onStateChange] hands the value to
    [setBotPresence] and then writes the state back with [ack: true],
    whether or not a presence was sent.  With a logged-in user exactly one
    [setPresence] call precedes the write; without one the write is the
    only call. *)
Theorem onStateChange_bot_state_acknowledged (field : string) (st : State) (a : Adapter) :
  state_ack st = false ->
  field = "status" \/ field = "activityType" \/ field = "activityName" ->
  let stateId := namespace a +:+ ".bot." +:+ field in
  exists presence,
    calls (snd (onStateChange stateId (Some st) a))
    = calls a ++ presence ++ [SetState stateId (state_val st) true]
    /\ match client_user (client a) with
       | None => presence = []
       | Some _ => exists data, presence = [SetPresence data]
       end.
Proof.
  intros Hack Hfield stateId.
  assert (Hpresence : forall s t n, exists presence,
            calls (setBotPresence s t n a) = calls a ++ presence
            /\ match client_user (client a) with
               | None => presence = []
               | Some _ => exists data, presence = [SetPresence data]
               end).
  { intros s t n. unfold setBotPresence. destruct (client_user (client a)).
    - eexists. split; [reflexivity|]. eexists. reflexivity.
    - exists []. now rewrite app_nil_r. }
  assert (Hns : startsWith stateId (namespace a +:+ ".") = true).
  { subst stateId. now rewrite startsWith_cancel. }
  unfold onStateChange. rewrite Hack, Hns. rewrite acknowledge_calls.
  subst stateId. rewrite !eqb_cancel.
  destruct Hfield as [->|[->| ->]];
    change (".bot." +:+ "status") with ".bot.status";
    change (".bot." +:+ "activityType") with ".bot.activityType";
    change (".bot." +:+ "activityName") with ".bot.activityName";
    cbn [String.eqb Ascii.eqb Bool.eqb fst snd].
  - destruct (Hpresence (state_val st) JUndefined JUndefined) as (presence & -> & H).
    exists presence. now rewrite <- app_assoc.
  - destruct (Hpresence JUndefined (state_val st) JUndefined) as (presence & -> & H).
    exists presence. now rewrite <- app_assoc.
  - destruct (Hpresence JUndefined JUndefined (state_val st)) as (presence & -> & H).
    exists presence. now rewrite <- app_assoc.
Qed.

Lemma onStateChange_bot_state_acknowledged_witness :
  exists presence,
    calls (snd (onStateChange (namespace botStatusAdapter +:+ ".bot." +:+ "activityName")
                  (Some {| state_val := JStr "Chess"; state_ack := false |})
                  botStatusAdapter))
    = calls botStatusAdapter ++ presence
        ++ [SetState (namespace botStatusAdapter +:+ ".bot." +:+ "activityName")
              (state_val {| state_val := JStr "Chess"; state_ack := false |}) true]
    /\ match client_user (client botStatusAdapter) with
       | None => presence = []
       | Some _ => exists data, presence = [SetPresence data]
       end.
Proof.
  apply (onStateChange_bot_state_acknowledged "activityName"
           {| state_val := JStr "Chess"; state_ack := false |} botStatusAdapter).
  - reflexivity.
  - right. right. reflexivity.
Defined.

(** ** From the reconciliation to the command dispatch *)

Lemma isSendAction_cases (action : string) :
  isSendAction action = true ->
  action = "send" \/ action = "sendFile" \/ action = "sendReaction" \/ action = "sendReply".
Proof.
  unfold isSendAction. intros H.
  destruct (String.eqb_spec action "send"); [now left|].
  destruct (String.eqb_spec action "sendFile"); [now right; left|].
  destruct (String.eqb_spec action "sendReaction"); [now right; right; left|].
  destruct (String.eqb_spec action "sendReply"); [now right; right; right|discriminate].
Qed.

Lemma matchSendChannel_parentless (inst guildId channelId action : string) :
  isDigits inst = true -> isDigits guildId = true -> isDigits channelId = true ->
  isSendAction action = true ->
  matchSendChannel ("discord." +:+ inst +:+ ".servers." +:+ guildId +:+ ".channels."
                      +:+ channelId +:+ "." +:+ action)
  = Some ("discord." +:+ inst +:+ ".servers." +:+ guildId +:+ ".channels." +:+ channelId,
          guildId, channelId, action).
Proof.
  intros Hi Hg Hc Hact. unfold matchSendChannel.
  rewrite stripPrefix_app. cbn [mbind option_bind].
  rewrite digits1_app; [|exact Hi|reflexivity]. cbn [mbind option_bind].
  rewrite stripPrefix_app. cbn [mbind option_bind].
  rewrite digits1_app; [|exact Hg|reflexivity]. cbn [mbind option_bind].
  rewrite stripPrefix_app. cbn [mbind option_bind].
  rewrite digits1_app; [|exact Hc|reflexivity]. cbn [mbind option_bind].
  destruct (isSendAction_cases action Hact) as [->|[->|[->| ->]]]; reflexivity.
Qed.

Lemma matchSendChannel_child (inst guildId parentId channelId action : string) :
  isDigits inst = true -> isDigits guildId = true -> isDigits parentId = true ->
  isDigits channelId = true -> isSendAction action = true ->
  matchSendChannel ("discord." +:+ inst +:+ ".servers." +:+ guildId +:+ ".channels."
                      +:+ parentId +:+ ".channels." +:+ channelId +:+ "." +:+ action)
  = Some ("discord." +:+ inst +:+ ".servers." +:+ guildId +:+ ".channels." +:+ parentId
            +:+ ".channels." +:+ channelId,
          guildId, channelId, action).
Proof.
  intros Hi Hg Hp Hc Hact. unfold matchSendChannel.
  rewrite stripPrefix_app. cbn [mbind option_bind].
  rewrite digits1_app; [|exact Hi|reflexivity]. cbn [mbind option_bind].
  rewrite stripPrefix_app. cbn [mbind option_bind].
  rewrite digits1_app; [|exact Hg|reflexivity]. cbn [mbind option_bind].
  rewrite stripPrefix_app. cbn [mbind option_bind].
  rewrite digits1_app; [|exact Hp|reflexivity]. cbn [mbind option_bind].
  rewrite stripPrefix_app. cbn [mbind option_bind].
  rewrite digits1_app; [|exact Hc|reflexivity]. cbn [mbind option_bind].
  unfold actionSuffix at 1. rewrite stripPrefix_app. cbn [mbind option_bind].
  rewrite Hact. rewrite !append_assoc. reflexivity.
Qed.

Lemma matchSendUser_id (inst userId action : string) :
  isDigits inst = true -> isDigits userId = true -> isSendAction action = true ->
  matchSendChannel ("discord." +:+ inst +:+ ".users." +:+ userId +:+ "." +:+ action) = None
  /\ matchSendUser ("discord." +:+ inst +:+ ".users." +:+ userId +:+ "." +:+ action)
     = Some ("discord." +:+ inst +:+ ".users." +:+ userId, userId, action).
Proof.
  intros Hi Hu Hact. unfold matchSendChannel, matchSendUser.
  rewrite stripPrefix_app. cbn [mbind option_bind].
  rewrite digits1_app; [|exact Hi|reflexivity]. cbn [mbind option_bind].
  split; [reflexivity|].
  rewrite stripPrefix_app. cbn [mbind option_bind].
  rewrite digits1_app; [|exact Hu|reflexivity]. cbn [mbind option_bind].
  unfold actionSuffix. rewrite stripPrefix_app. cbn [mbind option_bind].
  now rewrite Hact.
Qed.

(** X14.  The command states the reconciliation creates are the ones the
    command dispatch resolves.  With an instance number and ids made of
    digits, the state [<prefix>.<action>] of a channel, where [<prefix>] is
    the object path of the channel as [updateGuilds] builds it (with or
    without the parent segment), resolves to the channel the client caches
    under the guild id and the channel id, when that is a text channel and
    no thread; the state [users.<id>.<action>] resolves to the cached user.
    In both cases the base for the mirrored states is the object path
    in the namespace of the adapter. *)
Theorem resolveTarget_of_mirrored_entities (a : Adapter) :
  isDigits (instance a) = true ->
  (forall guild parents channel action channels cached,
     isDigits (guild_id guild) = true -> isDigits (channel_id channel) = true ->
     (parents = false ->
      exists p, channel_parentId channel = Some p /\ isDigits p = true) ->
     isSendAction action = true ->
     guilds_cache (client a) !! guild_id guild = Some channels ->
     channels !! channel_id channel = Some cached ->
     channel_isText cached = true -> channel_isThread cached = false ->
     resolveTarget
       (namespace a +:+ "." +:+ channelIdPrefix guild parents channel +:+ "." +:+ action) a
     = Some (TChannel (guild_id guild) cached,
             namespace a +:+ "." +:+ channelIdPrefix guild parents channel, action))
  /\ (forall userId action cached,
        isDigits userId = true -> isSendAction action = true ->
        users_cache (client a) !! userId = Some cached ->
        resolveTarget (namespace a +:+ ".users." +:+ userId +:+ "." +:+ action) a
        = Some (TUser cached, namespace a +:+ ".users." +:+ userId, action)).
Proof.
  intros Hi. split.
  - intros guild parents channel action channels cached Hg Hc Hp Hact Hguild Hchannel
      Htext Hthread.
    unfold resolveTarget, namespace, channelIdPrefix.
    destruct parents.
    + rewrite !append_assoc.
      change ("." +:+ "servers." +:+ guild_id guild +:+ ".channels." +:+ channel_id channel
                +:+ "." +:+ action)
        with (".servers." +:+ guild_id guild +:+ ".channels." +:+ channel_id channel
                +:+ "." +:+ action).
      rewrite matchSendChannel_parentless by assumption.
      rewrite Hguild. cbn [mbind option_bind]. rewrite Hchannel, Htext, Hthread.
      reflexivity.
    + destruct (Hp eq_refl) as (p & -> & Hpd). cbn [default].
      rewrite !append_assoc.
      change ("." +:+ "servers." +:+ guild_id guild +:+ ".channels." +:+ id p
                +:+ ".channels." +:+ channel_id channel +:+ "." +:+ action)
        with (".servers." +:+ guild_id guild +:+ ".channels." +:+ p
                +:+ ".channels." +:+ channel_id channel +:+ "." +:+ action).
      rewrite matchSendChannel_child by assumption.
      rewrite Hguild. cbn [mbind option_bind]. rewrite Hchannel, Htext, Hthread.
      reflexivity.
  - intros userId action cached Hu Hact Huser.
    unfold resolveTarget, namespace. rewrite !append_assoc.
    destruct (matchSendUser_id (instance a) userId action Hi Hu Hact) as [-> ->].
    now rewrite Huser.
Qed.

Lemma resolveTarget_of_mirrored_entities_witness :
  resolveTarget
    (namespace commandAdapter +:+ "." +:+ channelIdPrefix home false general
       +:+ "." +:+ "sendReply") commandAdapter
  = Some (TChannel (guild_id home) general,
          namespace commandAdapter +:+ "." +:+ channelIdPrefix home false general,
          "sendReply").
Proof.
  apply (proj1 (resolveTarget_of_mirrored_entities commandAdapter eq_refl)
           home false general "sendReply" {[ "31" := general ]} general);
    try reflexivity.
  intros _. now exists "30".
Defined.

(** ** The reconciliation pass: when it stops, and what it keeps *)

(** On an unloaded adapter a pass returns at its first [unloaded] check,
    before it fetches the guilds. *)
Lemma updateGuilds_unloaded (guilds : option (list Guild)) (botId : string) (a : Adapter) :
  unloaded a = true ->
  client_user (client a) = Some botId ->
  updateGuilds guilds a = (Stopped, mkPass a [] ∅).
Proof.
  intros Hun Hbot. unfold updateGuilds, upsertPhase. rewrite Hbot.
  unfold guildsSteps. cbn [run execStep]. cbn [adapter]. now rewrite Hun.
Qed.

Lemma Grows_refl (a : Adapter) : Grows a a.
Proof.
  split; [reflexivity|]. split; [reflexivity|]. exists []. now rewrite app_nil_r.
Qed.

Lemma Grows_trans (a b c : Adapter) : Grows a b -> Grows b c -> Grows a c.
Proof.
  intros (HO & HM & l & Hl & Hf) (HO' & HM' & l' & Hl' & Hf').
  split; [etrans; eassumption|]. split; [etrans; eassumption|].
  exists (l ++ l'). rewrite Hl', Hl, <- app_assoc. split; [reflexivity|].
  now apply Forall_app.
Qed.

Lemma setStateAsync_grows (id : string) (v : JsVal) (ack : bool) (a : Adapter) :
  Grows a (snd (setStateAsync id v ack a)).
Proof.
  unfold setStateAsync. destruct (rejects a _); cbn;
    (split; [reflexivity|]); (split; [reflexivity|]); exists [SetState id v ack];
    (split; [reflexivity|]); now constructor.
Qed.

Lemma extendObjectAsyncCached_grows (id : string) (objPart : Obj) (a : Adapter) :
  Grows a (snd (extendObjectAsyncCached id objPart a)).
Proof.
  unfold extendObjectAsyncCached. destruct (isDeepStrictEqual _ _); [apply Grows_refl|].
  unfold extendObjectAsync. destruct (rejects a _); cbn.
  - split; [reflexivity|]. split; [reflexivity|]. exists [ExtendObject id objPart].
    split; [reflexivity|]. now constructor.
  - split; [apply union_subseteq_r|]. split; [reflexivity|].
    exists [ExtendObject id objPart]. split; [reflexivity|]. now constructor.
Qed.

Lemma withJsonStateCache_grows (m : gmap string Obj) (a b : Adapter) :
  Grows a b -> Grows a (withJsonStateCache m b).
Proof. intros H. exact H. Qed.

Lemma pushJsonState_grows (id : string) (json : Obj) (a : Adapter) :
  Grows a (snd (pushJsonState id json a)).
Proof.
  unfold pushJsonState. destruct (isDeepStrictEqual _ _); [apply Grows_refl|].
  pose proof (setStateAsync_grows id (JStr (JSON_stringify (runtime a) json)) true a) as H.
  destruct (setStateAsync _ _ _ a) as [ok a1]. exact H.
Qed.

Lemma awaitJsonState_grows (id : string) (json : Obj) (a : Adapter) :
  Grows a (snd (awaitJsonState id json a)).
Proof.
  unfold awaitJsonState. destruct (isDeepStrictEqual _ _); [apply Grows_refl|].
  pose proof (setStateAsync_grows id (JStr (JSON_stringify (runtime a) json)) true a) as H.
  destruct (setStateAsync _ _ _ a) as [[|] a1]; exact H.
Qed.

Lemma updateUserPresence_grows (userId : string) (presence : option Presence) (skip : bool)
    (a : Adapter) :
  Grows a (snd (updateUserPresence userId presence skip a)).
Proof.
  unfold updateUserPresence. destruct (negb _); [apply Grows_refl|].
  set (p := presenceProjection presence).
  assert (H0 : Grows a (snd (if skip then (true, a) else presenceJsonUpdate userId p a))).
  { destruct skip; [apply Grows_refl|]. unfold presenceJsonUpdate.
    destruct (jsonStateCache a !! _) as [json|]; [|apply Grows_refl].
    match goal with
    | |- Grows a (snd (setStateAsync ?i ?v ?k ?b)) =>
        exact (setStateAsync_grows i v k b)
    end. }
  destruct (if skip then (true, a) else presenceJsonUpdate userId p a) as [okJ a1].
  cbn [snd] in H0.
  pose proof (setStateAsync_grows ("users." +:+ userId +:+ ".status")
                (JStr (status p)) true a1) as H1.
  destruct (setStateAsync _ (JStr (status p)) true a1) as [ok1 a2]. cbn [snd] in H1.
  pose proof (setStateAsync_grows ("users." +:+ userId +:+ ".activityName")
                (JStr (activityName p)) true a2) as H2.
  destruct (setStateAsync _ (JStr (activityName p)) true a2) as [ok2 a3]. cbn [snd] in H2.
  pose proof (setStateAsync_grows ("users." +:+ userId +:+ ".activityType")
                (JStr (activityType p)) true a3) as H3.
  destruct (setStateAsync _ (JStr (activityType p)) true a3) as [ok3 a4]. cbn [snd] in H3.
  assert (H : Grows a a4) by (eauto using Grows_trans).
  now destruct (okJ && ok1 && ok2 && ok3).
Qed.

Lemma execCmd_grows (c : Cmd) (a : Adapter) : Grows a (snd (execCmd c a)).
Proof.
  destruct c; cbn [execCmd snd].
  - apply extendObjectAsyncCached_grows.
  - apply setStateAsync_grows.
  - apply pushJsonState_grows.
  - apply updateUserPresence_grows.
Qed.

Lemma execAll_grows (cmds : list Cmd) (a : Adapter) : Grows a (snd (execAll cmds a)).
Proof.
  revert a. induction cmds as [|c cmds IH]; intros a; [apply Grows_refl|].
  cbn [execAll]. pose proof (execCmd_grows c a) as Hc.
  destruct (execCmd c a) as [ok a1]. cbn [snd] in Hc.
  pose proof (IH a1) as Hrest. destruct (execAll cmds a1) as [oks a2].
  cbn [snd] in *. eauto using Grows_trans.
Qed.

Lemma execStep_grows (step : Step) (st : Pass) : Grows st (snd (execStep step st)).
Proof.
  destruct step; cbn [execStep]; try apply Grows_refl.
  - pose proof (execAll_grows cmds st) as H. now destruct (execAll cmds st).
  - pose proof (awaitJsonState_grows id json st) as H.
    now destruct (awaitJsonState id json st).
  - apply updateUserPresence_grows.
  - cbn. split; [reflexivity|]. split; [apply union_subseteq_r|].
    exists []. now rewrite app_nil_r.
Qed.

Lemma run_grows (steps : list Step) (st : Pass) : Grows st (snd (run steps st)).
Proof.
  revert st. induction steps as [|step steps IH]; intros st; [apply Grows_refl|].
  cbn [run]. pose proof (execStep_grows step st) as H.
  destruct (execStep step st) as [[| |] st1]; cbn [snd] in *; try exact H.
  eauto using Grows_trans.
Qed.

Lemma upsertPhase_grows (guilds : option (list Guild)) (a : Adapter) :
  Grows a (snd (upsertPhase guilds a)).
Proof.
  unfold upsertPhase. destruct (client_user (client a)) as [botId|]; [|apply Grows_refl].
  pose proof (run_grows (guildsSteps a botId guilds) (mkPass a [] ∅)) as H.
  destruct (run (guildsSteps a botId guilds) (mkPass a [] ∅)) as [[| |] st1];
    cbn [snd] in *; try exact H.
  eapply Grows_trans; [exact H|]. apply run_grows.
Qed.

(** X15.  Only a pass whose upsert phase runs to its end sweeps.  The
    upsert phase itself never deletes: it keeps every object and every
    registered message state and makes no [delObjectAsync] call.  So when
    the phase stops or throws (a fetch or a write is rejected, the client
    has no user, the adapter is unloaded), [updateGuilds] ends there and
    nothing has been deleted, however stale the database is. *)
Theorem updateGuilds_deletes_only_after_full_upsert
    (guilds : option (list Guild)) (a : Adapter) :
  Grows a (snd (upsertPhase guilds a))
  /\ (fst (upsertPhase guilds a) <> Ok ->
      updateGuilds guilds a = upsertPhase guilds a
      /\ Grows a (snd (updateGuilds guilds a))).
Proof.
  split; [apply upsertPhase_grows|].
  intros Hfail. unfold updateGuilds.
  pose proof (upsertPhase_grows guilds a) as H.
  destruct (upsertPhase guilds a) as [[| |] st]; cbn [fst snd] in *;
    [contradiction|now split..].
Qed.

(** *** What the sweep keeps *)

Lemma append_cancel (p x y : string) : p +:+ x = p +:+ y -> x = y.
Proof.
  induction p as [|c p IH]; cbn; [exact id|]. intros [= H]. now apply IH.
Qed.

Lemma digits_prefix_unique (d d' r r' : string) :
  isDigits d = true -> isDigits d' = true ->
  noLeadingDigit r = true -> noLeadingDigit r' = true ->
  d +:+ r = d' +:+ r' -> d = d'.
Proof.
  unfold isDigits. intros [Hd _]%andb_prop [Hd' _]%andb_prop Hr Hr' Heq.
  pose proof (spanDigits_app d r Hd Hr) as H1.
  pose proof (spanDigits_app d' r' Hd' Hr') as H2.
  rewrite Heq in H1. congruence.
Qed.

Lemma append_empty_r (s : string) : s +:+ "" = s.
Proof. induction s as [|c s IH]; cbn; [reflexivity|now rewrite IH]. Qed.

Lemma matchUsers_digits (s : Setting) (id userId : string) :
  matchUsers s id = Some userId -> isDigits userId = true.
Proof.
  unfold matchUsers. destruct (stripPrefix _ id) as [u|]; cbn; [|discriminate].
  unfold isDigits. destruct (allDigits u && negb (String.eqb u "")) eqn:H; [|discriminate].
  now intros [= <-].
Qed.

Lemma allDigits_no_dot (p r : string) : allDigits (p +:+ "." +:+ r) = false.
Proof.
  induction p as [|c p IH]; [reflexivity|].
  change (allDigits (String c p +:+ "." +:+ r))
    with (isDigit c && allDigits (p +:+ "." +:+ r)).
  rewrite IH. apply andb_false_r.
Qed.

Lemma sweepLoop_keeps (body : string -> Adapter -> bool * Adapter) (rows : list string)
    (k : string) (a : Adapter) :
  (forall y b, setting (snd (body y b)) = setting b) ->
  (forall y b, setting b = setting a -> k ∈ objects b -> k ∈ objects (snd (body y b))) ->
  k ∈ objects a ->
  k ∈ objects (snd (sweepLoop body rows a)).
Proof.
  intros Hset Hbody. revert a Hbody.
  induction rows as [|y rows IH]; intros a Hbody Hin; cbn [sweepLoop]; [exact Hin|].
  pose proof (Hbody y a eq_refl Hin) as H1. pose proof (Hset y a) as H2.
  destruct (body y a) as [[|] a1]; cbn [snd] in *; [|exact H1].
  apply IH; [|exact H1]. intros y' b Hb. apply Hbody. now rewrite Hb.
Qed.

Lemma sweepUsersItem_keeps_known (users : list (string * (User * option Presence)))
    (itemId userId rest : string) (a : Adapter) :
  isDigits userId = true -> noLeadingDigit rest = true ->
  collectionHas userId users = true ->
  namespace a +:+ ".users." +:+ userId +:+ rest ∈ objects a ->
  namespace a +:+ ".users." +:+ userId +:+ rest ∈ objects (snd (sweepUsersItem users itemId a)).
Proof.
  intros Hu Hrest Hknown Hin. unfold sweepUsersItem.
  destruct (matchUsers a itemId) as [other|] eqn:Hm; [|exact Hin].
  destruct (collectionHas other users) eqn:Hother; [exact Hin|].
  pose proof (matchUsers_digits _ _ _ Hm) as Ho.
  assert (Hne : userId <> other) by congruence.
  unfold delObjectAsyncCached.
  match goal with |- context [delObjectAsync _ _ ?x] => set (A := x) end.
  assert (HA : setting A = setting a) by reflexivity.
  assert (Hin' : namespace a +:+ ".users." +:+ userId +:+ rest ∈ objects A) by exact Hin.
  clearbody A.
  apply delObjectAsync_keeps; [exact Hin' | |];
    rewrite fixId_users; unfold namespace; rewrite HA; fold (namespace a).
  - intros Heq. apply append_cancel, (append_cancel ".users.") in Heq.
    apply Hne. apply (digits_prefix_unique userId other rest ""); try assumption.
    + reflexivity.
    + now rewrite append_empty_r.
  - destruct (startsWith _ _) eqn:Hs; [|reflexivity]. exfalso.
    rewrite !append_assoc, startsWith_cancel in Hs.
    rewrite (startsWith_cancel ".users.") in Hs.
    apply startsWith_inv in Hs as [r Hr]. rewrite append_assoc in Hr.
    apply Hne. now apply (digits_prefix_unique userId other rest ("." +:+ r)).
Qed.

Lemma sweepUsersItem_keeps_servers (users : list (string * (User * option Presence)))
    (itemId rest : string) (a : Adapter) :
  namespace a +:+ ".servers." +:+ rest ∈ objects a ->
  namespace a +:+ ".servers." +:+ rest ∈ objects (snd (sweepUsersItem users itemId a)).
Proof.
  intros Hin. unfold sweepUsersItem.
  destruct (matchUsers a itemId) as [other|]; [|exact Hin].
  destruct (collectionHas other users); [exact Hin|].
  unfold delObjectAsyncCached.
  match goal with |- context [delObjectAsync _ _ ?x] => set (A := x) end.
  assert (HA : setting A = setting a) by reflexivity.
  assert (Hin' : namespace a +:+ ".servers." +:+ rest ∈ objects A) by exact Hin.
  clearbody A.
  apply delObjectAsync_keeps; [exact Hin' | |];
    rewrite fixId_users; unfold namespace; rewrite HA; fold (namespace a).
  - intros Heq. apply append_cancel in Heq. discriminate.
  - rewrite !append_assoc, startsWith_cancel. reflexivity.
Qed.

Lemma sweepServersItem_keeps_known_guild (known : gset string) (itemId guildId : string)
    (a : Adapter) :
  isDigits guildId = true ->
  namespace a +:+ ".servers." +:+ guildId ∈ known ->
  namespace a +:+ ".servers." +:+ guildId ∈ objects a ->
  namespace a +:+ ".servers." +:+ guildId ∈ objects (snd (sweepServersItem known itemId a)).
Proof.
  intros Hg Hknown Hin. unfold sweepServersItem.
  destruct (matchServersChannels a itemId) as [idPath|] eqn:Hm; [|exact Hin].
  destruct (decide (itemId ∈ known)) as [|Hunknown]; [exact Hin|].
  apply matchServersChannels_id in Hm.
  unfold delObjectAsyncCached.
  match goal with |- context [delObjectAsync _ _ ?x] => set (A := x) end.
  assert (HA : setting A = setting a) by reflexivity.
  assert (Hin' : namespace a +:+ ".servers." +:+ guildId ∈ objects A) by exact Hin.
  clearbody A.
  apply delObjectAsync_keeps; [exact Hin' | |];
    rewrite fixId_servers; unfold namespace; rewrite HA; fold (namespace a).
  - intros Heq. apply Hunknown. rewrite Hm, <- Heq. exact Hknown.
  - destruct (startsWith _ _) eqn:Hs; [|reflexivity]. exfalso.
    rewrite !append_assoc, startsWith_cancel in Hs.
    rewrite (startsWith_cancel ".servers.") in Hs.
    apply startsWith_inv in Hs as [r Hr]. rewrite append_assoc in Hr.
    unfold isDigits in Hg. apply andb_prop in Hg as [Hg _].
    rewrite Hr, allDigits_no_dot in Hg. discriminate.
Qed.

(** X16.  The sweep of a completed pass leaves alone what the pass has
    seen.  The object of a user in [allServersUsers] and every object below
    it (more generally every id [users.<id>] followed by anything that does
    not start with a digit) that exists when the sweep starts still exists
    when the pass ends, and so does the object of every guild whose id was
    recorded in [knownServersAndChannelsIds]. *)
Theorem updateGuilds_sweep_keeps_what_is_known
    (guilds : option (list Guild)) (a : Adapter) (st' : Pass) :
  updateGuilds guilds a = (Ok, st') ->
  (forall userId rest,
     isDigits userId = true -> noLeadingDigit rest = true ->
     collectionHas userId (allServersUsers st') = true ->
     namespace a +:+ ".users." +:+ userId +:+ rest ∈ objects (snd (upsertPhase guilds a)) ->
     namespace a +:+ ".users." +:+ userId +:+ rest ∈ objects st')
  /\ (forall guildId,
        isDigits guildId = true ->
        namespace a +:+ ".servers." +:+ guildId ∈ knownServersAndChannelsIds st' ->
        namespace a +:+ ".servers." +:+ guildId ∈ objects (snd (upsertPhase guilds a)) ->
        namespace a +:+ ".servers." +:+ guildId ∈ objects st').
Proof.
  intros Hrun.
  destruct (updateGuilds_phases guilds a st' Hrun) as (mid & a1 & Hup & Hs1 & Hs2 & Hu & Hk).
  assert (Hmid : setting mid = setting a).
  { change (adapter mid) with (adapter (snd (Ok, mid))). rewrite <- Hup.
    apply upsertPhase_setting. }
  assert (Ha1 : setting a1 = setting a).
  { change a1 with (snd (true, a1)). rewrite <- Hs1, sweepLoop_setting; [exact Hmid|].
    intros y b. apply sweepServersItem_setting. }
  rewrite Hup. cbn [snd]. rewrite Hu, Hk.
  assert (Hns : forall b : Adapter, setting b = setting a -> namespace b = namespace a).
  { intros b Hb. unfold namespace. now rewrite Hb. }
  split.
  - intros userId rest Hd Hrest Hknown Hin.
    change (adapter st') with (snd (true, adapter st')). rewrite <- Hs2.
    apply sweepLoop_keeps.
    + intros y b. apply sweepUsersItem_setting.
    + intros y b Hb Hinb. rewrite <- (Hns b) by (now rewrite Hb).
      apply sweepUsersItem_keeps_known; try assumption.
      rewrite (Hns b) by (now rewrite Hb). exact Hinb.
    + change a1 with (snd (true, a1)). rewrite <- Hs1.
      apply sweepLoop_keeps_others; [exact Hin|].
      rewrite (Hns mid Hmid), startsWith_cancel. reflexivity.
  - intros guildId Hd Hknown Hin.
    change (adapter st') with (snd (true, adapter st')). rewrite <- Hs2.
    apply sweepLoop_keeps.
    + intros y b. apply sweepUsersItem_setting.
    + intros y b Hb Hinb. rewrite <- (Hns b) by (now rewrite Hb).
      apply sweepUsersItem_keeps_servers.
      rewrite (Hns b) by (now rewrite Hb). exact Hinb.
    + change a1 with (snd (true, a1)). rewrite <- Hs1.
      apply sweepLoop_keeps.
      * intros y b. apply sweepServersItem_setting.
      * intros y b Hb Hinb. rewrite <- (Hns b) by (now rewrite Hb, Hmid).
        apply sweepServersItem_keeps_known_guild; try assumption.
        -- rewrite (Hns b) by (now rewrite Hb, Hmid). exact Hknown.
        -- rewrite (Hns b) by (now rewrite Hb, Hmid). exact Hinb.
      * exact Hin.
Qed.

Lemma updateGuilds_sweep_keeps_what_is_known_witness :
  (forall userId rest,
     isDigits userId = true -> noLeadingDigit rest = true ->
     collectionHas userId
       (allServersUsers (snd (updateGuilds (Some [home]) staleAdapter))) = true ->
     namespace staleAdapter +:+ ".users." +:+ userId +:+ rest
       ∈ objects (snd (upsertPhase (Some [home]) staleAdapter)) ->
     namespace staleAdapter +:+ ".users." +:+ userId +:+ rest
       ∈ objects (snd (updateGuilds (Some [home]) staleAdapter)))
  /\ (forall guildId,
        isDigits guildId = true ->
        namespace staleAdapter +:+ ".servers." +:+ guildId
          ∈ knownServersAndChannelsIds (snd (updateGuilds (Some [home]) staleAdapter)) ->
        namespace staleAdapter +:+ ".servers." +:+ guildId
          ∈ objects (snd (upsertPhase (Some [home]) staleAdapter)) ->
        namespace staleAdapter +:+ ".servers." +:+ guildId
          ∈ objects (snd (updateGuilds (Some [home]) staleAdapter))).
Proof.
  apply (updateGuilds_sweep_keeps_what_is_known (Some [home]) staleAdapter).
  apply ran_to_end. vm_compute. reflexivity.
Defined.

(** ** The connection state and the end of the adapter *)

(** X17.  [setInfoConnectionState] writes [info.connection] only when it has
    to.  After a call that the database accepted, [infoConnected] is the
    value given, and a second call with the same value and without [force]
    makes no call at all; with [force] it writes again.  A rejected write
    leaves [infoConnected] as it was. *)
Theorem setInfoConnectionState_writes_changes
    (connected force : bool) (l : Lifecycle) :
  let r := setInfoConnectionState connected force l in
  (fst r = true ->
   infoConnected (snd r) = connected
   /\ setInfoConnectionState connected false (snd r) = (true, snd r)
   /\ calls (lc_adapter (snd (setInfoConnectionState connected true (snd r))))
      = calls (lc_adapter (snd r)) ++ [SetState "info.connection" (JBool connected) true])
  /\ (fst r = false ->
      infoConnected (snd r) = infoConnected l
      /\ calls (lc_adapter (snd r))
         = calls (lc_adapter l) ++ [SetState "info.connection" (JBool connected) true])
  /\ (force = false -> connected = infoConnected l -> r = (true, l)).
Proof.
  cbv zeta.
  assert (Hforce : forall x,
    calls (lc_adapter (snd (setInfoConnectionState connected true x)))
    = calls (lc_adapter x) ++ [SetState "info.connection" (JBool connected) true]).
  { intros x. unfold setInfoConnectionState. cbn [orb].
    pose proof (setStateAsync_calls "info.connection" (JBool connected) true (lc_adapter x))
      as H.
    destruct (setStateAsync _ _ _ (lc_adapter x)) as [[|] a1]; exact H. }
  assert (Hsame : forall x, infoConnected x = connected ->
    setInfoConnectionState connected false x = (true, x)).
  { intros x Hx. unfold setInfoConnectionState. rewrite Hx, eqb_reflx. reflexivity. }
  repeat split.
  - revert H. unfold setInfoConnectionState.
    destruct (force || negb (Bool.eqb connected (infoConnected l))) eqn:Hw.
    + destruct (setStateAsync _ _ _ (lc_adapter l)) as [[|] a1]; [reflexivity|discriminate].
    + intros _. apply orb_false_elim in Hw as [_ Hw]. apply negb_false_iff in Hw.
      symmetry. now apply eqb_prop.
  - apply Hsame. revert H. unfold setInfoConnectionState.
    destruct (force || negb (Bool.eqb connected (infoConnected l))) eqn:Hw.
    + destruct (setStateAsync _ _ _ (lc_adapter l)) as [[|] a1]; [reflexivity|discriminate].
    + intros _. apply orb_false_elim in Hw as [_ Hw]. apply negb_false_iff in Hw.
      symmetry. now apply eqb_prop.
  - apply Hforce.
  - revert H. unfold setInfoConnectionState.
    destruct (force || negb (Bool.eqb connected (infoConnected l))); [|discriminate].
    destruct (setStateAsync _ _ _ (lc_adapter l)) as [[|] a1]; [discriminate|reflexivity].
  - revert H. unfold setInfoConnectionState.
    destruct (force || negb (Bool.eqb connected (infoConnected l))); [|discriminate].
    pose proof (setStateAsync_calls "info.connection" (JBool connected) true (lc_adapter l))
      as Hc.
    destruct (setStateAsync _ _ _ (lc_adapter l)) as [[|] a1]; [discriminate|].
    intros _. exact Hc.
  - intros -> ->. now apply Hsame.
Qed.

Lemma setInfoConnectionState_unloaded (connected force : bool) (l : Lifecycle) :
  unloaded (lc_adapter (snd (setInfoConnectionState connected force l)))
  = unloaded (lc_adapter l)
  /\ client (lc_adapter (snd (setInfoConnectionState connected force l)))
     = client (lc_adapter l)
  /\ callbacks (snd (setInfoConnectionState connected force l)) = callbacks l
  /\ destroyed (snd (setInfoConnectionState connected force l)) = destroyed l
  /\ clientCreated (snd (setInfoConnectionState connected force l)) = clientCreated l.
Proof.
  unfold setInfoConnectionState. destruct (force || _); [|now repeat split].
  unfold setStateAsync. destruct (rejects _ _); now repeat split.
Qed.

(** X18.  [onUnload] always calls the callback exactly once and leaves the
    adapter unloaded, after exactly one forced write of [false] to
    [info.connection].  The client is destroyed only on the way through
    the [try] block: when a client exists, the write was accepted and
    [destroy] does not throw.  When the write is rejected the client is
    left running.  A reconciliation pass started afterwards returns at its
    first check without a call. *)
Theorem onUnload_calls_back_once (destroyThrows : bool) (l : Lifecycle) :
  let l' := onUnload destroyThrows l in
  let write := SetState "info.connection" (JBool false) true in
  callbacks l' = S (callbacks l)
  /\ unloaded (lc_adapter l') = true
  /\ calls (lc_adapter l') = calls (lc_adapter l) ++ [write]
  /\ destroyed l'
     = destroyed l
       || (clientCreated l && negb (rejects (lc_adapter l) write) && negb destroyThrows)
  /\ (forall guilds botId,
        client_user (client (lc_adapter l)) = Some botId ->
        updateGuilds guilds (lc_adapter l') = (Stopped, mkPass (lc_adapter l') [] ∅)).
Proof.
  cbv zeta.
  assert (Hstop : forall b : Adapter,
            unloaded b = true -> client b = client (lc_adapter l) ->
            forall guilds botId,
              client_user (client (lc_adapter l)) = Some botId ->
              updateGuilds guilds b = (Stopped, mkPass b [] ∅)).
  { intros b Hb Hcl guilds botId Hbot. apply (updateGuilds_unloaded guilds botId b Hb).
    now rewrite Hcl. }
  destruct l as [a ic cc d n]. cbn [lc_adapter clientCreated destroyed callbacks] in *.
  unfold onUnload, setInfoConnectionState. cbn [orb].
  unfold setStateAsync. cbn [lc_adapter withLcAdapter].
  change (rejects (withUnloaded a)) with (rejects a).
  destruct (rejects a _) eqn:Hrej; cbn [negb andb].
  - cbn. split; [reflexivity|]. split; [reflexivity|]. split; [reflexivity|].
    split; [now rewrite andb_false_r, orb_false_r|]. now apply Hstop.
  - destruct cc; [destruct destroyThrows|]; cbn;
      (split; [reflexivity|]); (split; [reflexivity|]); (split; [reflexivity|]);
      (split; [|now apply Hstop]).
    + now rewrite orb_false_r.
    + now rewrite orb_true_r.
    + now rewrite orb_false_r.
Qed.

(** ** Voice state events *)

Lemma execAll_setStates (writes : list (string * JsVal)) (a : Adapter) :
  calls (snd (execAll ((fun w => CSetState (fst w) (snd w)) <$> writes) a))
  = calls a ++ ((fun w => SetState (fst w) (snd w) true) <$> writes)
  /\ jsonStateCache (snd (execAll ((fun w => CSetState (fst w) (snd w)) <$> writes) a))
     = jsonStateCache a
  /\ extendObjectCache (snd (execAll ((fun w => CSetState (fst w) (snd w)) <$> writes) a))
     = extendObjectCache a
  /\ objects (snd (execAll ((fun w => CSetState (fst w) (snd w)) <$> writes) a)) = objects a
  /\ messageReceiveStates (snd (execAll ((fun w => CSetState (fst w) (snd w)) <$> writes) a))
     = messageReceiveStates a.
Proof.
  revert a. induction writes as [|[id v] writes IH]; intros a.
  - cbn. now rewrite app_nil_r.
  - rewrite fmap_cons. cbn [execAll execCmd fst snd].
    pose proof (setStateAsync_calls id v true a) as Hc.
    assert (Hf : jsonStateCache (snd (setStateAsync id v true a)) = jsonStateCache a
                 /\ extendObjectCache (snd (setStateAsync id v true a)) = extendObjectCache a
                 /\ objects (snd (setStateAsync id v true a)) = objects a
                 /\ messageReceiveStates (snd (setStateAsync id v true a))
                    = messageReceiveStates a).
    { unfold setStateAsync. now destruct (rejects a _). }
    destruct (setStateAsync id v true a) as [ok a1]. cbn [snd] in *.
    destruct (IH a1) as (H1 & H2 & H3 & H4 & H5).
    destruct (execAll _ a1) as [oks a2]. cbn [snd] in *.
    destruct Hf as (F1 & F2 & F3 & F4).
    rewrite H1, H2, H3, H4, H5, Hc, F1, F2, F3, F4, <- app_assoc. now repeat split.
Qed.

Lemma voiceChanges_spec (oldState newState : VoiceStateEvent) (base : string) (json : Obj) :
  let c1 := differs_string (vs_channelId oldState) (vs_channelId newState) in
  let c2 := differs_bool (vs_serverDeaf oldState) (vs_serverDeaf newState) in
  let c3 := differs_bool (vs_selfDeaf oldState) (vs_selfDeaf newState) in
  let c4 := differs_bool (vs_serverMute oldState) (vs_serverMute newState) in
  let c5 := differs_bool (vs_selfMute oldState) (vs_selfMute newState) in
  let name := JStr (default "" (vs_channelName newState)) in
  let writes :=
    (if c1 then [(base +:+ ".voiceChannel", name)] else [])
    ++ (if c2 then [(base +:+ ".voiceServerDeaf", JBool (toBool (vs_serverDeaf newState)))]
        else [])
    ++ (if c3 then [(base +:+ ".voiceSelfDeaf", JBool (toBool (vs_selfDeaf newState)))]
        else [])
    ++ (if c4 then [(base +:+ ".voiceServerMute", JBool (toBool (vs_serverMute newState)))]
        else [])
    ++ (if c5 then [(base +:+ ".voiceSelfMute", JBool (toBool (vs_selfMute newState)))]
        else []) in
  let json1 := if c1 then setField json "voiceChannel" name else json in
  let json2 :=
    if c2 then setField json1 "voiceSelfDeaf" (JBool (toBool (vs_selfDeaf newState)))
    else json1 in
  let json3 :=
    if c3 then setField json2 "voiceServerDeaf" (JBool (toBool (vs_serverDeaf newState)))
    else json2 in
  let json4 :=
    if c4 then setField json3 "voiceSelfMute" (JBool (toBool (vs_selfMute newState)))
    else json3 in
  let json5 :=
    if c5 then setField json4 "voiceServerMute" (JBool (toBool (vs_serverMute newState)))
    else json4 in
  voiceChanges oldState newState base json
  = ((fun w => CSetState (fst w) (snd w)) <$> writes, json5, c1 || c2 || c3 || c4 || c5).
Proof.
  cbv zeta. unfold voiceChanges, voiceChange.
  destruct (differs_string _ _), (differs_bool (vs_serverDeaf oldState) _),
    (differs_bool (vs_selfDeaf oldState) _), (differs_bool (vs_serverMute oldState) _),
    (differs_bool (vs_selfMute oldState) _); reflexivity.
Qed.

(** X19.  A voice state event of a member writes the leaf of each field
    that differs between the old and the new state, with the value of the
    new state, in the order channel, server deaf, self deaf, server mute,
    self mute, and then, when at least one field differs, the snapshot of
    the member.  When no field differs, or the event has no member, it
    makes no call and leaves the adapter as it is. *)
Theorem onClientVoiceStateUpdate_writes_what_changed
    (oldState newState : VoiceStateEvent) (memberId : string) (a : Adapter) :
  vs_memberId newState = Some memberId ->
  memberId <> "" ->
  let base := "servers." +:+ vs_guildId newState +:+ ".members." +:+ memberId in
  let c1 := differs_string (vs_channelId oldState) (vs_channelId newState) in
  let c2 := differs_bool (vs_serverDeaf oldState) (vs_serverDeaf newState) in
  let c3 := differs_bool (vs_selfDeaf oldState) (vs_selfDeaf newState) in
  let c4 := differs_bool (vs_serverMute oldState) (vs_serverMute newState) in
  let c5 := differs_bool (vs_selfMute oldState) (vs_selfMute newState) in
  let r := onClientVoiceStateUpdate oldState newState a in
  (c1 || c2 || c3 || c4 || c5 = false -> r = (true, a))
  /\ exists snapshot,
       calls (snd r) =
       calls a
       ++ leafWrite c1 (base +:+ ".voiceChannel") (JStr (default "" (vs_channelName newState)))
       ++ leafWrite c2 (base +:+ ".voiceServerDeaf") (JBool (toBool (vs_serverDeaf newState)))
       ++ leafWrite c3 (base +:+ ".voiceSelfDeaf") (JBool (toBool (vs_selfDeaf newState)))
       ++ leafWrite c4 (base +:+ ".voiceServerMute") (JBool (toBool (vs_serverMute newState)))
       ++ leafWrite c5 (base +:+ ".voiceSelfMute") (JBool (toBool (vs_selfMute newState)))
       ++ leafWrite (c1 || c2 || c3 || c4 || c5) (base +:+ ".json") (JStr snapshot).
Proof.
  intros Hm Hne base c1 c2 c3 c4 c5 r.
  subst r. unfold onClientVoiceStateUpdate. rewrite Hm.
  assert (Ht : truthy (JStr memberId) = true).
  { cbn. destruct (String.eqb_spec memberId ""); [contradiction|reflexivity]. }
  rewrite Ht. cbn [negb]. fold base.
  rewrite voiceChanges_spec. fold c1 c2 c3 c4 c5.
  set (json5 := if c5 then setField _ _ _ else _).
  set (writes := _ ++ _ ++ _ ++ _ ++ _).
  split.
  - intros Hnone. rewrite Hnone.
    destruct c1, c2, c3, c4, c5; try discriminate. reflexivity.
  - exists (JSON_stringify (runtime a) json5).
    destruct (c1 || c2 || c3 || c4 || c5) eqn:Hany.
    + assert (Happ :
        ((fun w => CSetState (fst w) (snd w)) <$> writes)
          ++ [CSetState (base +:+ ".json") (JStr (JSON_stringify (runtime a) json5))]
        = (fun w : string * JsVal => CSetState (fst w) (snd w))
            <$> (writes ++ [(base +:+ ".json", JStr (JSON_stringify (runtime a) json5))])).
      { now rewrite fmap_app. }
      rewrite Happ.
      destruct (execAll_setStates
                  (writes ++ [(base +:+ ".json", JStr (JSON_stringify (runtime a) json5))]) a)
        as (Hc & _).
      destruct (execAll _ a) as [ok a1]. cbn [snd] in *.
      change (calls (withJsonStateCache _ a1)) with (calls a1). rewrite Hc.
      subst writes. unfold leafWrite.
      destruct c1, c2, c3, c4, c5; reflexivity.
    + destruct (execAll_setStates writes a) as (Hc & _). rewrite Hc.
      subst writes. unfold leafWrite.
      destruct c1, c2, c3, c4, c5; try discriminate. reflexivity.
Qed.

Lemma onClientVoiceStateUpdate_writes_what_changed_witness :
  exists snapshot,
    calls (snd (onClientVoiceStateUpdate notDeaf serverDeafened (newAdapter sampleSetting))) =
    calls (newAdapter sampleSetting)
    ++ leafWrite false ("servers.5.members.7" +:+ ".voiceChannel") (JStr "Talk")
    ++ leafWrite true ("servers.5.members.7" +:+ ".voiceServerDeaf") (JBool true)
    ++ leafWrite false ("servers.5.members.7" +:+ ".voiceSelfDeaf") (JBool false)
    ++ leafWrite false ("servers.5.members.7" +:+ ".voiceServerMute") (JBool false)
    ++ leafWrite false ("servers.5.members.7" +:+ ".voiceSelfMute") (JBool false)
    ++ leafWrite true ("servers.5.members.7" +:+ ".json") (JStr snapshot).
Proof.
  apply (proj2 (onClientVoiceStateUpdate_writes_what_changed notDeaf serverDeafened "7"
                  (newAdapter sampleSetting) eq_refl ltac:(discriminate))).
Defined.

(** X20.  The snapshot of the member does not take the flag that changed
    but its counterpart: when the server deaf flag differs, the event sets
    [voiceSelfDeaf] of the snapshot to the new self deaf flag, and when the
    self deaf flag differs it sets [voiceServerDeaf] to the new server deaf
    flag; the same holds for the two mute flags.  A property whose
    counterpart did not change keeps the cached value, so after an event in
    which only the server deaf flag changed the snapshot still carries the
    old [voiceServerDeaf], unlike the leaf state.  The snapshot is put into
    the cache whether or not the database accepts the writes. *)
Theorem onClientVoiceStateUpdate_snapshot_fields
    (oldState newState : VoiceStateEvent) (memberId : string) (a : Adapter) :
  vs_memberId newState = Some memberId ->
  memberId <> "" ->
  let base := "servers." +:+ vs_guildId newState +:+ ".members." +:+ memberId in
  let key := namespace a +:+ "." +:+ base +:+ ".json" in
  let cached := default [] (jsonStateCache a !! key) in
  let c1 := differs_string (vs_channelId oldState) (vs_channelId newState) in
  let c2 := differs_bool (vs_serverDeaf oldState) (vs_serverDeaf newState) in
  let c3 := differs_bool (vs_selfDeaf oldState) (vs_selfDeaf newState) in
  let c4 := differs_bool (vs_serverMute oldState) (vs_serverMute newState) in
  let c5 := differs_bool (vs_selfMute oldState) (vs_selfMute newState) in
  c1 || c2 || c3 || c4 || c5 = true ->
  exists json,
    jsonStateCache (snd (onClientVoiceStateUpdate oldState newState a)) !! key = Some json
    /\ getField json "voiceChannel"
       = (if c1 then JStr (default "" (vs_channelName newState))
          else getField cached "voiceChannel")
    /\ getField json "voiceSelfDeaf"
       = (if c2 then JBool (toBool (vs_selfDeaf newState))
          else getField cached "voiceSelfDeaf")
    /\ getField json "voiceServerDeaf"
       = (if c3 then JBool (toBool (vs_serverDeaf newState))
          else getField cached "voiceServerDeaf")
    /\ getField json "voiceSelfMute"
       = (if c4 then JBool (toBool (vs_selfMute newState))
          else getField cached "voiceSelfMute")
    /\ getField json "voiceServerMute"
       = (if c5 then JBool (toBool (vs_serverMute newState))
          else getField cached "voiceServerMute").
Proof.
  intros Hm Hne base key cached c1 c2 c3 c4 c5 Hany.
  unfold onClientVoiceStateUpdate. rewrite Hm.
  assert (Ht : truthy (JStr memberId) = true).
  { cbn. destruct (String.eqb_spec memberId ""); [contradiction|reflexivity]. }
  rewrite Ht. cbn [negb]. fold base. fold key. fold cached.
  rewrite voiceChanges_spec. fold c1 c2 c3 c4 c5. rewrite Hany.
  set (json5 := if c5 then setField _ _ _ else _).
  exists json5. split.
  - destruct (execAll _ a) as [ok a1]. cbn. apply lookup_insert_eq.
  - subst json5. clear Hany.
    destruct c1, c2, c3, c4, c5; rewrite ?getField_setField; now repeat split.
Qed.

Lemma onClientVoiceStateUpdate_snapshot_fields_witness :
  exists json,
    jsonStateCache (snd (onClientVoiceStateUpdate notDeaf serverDeafened
                           (newAdapter sampleSetting)))
      !! (namespace (newAdapter sampleSetting) +:+ "."
            +:+ ("servers." +:+ "5" +:+ ".members." +:+ "7") +:+ ".json") = Some json
    /\ getField json "voiceChannel" = getField [] "voiceChannel"
    /\ getField json "voiceSelfDeaf" = JBool false
    /\ getField json "voiceServerDeaf" = getField [] "voiceServerDeaf"
    /\ getField json "voiceSelfMute" = getField [] "voiceSelfMute"
    /\ getField json "voiceServerMute" = getField [] "voiceServerMute".
Proof.
  apply (onClientVoiceStateUpdate_snapshot_fields notDeaf serverDeafened "7"
           (newAdapter sampleSetting) eq_refl ltac:(discriminate) eq_refl).
Defined.

(** ** Custom configuration of objects *)

Lemma setupObjCustom_text2command (env : CustomEnv) (s : Setting) (objId : string)
    (customCfg : option CustomConfig) (objCommon : option ObjCommon) (st : CustomState) :
  text2commandObjects (snd (setupObjCustom env s objId customCfg objCommon st))
  = if startsWith objId (namespace s +:+ ".") && endsWith objId ".message" then
      if default false (cc_enabled <$> customCfg)
         && default false (cc_enableText2command <$> customCfg)
      then {[objId]} ∪ text2commandObjects st
      else text2commandObjects st ∖ {[objId]}
    else text2commandObjects st.
Proof.
  unfold setupObjCustom. destruct customCfg as [cc|]; [|reflexivity].
  destruct (cc_enableCommands cc); [|reflexivity].
  destruct objCommon as [common|]; [reflexivity|].
  destruct (getForeignObject env objId) as [| |type common]; try reflexivity.
  destruct (String.eqb type "state"); reflexivity.
Qed.

(** X21.  [text2commandObjects] holds message states of the adapter only,
    and [setupObjCustom] keeps it that way: an id enters the set only when
    it starts with the namespace and ends with [.message] and both
    [enabled] and [enableText2command] are set, it leaves the set when it
    is such an id and one of the two is not set (in particular when the
    object was deleted), and the membership of every other id is
    unchanged. *)
Theorem setupObjCustom_text2commandObjects
    (env : CustomEnv) (s : Setting) (objId : string)
    (customCfg : option CustomConfig) (objCommon : option ObjCommon) (st : CustomState) :
  let st' := snd (setupObjCustom env s objId customCfg objCommon st) in
  let ownMessage (k : string) :=
    startsWith k (namespace s +:+ ".") && endsWith k ".message" in
  let on :=
    default false (cc_enabled <$> customCfg)
    && default false (cc_enableText2command <$> customCfg) in
  (forall k, k <> objId -> k ∈ text2commandObjects st' <-> k ∈ text2commandObjects st)
  /\ (ownMessage objId = true -> (objId ∈ text2commandObjects st' <-> on = true))
  /\ (ownMessage objId = false ->
      (objId ∈ text2commandObjects st' <-> objId ∈ text2commandObjects st))
  /\ ((forall k, k ∈ text2commandObjects st -> ownMessage k = true) ->
      forall k, k ∈ text2commandObjects st' -> ownMessage k = true)
  /\ (ownMessage objId = true ->
      objId ∉ text2commandObjects (onObjectChange env s objId None st)).
Proof.
  cbv zeta. rewrite setupObjCustom_text2command.
  set (on := default false (cc_enabled <$> customCfg)
             && default false (cc_enableText2command <$> customCfg)).
  set (own := startsWith objId (namespace s +:+ ".") && endsWith objId ".message").
  split; [|split; [|split; [|split]]].
  - intros k Hk. destruct own; [|reflexivity]. destruct on.
    + rewrite elem_of_union, elem_of_singleton. tauto.
    + rewrite elem_of_difference, elem_of_singleton. tauto.
  - intros ->. destruct on.
    + rewrite elem_of_union, elem_of_singleton. tauto.
    + rewrite elem_of_difference, elem_of_singleton. split; [tauto|discriminate].
  - intros ->. reflexivity.
  - intros Hinv k. destruct own eqn:Hown; [|apply Hinv]. destruct on.
    + intros [->%elem_of_singleton|Hin]%elem_of_union; [exact Hown|now apply Hinv].
    + intros [Hin _]%elem_of_difference. now apply Hinv.
  - intros Hown. unfold onObjectChange. rewrite setupObjCustom_text2command.
    fold own. rewrite Hown. cbn.
    rewrite elem_of_difference, elem_of_singleton. tauto.
Qed.



(** ** Incoming messages *)

Lemma startsWith_app_dot (p r : string) : startsWith (p +:+ String "." r) (p +:+ ".") = true.
Proof. induction p as [|c p IH]; cbn; [reflexivity|]. now rewrite Ascii.eqb_refl. Qed.

Lemma msgStateIdPrefix_namespace (s : Setting) (message : Message) (prefix : string) :
  msgStateIdPrefix s message = Some prefix ->
  startsWith prefix (namespace s +:+ ".") = true.
Proof.
  unfold msgStateIdPrefix.
  destruct (String.eqb (msg_channelType message) "GUILD_TEXT").
  - destruct (msg_channelParentId message) as [p|]; [destruct (String.eqb p "")|];
      intros [= <-]; unfold namespace; cbn; apply startsWith_app_dot.
  - destruct (String.eqb (msg_channelType message) "DM"); [|discriminate].
    intros [= <-]. unfold namespace. cbn. apply startsWith_app_dot.
Qed.

Lemma messageGuards_mirror (mc : MessageConfig) (message : Message) (a : Adapter)
    (prefix : string) (mentioned authorized : bool) (reaction : list Outgoing) :
  messageGuards mc message a = Mirror prefix mentioned authorized reaction ->
  exists botId,
    client_user (client a) = Some botId
    /\ botId <> ""
    /\ msg_interaction message = false
    /\ user_id (msg_author message) <> botId
    /\ authorized = checkUserAuthorization a (authCheckTarget message) None
    /\ (processMessagesFromUnauthorizedUsers mc = true \/ authorized = true)
    /\ mentioned = existsb (String.eqb botId) (msg_mentionsUsers message)
    /\ (mentioned = true \/ msg_channelType message <> "GUILD_TEXT"
        \/ processAllMessagesInServerChannel mc = true)
    /\ msgStateIdPrefix a message = Some prefix
    /\ prefix +:+ ".message" ∈ messageReceiveStates a
    /\ reaction = (if mentioned && reactOnMentions mc && authorized
                   then [Reacted (msg_id message) (reactOnMentionsEmoji mc)] else []).
Proof.
  unfold messageGuards. destruct (client_user (client a)) as [botId|]; [|discriminate].
  destruct (negb (truthy (JStr botId))) eqn:Hbot; [discriminate|].
  destruct (msg_interaction message); [discriminate|].
  destruct (String.eqb (user_id (msg_author message)) botId) eqn:Hself; [discriminate|].
  destruct (negb (processMessagesFromUnauthorizedUsers mc) && negb _) eqn:Hauth;
    [discriminate|].
  destruct (negb _ && String.eqb (msg_channelType message) "GUILD_TEXT" && negb _) eqn:Hskip;
    [discriminate|].
  destruct (msgStateIdPrefix a message) as [p|]; [|discriminate].
  destruct (negb (bool_decide _)) eqn:Hreg; [discriminate|].
  intros [= <- <- <- <-]. exists botId.
  repeat split; try reflexivity.
  - intros ->. discriminate.
  - intros H. rewrite H, String.eqb_refl in Hself. discriminate.
  - destruct (processMessagesFromUnauthorizedUsers mc); [now left|right].
    now destruct (checkUserAuthorization a _ None).
  - destruct (existsb _ _); [now left|right].
    destruct (String.eqb_spec (msg_channelType message) "GUILD_TEXT"); [right|now left].
    now destruct (processAllMessagesInServerChannel mc).
  - apply negb_false_iff, bool_decide_eq_true in Hreg. exact Hreg.
Qed.


Lemma messageWrites_ids (displayName : option string) (message : Message)
    (prefix : string) (mentioned authorized : bool) (a : Adapter) :
  Forall (fun w => exists field, fst w = prefix +:+ ".message" +:+ field)
         (messageWrites displayName message prefix mentioned authorized a).
Proof.
  unfold messageWrites.
  repeat apply Forall_app_2.
  - destruct (truthy _); [|constructor]. constructor; [|constructor].
    now exists "Author".
  - destruct (isDeepStrictEqual _ _); [constructor|]. constructor; [|constructor].
    now exists "Json".
  - repeat constructor; cbn [fst].
    + now exists "".
    + now exists "Id".
    + now exists "Timestamp".
Qed.

(** X23.  An incoming message never creates or deletes an object and never
    changes the registry of message states.  Beside the raw state, which is
    written when raw states are enabled, it writes states only for a target
    whose [.message] state is registered in [messageReceiveStates], and
    then only the message states of that target: every id written starts
    with [<prefix>.message].  A message of the bot itself and an
    interaction write none of them. *)
Theorem onClientMessageCreate_writes_registered_message_states
    (mc : MessageConfig) (displayName : option string) (t2c : gset string)
    (message : Message) (a : Adapter) :
  let r := onClientMessageCreate mc displayName t2c message a in
  let a' := snd (fst r) in
  extendObjectCache a' = extendObjectCache a
  /\ objects a' = objects a
  /\ messageReceiveStates a' = messageReceiveStates a
  /\ exists writes,
       calls a' =
       calls a
       ++ (if enableRawStates mc
           then [SetState "raw.messageJson" (JStr (msg_rawJson message)) true] else [])
       ++ ((fun w => SetState (fst w) (snd w) true) <$> writes)
       /\ (writes = []
           \/ exists prefix,
                msgStateIdPrefix a message = Some prefix
                /\ prefix +:+ ".message" ∈ messageReceiveStates a
                /\ Forall (fun w => exists field, fst w = prefix +:+ ".message" +:+ field)
                          writes)
       /\ (msg_interaction message = true
           \/ client_user (client a) = Some (user_id (msg_author message)) ->
           writes = []).
Proof.
  cbv zeta. unfold onClientMessageCreate.
  set (a0 := if enableRawStates mc then _ else a).
  assert (H0 : extendObjectCache a0 = extendObjectCache a /\ objects a0 = objects a
               /\ messageReceiveStates a0 = messageReceiveStates a
               /\ calls a0 = calls a
                    ++ (if enableRawStates mc
                        then [SetState "raw.messageJson" (JStr (msg_rawJson message)) true]
                        else [])).
  { subst a0. destruct (enableRawStates mc); [|now rewrite app_nil_r].
    rewrite setStateAsync_calls. unfold setStateAsync. now destruct (rejects a _). }
  destruct H0 as (HE & HO & HM & HC).
  destruct (messageGuards mc message a) as [reaction|prefix mentioned authorized reaction]
    eqn:Hguard.
  - cbn [fst snd]. repeat split; try assumption.
    exists []. rewrite HC. cbn. rewrite app_nil_r. repeat split; now left.
  - apply messageGuards_mirror in Hguard
      as (botId & Hbot & _ & Hint & Hself & _ & _ & _ & _ & Hprefix & Hreg & _).
    set (writes := messageWrites displayName message prefix mentioned authorized a).
    destruct (execAll_setStates writes a0) as (Hc & _ & He & Ho & Hm).
    destruct (execAll _ a0) as [ok a1]. cbn [snd] in Hc, He, Ho, Hm.
    set (a2 := if isDeepStrictEqual _ _ then a1 else _).
    assert (H2 : extendObjectCache a2 = extendObjectCache a /\ objects a2 = objects a
                 /\ messageReceiveStates a2 = messageReceiveStates a
                 /\ calls a2 = calls a
                      ++ (if enableRawStates mc
                          then [SetState "raw.messageJson" (JStr (msg_rawJson message)) true]
                          else [])
                      ++ ((fun w => SetState (fst w) (snd w) true) <$> writes)).
    { assert (Hsame : extendObjectCache a2 = extendObjectCache a1 /\ objects a2 = objects a1
                      /\ messageReceiveStates a2 = messageReceiveStates a1
                      /\ calls a2 = calls a1).
      { subst a2. now destruct (isDeepStrictEqual _ _). }
      destruct Hsame as (-> & -> & -> & ->).
      rewrite He, Ho, Hm, Hc, HE, HO, HM, HC, <- app_assoc. now repeat split. }
    destruct H2 as (H2E & H2O & H2M & H2C).
    assert (Hout : forall (okay : bool) (out : list Outgoing),
      extendObjectCache (snd (fst (okay, a2, out))) = extendObjectCache a
      /\ objects (snd (fst (okay, a2, out))) = objects a
      /\ messageReceiveStates (snd (fst (okay, a2, out))) = messageReceiveStates a
      /\ exists writes0,
           calls (snd (fst (okay, a2, out))) =
           calls a
           ++ (if enableRawStates mc
               then [SetState "raw.messageJson" (JStr (msg_rawJson message)) true] else [])
           ++ ((fun w => SetState (fst w) (snd w) true) <$> writes0)
           /\ (writes0 = []
               \/ exists prefix0,
                    msgStateIdPrefix a message = Some prefix0
                    /\ prefix0 +:+ ".message" ∈ messageReceiveStates a
                    /\ Forall (fun w => exists field,
                                 fst w = prefix0 +:+ ".message" +:+ field) writes0)
           /\ (msg_interaction message = true
               \/ client_user (client a) = Some (user_id (msg_author message)) ->
               writes0 = [])).
    { intros okay out. cbn [fst snd]. repeat split; try assumption.
      exists writes. repeat split; [assumption| |].
      - right. exists prefix. repeat split; try assumption. apply messageWrites_ids.
      - intros [Hi|Hs]; [congruence|]. rewrite Hbot in Hs. congruence. }
    destruct (negb ok); [apply Hout|].
    destruct (_ && _ && bool_decide _); [|apply Hout].
    destruct (checkUserAuthorization a _ _); apply Hout.
Qed.

Lemma execAll_setStates_accepted (writes : list (string * JsVal)) (a : Adapter) :
  (forall c, rejects a c = false) ->
  fst (execAll ((fun w => CSetState (fst w) (snd w)) <$> writes) a) = true
  /\ states (snd (execAll ((fun w => CSetState (fst w) (snd w)) <$> writes) a))
     = fold_left (fun m w => <[fixId a (fst w) := snd w]> m) writes (states a).
Proof.
  revert a. induction writes as [|[id v] writes IH]; intros a Hacc; [now split|].
  rewrite fmap_cons. cbn [execAll execCmd fst snd fold_left].
  unfold setStateAsync. rewrite Hacc.
  set (a1 := withStates _ _).
  destruct (IH a1) as (H1 & H2); [exact Hacc|].
  destruct (execAll _ a1) as [oks a2]. cbn [fst snd] in *. now rewrite H1, H2.
Qed.

Lemma fixId_own (s : Setting) (prefix rest : string) :
  startsWith prefix (namespace s +:+ ".") = true ->
  fixId s (prefix +:+ rest) = prefix +:+ rest.
Proof.
  intros H. unfold fixId.
  now rewrite (startsWith_trans _ prefix _ (startsWith_app prefix rest) H).
Qed.

(** X24.  What an incoming message mirrors is what a later reply refers
    to.  When the handler gets past its guards and the database accepts
    the writes, the states [<prefix>.message], [.messageId] and
    [.messageTimestamp] hold the content, the id and the timestamp of the
    message; so a [sendReply] or [sendReaction] value without [|], written
    afterwards for the same target, takes the id of this message as its
    message reference and the whole value as its content. *)
Theorem onClientMessageCreate_then_reply_reference
    (mc : MessageConfig) (displayName : option string) (t2c : gset string)
    (message : Message) (a : Adapter)
    (prefix : string) (mentioned authorized : bool) (reaction : list Outgoing)
    (val : string) :
  messageGuards mc message a = Mirror prefix mentioned authorized reaction ->
  (forall c, rejects a c = false) ->
  contains val "|" = false ->
  let r := onClientMessageCreate mc displayName t2c message a in
  let a' := snd (fst r) in
  fst (fst r) = true
  /\ getForeignStateVal (prefix +:+ ".message") a' = JStr (msg_content message)
  /\ getForeignStateVal (prefix +:+ ".messageId") a' = JStr (msg_id message)
  /\ getForeignStateVal (prefix +:+ ".messageTimestamp") a'
     = JNum (msg_createdTimestamp message)
  /\ pipeParts val prefix a' = (JStr (msg_id message), val).
Proof.
  intros Hguard Hacc Hval. cbv zeta.
  assert (Hown : startsWith prefix (namespace a +:+ ".") = true).
  { apply messageGuards_mirror in Hguard
      as (botId & _ & _ & _ & _ & _ & _ & _ & _ & Hprefix & _).
    now apply (msgStateIdPrefix_namespace a message). }
  assert (Hstates :
    fst (fst (onClientMessageCreate mc displayName t2c message a)) = true
    /\ exists m,
         states (snd (fst (onClientMessageCreate mc displayName t2c message a)))
         = <[prefix +:+ ".messageTimestamp" := JNum (msg_createdTimestamp message)]>
             (<[prefix +:+ ".messageId" := JStr (msg_id message)]>
                (<[prefix +:+ ".message" := JStr (msg_content message)]> m))).
  { unfold onClientMessageCreate. rewrite Hguard.
    set (a0 := if enableRawStates mc then _ else a).
    assert (Hset : setting a0 = setting a).
    { subst a0. destruct (enableRawStates mc); [|reflexivity]. apply setStateAsync_setting. }
    destruct (execAll_setStates_accepted
                (messageWrites displayName message prefix mentioned authorized a) a0)
      as (Hok & Hst).
    { intros c. rewrite Hset. apply Hacc. }
    destruct (execAll _ a0) as [ok a1]. cbn [fst snd] in Hok, Hst. subst ok.
    unfold messageWrites in Hst. rewrite !fold_left_app in Hst.
    cbn [fold_left fst snd] in Hst. rewrite Hset in Hst.
    rewrite !(fixId_own a prefix) in Hst by exact Hown.
    set (a2 := if isDeepStrictEqual _ _ then a1 else _).
    assert (H2 : states a2 = states a1).
    { subst a2. now destruct (isDeepStrictEqual _ _). }
    cbn [negb].
    assert (Hr : forall (out out' : list Outgoing) (c1 c2 : bool),
      fst (fst (if c1 then (if c2 then (true, a2, out) else (true, a2, out'))
                else (true, a2, out'))) = true
      /\ snd (fst (if c1 then (if c2 then (true, a2, out) else (true, a2, out'))
                   else (true, a2, out'))) = a2).
    { intros out out' [] []; now split. }
    match goal with
    | |- fst (fst ?x) = true /\ _ =>
        match x with
        | if ?c1 then (if ?c2 then (true, a2, ?out) else (true, a2, ?out')) else _ =>
            destruct (Hr out out' c1 c2) as [-> ->]
        end
    end.
    split; [reflexivity|]. rewrite H2, Hst. eexists. reflexivity. }
  destruct Hstates as (Hok & m & Hst).
  assert (Hne1 : prefix +:+ ".messageTimestamp" <> prefix +:+ ".messageId").
  { intros H. apply append_cancel in H. discriminate. }
  assert (Hne2 : prefix +:+ ".messageTimestamp" <> prefix +:+ ".message").
  { intros H. apply append_cancel in H. discriminate. }
  assert (Hne3 : prefix +:+ ".messageId" <> prefix +:+ ".message").
  { intros H. apply append_cancel in H. discriminate. }
  assert (Hid : getForeignStateVal (prefix +:+ ".messageId")
                  (snd (fst (onClientMessageCreate mc displayName t2c message a)))
                = JStr (msg_id message)).
  { unfold getForeignStateVal. rewrite Hst.
    rewrite lookup_insert_ne by exact Hne1. now rewrite lookup_insert_eq. }
  split; [exact Hok|]. split; [|split; [exact Hid|split]].
  - unfold getForeignStateVal. rewrite Hst.
    rewrite lookup_insert_ne by exact Hne2.
    rewrite lookup_insert_ne by exact Hne3. now rewrite lookup_insert_eq.
  - unfold getForeignStateVal. rewrite Hst. now rewrite lookup_insert_eq.
  - rewrite pipeParts_whole by (now left). now rewrite Hid.
Qed.

Lemma onClientMessageCreate_then_reply_reference_witness :
  fst (fst (onClientMessageCreate openConfig None ∅ helloMessage mirroringAdapter)) = true
  /\ getForeignStateVal ("discord.0.servers.5.channels.30.channels.31" +:+ ".message")
       (snd (fst (onClientMessageCreate openConfig None ∅ helloMessage mirroringAdapter)))
     = JStr (msg_content helloMessage)
  /\ getForeignStateVal ("discord.0.servers.5.channels.30.channels.31" +:+ ".messageId")
       (snd (fst (onClientMessageCreate openConfig None ∅ helloMessage mirroringAdapter)))
     = JStr (msg_id helloMessage)
  /\ getForeignStateVal
       ("discord.0.servers.5.channels.30.channels.31" +:+ ".messageTimestamp")
       (snd (fst (onClientMessageCreate openConfig None ∅ helloMessage mirroringAdapter)))
     = JNum (msg_createdTimestamp helloMessage)
  /\ pipeParts "thanks" "discord.0.servers.5.channels.30.channels.31"
       (snd (fst (onClientMessageCreate openConfig None ∅ helloMessage mirroringAdapter)))
     = (JStr (msg_id helloMessage), "thanks").
Proof.
  apply (onClientMessageCreate_then_reply_reference openConfig None ∅ helloMessage
           mirroringAdapter "discord.0.servers.5.channels.30.channels.31" true false []).
  - vm_compute. reflexivity.
  - intros c. reflexivity.
  - reflexivity.
Defined.



(** ** The token check of [onReady] *)

Lemma drop_one_dot (r : string) : drop 1 ("." +:+ r) = r.
Proof. reflexivity. Qed.

(** X26.  The token check of [onReady] accepts exactly the strings made of
    three parts joined by dots, of 24, of 6 and of 27 to 38 characters,
    each part of letters, digits, [-] and [_]; a token that is not a string
    is refused.  So an accepted token has two dots and between 59 and 70
    characters. *)
Theorem validToken_spec (token : JsVal) :
  (validToken token = true <->
   exists part1 part2 part3,
     token = JStr (part1 +:+ "." +:+ part2 +:+ "." +:+ part3)
     /\ String.length part1 = 24%nat /\ String.length part2 = 6%nat
     /\ (27 <= String.length part3 <= 38)%nat
     /\ allChars isTokenChar part1 = true
     /\ allChars isTokenChar part2 = true
     /\ allChars isTokenChar part3 = true)
  /\ (validToken token = true ->
      exists t, token = JStr t /\ (59 <= String.length t <= 70)%nat).
Proof.
  assert (Hspec : validToken token = true <->
   exists part1 part2 part3,
     token = JStr (part1 +:+ "." +:+ part2 +:+ "." +:+ part3)
     /\ String.length part1 = 24%nat /\ String.length part2 = 6%nat
     /\ (27 <= String.length part3 <= 38)%nat
     /\ allChars isTokenChar part1 = true
     /\ allChars isTokenChar part2 = true
     /\ allChars isTokenChar part3 = true).
  { split.
    - destruct token as [| | | |t| |]; try discriminate. unfold validToken.
      intros H. repeat (apply andb_prop in H as [H ?]).
      apply Nat.eqb_eq in H.
      match goal with Hs : startsWith (drop 24 t) "." = true |- _ =>
        apply startsWith_inv in Hs as [r1 Hr1] end.
      rewrite Hr1, drop_one_dot in *.
      match goal with Hs : startsWith (drop 6 r1) "." = true |- _ =>
        apply startsWith_inv in Hs as [r2 Hr2] end.
      rewrite Hr2, drop_one_dot in *.
      exists (take 24 t), (take 6 r1), r2.
      repeat match goal with
             | Hc : (_ =? _)%nat = true |- _ => apply Nat.eqb_eq in Hc
             | Hc : (_ <=? _)%nat = true |- _ => apply Nat.leb_le in Hc
             end.
      repeat split; try assumption.
      f_equal. rewrite <- (take_then_drop 24 t) at 1. rewrite Hr1. f_equal. f_equal.
      rewrite <- (take_then_drop 6 r1) at 1. now rewrite Hr2.
    - intros (p1 & p2 & p3 & -> & H1 & H2 & [H3 H3'] & C1 & C2 & C3).
      unfold validToken.
      assert (T1 : take 24 (p1 +:+ "." +:+ p2 +:+ "." +:+ p3) = p1).
      { rewrite <- H1. apply take_append. }
      assert (D1 : drop 24 (p1 +:+ "." +:+ p2 +:+ "." +:+ p3) = "." +:+ p2 +:+ "." +:+ p3).
      { rewrite <- H1. apply drop_append. }
      rewrite T1, D1, drop_one_dot.
      assert (T2 : take 6 (p2 +:+ "." +:+ p3) = p2).
      { rewrite <- H2. apply take_append. }
      assert (D2 : drop 6 (p2 +:+ "." +:+ p3) = "." +:+ p3).
      { rewrite <- H2. apply drop_append. }
      rewrite T2, D2, drop_one_dot, H1, H2, C1, C2, C3.
      apply Nat.leb_le in H3, H3'. rewrite H3, H3'. reflexivity. }
  split; [exact Hspec|].
  intros H. apply Hspec in H as (p1 & p2 & p3 & -> & H1 & H2 & [H3 H3'] & _).
  eexists. split; [reflexivity|].
  rewrite !length_append, H1, H2. cbn [String.length]. lia.
Qed.

(** ** Files *)

Lemma fileParts_split (l r : string) :
  contains l "|" = false -> l <> "" -> fileParts (l +:+ "|" +:+ r) = (l, JStr r).
Proof.
  intros Hl Hne. unfold fileParts.
  change (l +:+ "|" +:+ r) with (l +:+ String "|" r).
  rewrite indexOf_first by exact Hl.
  destruct l as [|c l]; [congruence|].
  replace (0 <? Z.of_nat (String.length (String c l))) with true
    by (symmetry; apply Z.ltb_lt; simpl; lia).
  now rewrite slice_prefix, slice_suffix.
Qed.

Lemma fileParts_whole (val : string) :
  contains val "|" = false \/ startsWith val "|" = true -> fileParts val = (val, JUndefined).
Proof.
  intros [H|H]; unfold fileParts.
  - now rewrite indexOf_absent.
  - apply startsWith_inv in H as [r ->]. reflexivity.
Qed.

Lemma slice_file_scheme (path : string) : slice ("file://" +:+ path) 7 None = path.
Proof.
  unfold slice. rewrite length_append.
  rewrite clampIndex_id by (simpl; lia).
  change (Z.to_nat 7) with (String.length "file://").
  rewrite drop_append.
  replace (Z.to_nat _) with (String.length path) by (simpl; lia).
  apply take_all.
Qed.

(** X27.  A dispatch of [sendFile] that reaches the action sends exactly one
    message with one file.  The value is [file|content], split at its first
    [|] when that is not the first character; a value without [|], or
    starting with [|], is the file as a whole and the content is undefined.
    A file that decodes as a base64 data URL is attached as the decoded
    buffer under the decoded name; any other file is attached by its
    location, without a leading [file://], under its base name. *)
Theorem onSendStateChange_sendFile
    (stateId val base : string) (st : State) (target : Target) (a : Adapter) :
  isReady (client a) = true ->
  state_val st = JStr val -> val <> "" ->
  resolveTarget stateId a = Some (target, base, "sendFile") ->
  forall file content,
    (val = file /\ content = JUndefined
     /\ (contains val "|" = false \/ startsWith val "|" = true))
    \/ (exists text, val = file +:+ "|" +:+ text /\ content = JStr text
                     /\ contains file "|" = false /\ file <> "") ->
    (forall buffer name,
        getBufferAndNameFromBase64String (runtime a) file = Some (buffer, name) ->
        onSendStateChange stateId st a = sentOnce target (fileMessage content buffer name) a)
    /\ (getBufferAndNameFromBase64String (runtime a) file = None ->
        (forall path, file = "file://" +:+ path ->
           onSendStateChange stateId st a
           = sentOnce target
               (fileMessage content (JStr path)
                  (getBasenameFromFilePathOrUrl (runtime a) file)) a)
        /\ (startsWith file "file://" = false ->
            onSendStateChange stateId st a
            = sentOnce target
                (fileMessage content (JStr file)
                   (getBasenameFromFilePathOrUrl (runtime a) file)) a)).
Proof.
  intros Hready Hval Hne Hres file content Hsplit.
  assert (Hparts : fileParts val = (file, content)).
  { destruct Hsplit as [(-> & -> & H)|(text & -> & -> & Hc & Hf)].
    - now apply fileParts_whole.
    - now apply fileParts_split. }
  assert (Hrun : onSendStateChange stateId st a
                 = match getBufferAndNameFromBase64String (runtime a) file with
                   | Some (buffer, name) => sendTo target (fileMessage content buffer name) a
                   | None =>
                       sendTo target
                         (fileMessage content
                            (JStr (if startsWith file "file://" then slice file 7 None else file))
                            (getBasenameFromFilePathOrUrl (runtime a) file)) a
                   end).
  { unfold onSendStateChange. rewrite Hready, Hval, (nonempty_length _ Hne), Hres.
    cbn [negb String.eqb Ascii.eqb Bool.eqb]. rewrite Hparts.
    destruct (getBufferAndNameFromBase64String _ _) as [[buffer name]|]; reflexivity. }
  split.
  - intros buffer name Hb. rewrite Hrun, Hb. reflexivity.
  - intros Hb. rewrite Hrun, Hb. split.
    + intros path ->. rewrite startsWith_app, slice_file_scheme. reflexivity.
    + intros ->. reflexivity.
Qed.

Lemma onSendStateChange_sendFile_witness :
  onSendStateChange "discord.0.users.7.sendFile"
    {| state_val := JStr "file:///tmp/cat.png|look"; state_ack := false |} commandAdapter
  = sentOnce (TUser alice)
      (fileMessage (JStr "look") (JStr "/tmp/cat.png") "file:///tmp/cat.png") commandAdapter.
Proof.
  refine (proj1 (proj2 (onSendStateChange_sendFile "discord.0.users.7.sendFile"
            "file:///tmp/cat.png|look" "discord.0.users.7"
            {| state_val := JStr "file:///tmp/cat.png|look"; state_ack := false |}
            (TUser alice) commandAdapter
            _ _ _ _ "file:///tmp/cat.png" (JStr "look") _) _) "/tmp/cat.png" _).
  - reflexivity.
  - reflexivity.
  - discriminate.
  - vm_compute. reflexivity.
  - right. exists "look". repeat split; try reflexivity. discriminate.
  - reflexivity.
  - reflexivity.
Defined.

(** ** The two revisions of the outbound commands *)

Lemma spanDigits_inv (s d r : string) :
  spanDigits s = (d, r) -> s = d +:+ r /\ allDigits d = true.
Proof.
  revert d r. induction s as [|c s IH]; intros d r; cbn [spanDigits].
  - intros [= <- <-]. now split.
  - destruct (isDigit c) eqn:Hc.
    + destruct (spanDigits s) as [d' r'] eqn:Hs. intros [= <- <-].
      destruct (IH d' r' eq_refl) as [-> Hd]. split; [reflexivity|].
      cbn [allDigits]. now rewrite Hc.
    + intros [= <- <-]. now split.
Qed.

Lemma digits1_inv (s d r : string) :
  digits1 s = Some (d, r) -> s = d +:+ r /\ allDigits d = true.
Proof.
  unfold digits1. destruct (spanDigits s) as [d' r'] eqn:Hs.
  destruct d' as [|c d']; [discriminate|]. intros [= <- <-].
  now apply spanDigits_inv.
Qed.

Lemma actionSuffix_inv (r act : string) :
  actionSuffix r = Some act -> r = "." +:+ act /\ isSendAction act = true.
Proof.
  unfold actionSuffix. destruct (stripPrefix "." r) as [x|] eqn:Hx; [|discriminate].
  cbn [mbind option_bind]. destruct (isSendAction x) eqn:Hact; [|discriminate].
  intros [= <-]. split; [|exact Hact]. now apply stripPrefix_spec in Hx.
Qed.

Lemma oneLine_app (x y : string) :
  Ts.oneLine x = true -> Ts.oneLine y = true -> Ts.oneLine (x +:+ y) = true.
Proof.
  intros Hx Hy. induction x as [|c x IH]; [exact Hy|].
  cbn [Ts.oneLine String.append] in *.
  apply andb_prop in Hx as [Hc Hx]. now rewrite Hc, (IH Hx).
Qed.

Lemma allDigits_oneLine (d : string) : allDigits d = true -> Ts.oneLine d = true.
Proof.
  induction d as [|c d IH]; [reflexivity|]. cbn [allDigits Ts.oneLine].
  intros [Hc Hd]%andb_prop. rewrite (IH Hd), andb_true_r.
  destruct (Ascii.eqb_spec c "010") as [->|_]; [vm_compute in Hc; discriminate Hc|].
  destruct (Ascii.eqb_spec c "013") as [->|_]; [vm_compute in Hc; discriminate Hc|].
  reflexivity.
Qed.

(** The first pattern matches a dotted base of digits and literals, a dot
    and one of the four actions. *)
Lemma matchSendChannel_inv (stateId base guildId channelId act : string) :
  matchSendChannel stateId = Some (base, guildId, channelId, act) ->
  stateId = base +:+ "." +:+ act /\ isSendAction act = true
  /\ Ts.oneLine base = true /\ startsWith base "discord." = true.
Proof.
  unfold matchSendChannel.
  destruct (stripPrefix "discord." stateId) as [r0|] eqn:H0; [|discriminate].
  cbn [mbind option_bind].
  destruct (digits1 r0) as [[inst r1]|] eqn:H1; [|discriminate]. cbn [mbind option_bind].
  destruct (stripPrefix ".servers." r1) as [r2|] eqn:H2; [|discriminate].
  cbn [mbind option_bind].
  destruct (digits1 r2) as [[g r3]|] eqn:H3; [|discriminate]. cbn [mbind option_bind].
  destruct (stripPrefix ".channels." r3) as [r4|] eqn:H4; [|discriminate].
  cbn [mbind option_bind].
  destruct (digits1 r4) as [[c r5]|] eqn:H5; [|discriminate]. cbn [mbind option_bind].
  apply stripPrefix_spec in H0, H2, H4.
  apply digits1_inv in H1 as [E1 D1], H3 as [E3 D3], H5 as [E5 D5].
  assert (Hbase : Ts.oneLine ("discord." +:+ inst +:+ ".servers." +:+ g
                              +:+ ".channels." +:+ c) = true).
  { repeat first [ reflexivity | apply allDigits_oneLine; assumption
                 | apply oneLine_app | progress cbn ]. }
  assert (Hid : forall rest, stateId = ("discord." +:+ inst +:+ ".servers." +:+ g
                                          +:+ ".channels." +:+ c) +:+ rest <-> r5 = rest).
  { intros rest. subst stateId r0 r1 r2 r3 r4. rewrite !append_assoc.
    split; [|now intros ->].
    intros H. repeat (apply append_cancel in H). exact H. }
  destruct (stripPrefix ".channels." r5) as [r6|] eqn:H6; cbn [mbind option_bind].
  - destruct (digits1 r6) as [[sub r7]|] eqn:H7; cbn [mbind option_bind].
    + destruct (actionSuffix r7) as [a7|] eqn:H8; cbn [mbind option_bind].
      * intros [= <- <- <- <-].
        apply stripPrefix_spec in H6. apply digits1_inv in H7 as [E7 D7].
        apply actionSuffix_inv in H8 as [E8 Hact].
        repeat split; try assumption; try reflexivity.
        -- clear Hid Hbase. subst.
           repeat (first [rewrite append_assoc | progress cbn [String.append]]). reflexivity.
        -- repeat first [ reflexivity | apply allDigits_oneLine; assumption
                        | apply oneLine_app | progress cbn ].
      * destruct (actionSuffix r5) as [a5|] eqn:H9; [|discriminate].
        cbn [mbind option_bind]. intros [= <- <- <- <-].
        apply actionSuffix_inv in H9 as [E9 Hact].
        repeat split; try assumption; try reflexivity. now apply Hid.
    + destruct (actionSuffix r5) as [a5|] eqn:H9; [|discriminate].
      cbn [mbind option_bind]. intros [= <- <- <- <-].
      apply actionSuffix_inv in H9 as [E9 Hact].
      repeat split; try assumption; try reflexivity. now apply Hid.
  - destruct (actionSuffix r5) as [a5|] eqn:H9; [|discriminate].
    cbn [mbind option_bind]. intros [= <- <- <- <-].
    apply actionSuffix_inv in H9 as [E9 Hact].
    repeat split; try assumption; try reflexivity. now apply Hid.
Qed.

Lemma matchSendUser_inv (stateId base userId act : string) :
  matchSendUser stateId = Some (base, userId, act) ->
  stateId = base +:+ "." +:+ act /\ isSendAction act = true
  /\ Ts.oneLine base = true /\ startsWith base "discord." = true.
Proof.
  unfold matchSendUser.
  destruct (stripPrefix "discord." stateId) as [r0|] eqn:H0; [|discriminate].
  cbn [mbind option_bind].
  destruct (digits1 r0) as [[inst r1]|] eqn:H1; [|discriminate]. cbn [mbind option_bind].
  destruct (stripPrefix ".users." r1) as [r2|] eqn:H2; [|discriminate].
  cbn [mbind option_bind].
  destruct (digits1 r2) as [[u r3]|] eqn:H3; [|discriminate]. cbn [mbind option_bind].
  destruct (actionSuffix r3) as [a3|] eqn:H4; [|discriminate]. cbn [mbind option_bind].
  intros [= <- <- <-].
  apply stripPrefix_spec in H0, H2.
  apply digits1_inv in H1 as [E1 D1], H3 as [E3 D3].
  apply actionSuffix_inv in H4 as [E4 Hact].
  repeat split; try assumption; try reflexivity.
  - subst. repeat (first [rewrite append_assoc | progress cbn [String.append]]). reflexivity.
  - repeat first [ reflexivity | apply allDigits_oneLine; assumption
                 | apply oneLine_app | progress cbn ].
Qed.

(** What the patterns of [build/main.js] take apart: the state id is the
    base, a dot and the action. *)
Lemma resolveTarget_stateId (stateId base action : string) (target : Target) (a : Adapter) :
  resolveTarget stateId a = Some (target, base, action) ->
  stateId = base +:+ "." +:+ action /\ isSendAction action = true
  /\ Ts.oneLine base = true /\ startsWith base "discord." = true.
Proof.
  unfold resolveTarget.
  destruct (matchSendChannel stateId) as [[[[b guildId] channelId] act]|] eqn:Hm.
  - destruct (guilds_cache (client a) !! guildId ≫= _) as [channel|]; [|discriminate].
    destruct (negb (channel_isText channel) || channel_isThread channel); [discriminate|].
    intros [= _ <- <-]. now apply matchSendChannel_inv in Hm.
  - destruct (matchSendUser stateId) as [[[b userId] act]|] eqn:Hu; [|discriminate].
    destruct (users_cache (client a) !! userId) as [user|]; [|discriminate].
    intros [= _ <- <-]. now apply matchSendUser_inv in Hu.
Qed.

Lemma splitLastDot_none (s : string) : contains s "." = false -> Ts.splitLastDot s = None.
Proof.
  induction s as [|c s IH]; [reflexivity|]. cbn [contains Ts.splitLastDot].
  intros [Hc Hs]%orb_false_elim. now rewrite (IH Hs), Hc.
Qed.

Lemma splitLastDot_app (pre suf : string) :
  contains suf "." = false -> Ts.splitLastDot (pre +:+ "." +:+ suf) = Some (pre, suf).
Proof.
  intros Hs. induction pre as [|c pre IH].
  - change ("" +:+ "." +:+ suf) with (String "." suf). cbn [Ts.splitLastDot].
    now rewrite (splitLastDot_none _ Hs).
  - change (String c pre +:+ "." +:+ suf) with (String c (pre +:+ "." +:+ suf)).
    cbn [Ts.splitLastDot]. now rewrite IH.
Qed.

(** [stateIdChannel] of [src/main.ts] is [targetStateIdBase] of
    [build/main.js]. *)
Lemma stateIdChannelOf_base (base action : string) :
  isSendAction action = true -> Ts.oneLine base = true -> startsWith base "discord." = true ->
  Ts.stateIdChannelOf (base +:+ "." +:+ action) = base.
Proof.
  intros Hact Hline Hpre. unfold Ts.stateIdChannelOf.
  rewrite splitLastDot_app
    by (destruct (isSendAction_cases _ Hact) as [->|[->|[->| ->]]]; reflexivity).
  rewrite Hline.
  replace (String.eqb base "") with false
    by (apply startsWith_inv in Hpre as [r ->]; reflexivity).
  destruct (isSendAction_cases _ Hact) as [->|[->|[->| ->]]]; reflexivity.
Qed.

(** Two suffix tests on one string agree with the test of the longer suffix
    for the shorter one. *)
Lemma endsWith_both (s p q : string) :
  (String.length q <= String.length p)%nat ->
  endsWith s p = true -> endsWith s q = endsWith p q.
Proof.
  intros Hlen [r ->]%endsWith_spec. now apply endsWith_app.
Qed.

(** The suffix tests of [src/main.ts] read the action of [build/main.js]. *)
Lemma endsWith_action (base action other : string) :
  isSendAction action = true -> isSendAction other = true ->
  endsWith (base +:+ "." +:+ action) ("." +:+ other) = String.eqb action other.
Proof.
  intros Ha Ho.
  assert (Hlast : forall s p c, endsWith s c = true -> endsWith p c = false ->
                    (String.length c <= String.length p)%nat -> endsWith s p = false).
  { intros s p c Hs Hp Hlen. destruct (endsWith s p) eqn:E; [|reflexivity].
    rewrite (endsWith_both s p c Hlen E) in Hs. congruence. }
  destruct (isSendAction_cases _ Ha) as [->|[->|[->| ->]]];
    destruct (isSendAction_cases _ Ho) as [->|[->|[->| ->]]];
    cbn [String.eqb Ascii.eqb Bool.eqb];
    try (rewrite endsWith_app by (simpl; lia); reflexivity).
  all: first
    [ apply (Hlast _ _ "d"); [rewrite endsWith_app by (simpl; lia); reflexivity
                             | reflexivity | simpl; lia]
    | apply (Hlast _ _ "e"); [rewrite endsWith_app by (simpl; lia); reflexivity
                             | reflexivity | simpl; lia]
    | apply (Hlast _ _ "n"); [rewrite endsWith_app by (simpl; lia); reflexivity
                             | reflexivity | simpl; lia]
    | apply (Hlast _ _ "y"); [rewrite endsWith_app by (simpl; lia); reflexivity
                             | reflexivity | simpl; lia] ].
Qed.

(** X28.  The two revisions do the same with [send], [sendReply] and
    [sendReaction].  Where the patterns of [build/main.js] resolve a state id
    to a target and the table [stateId2SendTargetInfo] of [src/main.ts]
    names the same target under the base of the state id, both handlers
    return the same result and leave the same call log, for every state. *)
Theorem onSendStateChange_revisions_agree
    (stateId base action : string) (target : Target) (st : State) (a : Adapter) :
  resolveTarget stateId a = Some (target, base, action) ->
  action <> "sendFile" ->
  (exists info, stateId2SendTargetInfo a !! base = Some info /\ sameTargetInfo info target) ->
  Ts.onSendStateChange stateId st a = onSendStateChange stateId st a.
Proof.
  intros Hres Hfile (info & Hinfo & Hsame).
  destruct (resolveTarget_stateId _ _ _ _ _ Hres) as (-> & Hact & Hline & Hpre).
  pose proof (resolveTarget_cached _ _ _ _ _ Hres) as Hcached.
  assert (Hts : Ts.resolveTarget (base +:+ "." +:+ action) a = Some (target, base)).
  { unfold Ts.resolveTarget. rewrite (stateIdChannelOf_base _ _ Hact Hline Hpre), Hinfo.
    destruct info as [g gname ch|u], target as [g' ch'|u']; cbn in Hsame; try contradiction.
    - destruct Hsame as [<- <-]. cbn in Hcached.
      destruct Hcached as (Htext & _). now rewrite Htext.
    - now subst. }
  unfold Ts.onSendStateChange, onSendStateChange. rewrite Hts, Hres.
  pose proof (endsWith_action base action "sendFile" Hact eq_refl) as E1.
  pose proof (endsWith_action base action "sendReply" Hact eq_refl) as E2.
  pose proof (endsWith_action base action "sendReaction" Hact eq_refl) as E3.
  change ("." +:+ "sendFile") with ".sendFile" in E1.
  change ("." +:+ "sendReply") with ".sendReply" in E2.
  change ("." +:+ "sendReaction") with ".sendReaction" in E3.
  rewrite E1, E2, E3.
  destruct (String.eqb_spec action "sendFile") as [E|_]; [contradiction|].
  reflexivity.
Qed.

Lemma onSendStateChange_revisions_agree_witness :
  Ts.onSendStateChange "discord.0.servers.5.channels.30.channels.31.sendReply"
    {| state_val := JStr "hello"; state_ack := false |} commandAdapter
  = onSendStateChange "discord.0.servers.5.channels.30.channels.31.sendReply"
      {| state_val := JStr "hello"; state_ack := false |} commandAdapter.
Proof.
  apply (onSendStateChange_revisions_agree
           "discord.0.servers.5.channels.30.channels.31.sendReply"
           "discord.0.servers.5.channels.30.channels.31" "sendReply"
           (TChannel "5" general)).
  - vm_compute. reflexivity.
  - discriminate.
  - exists (ToChannel "5" "Home" general). split; [vm_compute; reflexivity | now split].
Defined.
